(** * EMI reminder dashboard: the loan registry and the notification
      dispatcher of [ap3.py], embedded over an explicit store.

    The Python script keeps three SQLite tables ([customers], [loans],
    [call_logs]) behind two helpers, [query_all] and [execute], and wires
    its operations ([place_call], [send_payment_link], [mark_paid],
    [reschedule_loan]) to buttons.  The tables are modelled as lists of
    rows in rowid order, the SQL statements as functions on them, the
    operations as programs of a small state-and-exception monad. *)

From Stdlib Require Import ZArith List String Ascii Bool Lia.
From Stdlib Require Import Sorting.Sorted DecimalString.
Import ListNotations.

Open Scope Z_scope.

(* ------------------------------------------------------------------ *)
(** ** Python values shared by the whole script *)

(** The exceptions the modelled code can raise. *)
Inductive exn : Type :=
| ValueError
| OverflowError
| KeyError (k : string)
| TwilioException.

(** A Python call either returns a value or raises. *)
Inductive outcome (A : Type) : Type :=
| Ret (a : A)
| Raise (e : exn).
Arguments Ret {A} a.
Arguments Raise {A} e.

(** [str(n)] for a Python [int]. *)
Definition str_of_int (n : Z) : string := NilZero.string_of_int (Z.to_int n).

(** A [dict] with string keys, in insertion order. *)
Definition dict (V : Type) : Type := list (string * V).

Fixpoint dict_get {V : Type} (d : dict V) (k : string) : option V :=
  match d with
  | [] => None
  | (k', v) :: d' => if String.eqb k' k then Some v else dict_get d' k
  end.

(** [k in d]. *)
Definition dict_mem {V : Type} (d : dict V) (k : string) : bool :=
  match dict_get d k with Some _ => true | None => false end.

(** [s] occurs inside [t]. *)
Definition contains (t s : string) : Prop :=
  exists pre post : string, t = (pre ++ s ++ post)%string.

(* ------------------------------------------------------------------ *)
(** ** [datetime.date]: proleptic Gregorian dates, as the script uses them

    [due_date] is stored as the text [date.isoformat()] writes and is
    read back with [datetime.fromisoformat(...).date()]; [reschedule_loan]
    adds a [timedelta] to it.  The definitions follow the pure-Python
    [datetime] module. *)
Module PyDate.

Record date : Type := mkdate { year : Z; month : Z; day : Z }.

Definition MINYEAR : Z := 1.
Definition MAXYEAR : Z := 9999.
(** [date(9999, 12, 31).toordinal()] *)
Definition MAXORDINAL : Z := 3652059.

Definition is_leap (y : Z) : bool :=
  (y mod 4 =? 0) && (negb (y mod 100 =? 0) || (y mod 400 =? 0)).

Definition DAYS_IN_MONTH (m : Z) : Z :=
  match m with
  | 1 => 31 | 2 => 28 | 3 => 31 | 4 => 30 | 5 => 31 | 6 => 30
  | 7 => 31 | 8 => 31 | 9 => 30 | 10 => 31 | 11 => 30 | 12 => 31
  | _ => -1
  end.

Definition DAYS_BEFORE_MONTH (m : Z) : Z :=
  match m with
  | 1 => 0 | 2 => 31 | 3 => 59 | 4 => 90 | 5 => 120 | 6 => 151
  | 7 => 181 | 8 => 212 | 9 => 243 | 10 => 273 | 11 => 304 | 12 => 334
  | _ => -1
  end.

Definition days_before_year (y : Z) : Z :=
  let y := y - 1 in y * 365 + y / 4 - y / 100 + y / 400.

Definition days_in_month (y m : Z) : Z :=
  if (m =? 2) && is_leap y then 29 else DAYS_IN_MONTH m.

Definition days_before_month (y m : Z) : Z :=
  DAYS_BEFORE_MONTH m + (if (2 <? m) && is_leap y then 1 else 0).

Definition ymd2ord (y m d : Z) : Z :=
  days_before_year y + days_before_month y m + d.

Definition DI400Y : Z := 146097.
Definition DI100Y : Z := 36524.
Definition DI4Y : Z := 1461.

Definition ord2ymd (n : Z) : date :=
  let n := n - 1 in
  let n400 := n / DI400Y in
  let n := n mod DI400Y in
  let y := n400 * 400 + 1 in
  let n100 := n / DI100Y in
  let n := n mod DI100Y in
  let n4 := n / DI4Y in
  let n := n mod DI4Y in
  let n1 := n / 365 in
  let n := n mod 365 in
  let y := y + n100 * 100 + n4 * 4 + n1 in
  if (n1 =? 4) || (n100 =? 4) then mkdate (y - 1) 12 31
  else
    let leapyear := (n1 =? 3) && (negb (n4 =? 24) || (n100 =? 3)) in
    let m := Z.shiftr (n + 50) 5 in
    let preceding :=
      DAYS_BEFORE_MONTH m + (if (2 <? m) && leapyear then 1 else 0) in
    if n <? preceding then
      let m := m - 1 in
      let preceding :=
        preceding
        - (DAYS_IN_MONTH m + (if (m =? 2) && leapyear then 1 else 0)) in
      mkdate y m (n - preceding + 1)
    else mkdate y m (n - preceding + 1).

(** The check the [date] constructor performs on its fields. *)
Definition check_date_fields (d : date) : bool :=
  (MINYEAR <=? year d) && (year d <=? MAXYEAR)
  && (1 <=? month d) && (month d <=? 12)
  && (1 <=? day d) && (day d <=? days_in_month (year d) (month d)).

Definition toordinal (d : date) : Z := ymd2ord (year d) (month d) (day d).

Definition fromordinal (n : Z) : date := ord2ymd n.

(** [d + timedelta(days=n)]: a [timedelta] holds at most 999999999 days,
    and the sum must stay a date. *)
Definition add_days (d : date) (n : Z) : outcome date :=
  if (-999999999 <=? n) && (n <=? 999999999) then
    let o := toordinal d + n in
    if (0 <? o) && (o <=? MAXORDINAL) then Ret (fromordinal o)
    else Raise OverflowError
  else Raise OverflowError.

(** Dates compare as their [(year, month, day)] triples. *)
Definition leb (a b : date) : bool :=
  (year a <? year b)
  || ((year a =? year b)
      && ((month a <? month b)
          || ((month a =? month b) && (day a <=? day b)))).

(** *** Text forms *)

Definition digit (k : Z) : ascii := ascii_of_N (48 + Z.to_N k).

Definition digit_val (c : ascii) : option Z :=
  let n := Z.of_N (N_of_ascii c) in
  if (48 <=? n) && (n <=? 57) then Some (n - 48) else None.

(** ["%02d" % n] and ["%04d" % n] on the fields of a date. *)
Definition fmt02 (n : Z) : string :=
  String (digit (n / 10)) (String (digit (n mod 10)) EmptyString).

Definition fmt04 (n : Z) : string :=
  String (digit (n / 1000))
    (String (digit (n / 100 mod 10))
       (String (digit (n / 10 mod 10))
          (String (digit (n mod 10)) EmptyString))).

(** [date.isoformat()], i.e. ["%04d-%02d-%02d"]. *)
Definition isoformat (d : date) : string :=
  (fmt04 (year d) ++ "-" ++ fmt02 (month d) ++ "-" ++ fmt02 (day d))%string.

(** [datetime.fromisoformat(s).date()] on the ten-character form
    [YYYY-MM-DD] that [isoformat] writes; every due date the script stores
    has this form.  The fields go through the [date] constructor.
    Python reads other texts as well (a date followed by a time, and
    from 3.11 the basic and the week forms): on a text of another form
    this function raises where Python may return.  A result [Ret d] is
    Python's result on every text; a [Raise] is Python's on the texts of
    this form, the only ones the script writes (see [wf_db]). *)
Definition fromisoformat (s : string) : outcome date :=
  match s with
  | String y3 (String y2 (String y1 (String y0 (String sep1
      (String m1 (String m0 (String sep2
        (String d1 (String d0 EmptyString))))))))) =>
      match digit_val y3, digit_val y2, digit_val y1, digit_val y0 with
      | Some a3, Some a2, Some a1, Some a0 =>
          if negb (Ascii.eqb sep1 "-") then Raise ValueError
          else
            match digit_val m1, digit_val m0 with
            | Some b1, Some b0 =>
                if negb (Ascii.eqb sep2 "-") then Raise ValueError
                else
                  match digit_val d1, digit_val d0 with
                  | Some c1, Some c0 =>
                      let d := mkdate (a3 * 1000 + a2 * 100 + a1 * 10 + a0)
                                      (b1 * 10 + b0) (c1 * 10 + c0) in
                      if check_date_fields d then Ret d else Raise ValueError
                  | _, _ => Raise ValueError
                  end
            | _, _ => Raise ValueError
            end
      | _, _, _, _ => Raise ValueError
      end
  | _ => Raise ValueError
  end.

Definition month_name (m : Z) : string :=
  match m with
  | 1 => "January" | 2 => "February" | 3 => "March" | 4 => "April"
  | 5 => "May" | 6 => "June" | 7 => "July" | 8 => "August"
  | 9 => "September" | 10 => "October" | 11 => "November"
  | 12 => "December" | _ => EmptyString
  end%string.

(** [strftime('%B %d, %Y')] in the C locale (the year on four digits). *)
Definition strftime_B_d_Y (d : date) : string :=
  (month_name (month d) ++ " " ++ fmt02 (day d) ++ ", " ++ fmt04 (year d))%string.

End PyDate.

(* ------------------------------------------------------------------ *)
(** ** The store: three tables, rows in rowid order

    [id INTEGER PRIMARY KEY AUTOINCREMENT] makes [id] the rowid of each
    table.  A statement without [ORDER BY] scans a table by rowid, so a
    table is the list of its rows in that order.  The [ts] column of
    [call_logs] is filled by the store's clock ([DEFAULT
    CURRENT_TIMESTAMP]); no modelled operation reads or writes it, and it
    is left out of the row. *)

Module Customer.
Record t : Type := mk { id : Z; name : string; phone : string; language : string }.
End Customer.

Module Loan.
Record t : Type :=
  mk { id : Z; customer_id : Z; emi_amount : Z; due_date : string; status : string }.
End Loan.

Module CallLog.
Record t : Type := mk { id : Z; loan_id : Z; event : string; detail : string }.
End CallLog.

Record db : Type :=
  mkdb { customers : list Customer.t; loans : list Loan.t; call_logs : list CallLog.t }.

(** The rowid an [INSERT] gives a new row: one more than the largest in
    the table (rows are never deleted). *)
Definition next_id (ids : list Z) : Z := 1 + fold_right Z.max 0 ids.

(** *** The state-and-exception monad of the operations

    [execute] commits after every statement, so what was written before
    an exception stays written. *)
Definition M (A : Type) : Type := db -> db * outcome A.

Definition ret {A : Type} (a : A) : M A := fun s => (s, Ret a).

Definition bind {A B : Type} (m : M A) (f : A -> M B) : M B :=
  fun s =>
    match m s with
    | (s', Ret a) => f a s'
    | (s', Raise e) => (s', Raise e)
    end.

(** A pure Python call that may raise. *)
Definition lift {A : Type} (o : outcome A) : M A := fun s => (s, o).

(** The integers an [INTEGER] column holds and [cur.execute] binds: the
    signed 64-bit ones.  For a Python [int] outside them [cur.execute]
    raises [OverflowError] before the statement runs; [query_all] and
    [execute] below are the helpers on arguments that can be bound, and
    what is stated of an operation for a loan id a caller supplies is
    stated for ids within this range. *)
Definition INT64_MIN : Z := -9223372036854775808.
Definition INT64_MAX : Z := 9223372036854775807.

Definition sqlite_int (i : Z) : bool := (INT64_MIN <=? i) && (i <=? INT64_MAX).

(** [query_all]: reads, never writes.  (Arguments within [sqlite_int].) *)
Definition query_all {A : Type} (q : db -> list A) : M (list A) :=
  fun s => (s, Ret (q s)).

(** [execute]: runs a statement and returns [cur.lastrowid].  (Arguments
    within [sqlite_int].) *)
Definition execute (q : db -> db * Z) : M Z :=
  fun s => let (s', rowid) := q s in (s', Ret rowid).

Declare Scope py_scope.
Delimit Scope py_scope with py.
Notation "x <- m ;; k" := (bind m (fun x => k))
  (at level 61, m at next level, right associativity) : py_scope.
Notation "m ;;; k" := (bind m (fun _ => k))
  (at level 61, right associativity) : py_scope.

(** *** The SQL statements of the script *)
Module Sql.

(** [INSERT INTO customers (name, phone, language) VALUES (?, ?, ?)] *)
Definition insert_customer (name phone language : string) (s : db) : db * Z :=
  let i := next_id (map Customer.id (customers s)) in
  (mkdb (customers s ++ [Customer.mk i name phone language]) (loans s) (call_logs s), i).

(** [INSERT INTO loans (customer_id, emi_amount, due_date) VALUES (?, ?, ?)];
    [status] takes its default, ['due']. *)
Definition insert_loan (customer_id emi_amount : Z) (due_date : string) (s : db)
  : db * Z :=
  let i := next_id (map Loan.id (loans s)) in
  (mkdb (customers s)
        (loans s ++ [Loan.mk i customer_id emi_amount due_date "due"])
        (call_logs s), i).

(** [INSERT INTO call_logs (loan_id, event, detail) VALUES (?, ?, ?)] *)
Definition insert_call_log (loan_id : Z) (event detail : string) (s : db) : db * Z :=
  let i := next_id (map CallLog.id (call_logs s)) in
  (mkdb (customers s) (loans s)
        (call_logs s ++ [CallLog.mk i loan_id event detail]), i).

(** [cur.lastrowid] of the fresh cursor of an [UPDATE] names no row; the
    script never reads it. *)
Definition no_rowid : Z := 0.

(** What [SET status = 'paid' ... WHERE id = ?] does to one row. *)
Definition set_paid (loan_id : Z) (l : Loan.t) : Loan.t :=
  if Loan.id l =? loan_id
  then Loan.mk (Loan.id l) (Loan.customer_id l) (Loan.emi_amount l)
               (Loan.due_date l) "paid"
  else l.

(** [UPDATE loans SET status = 'paid' WHERE id = ?] *)
Definition update_paid (loan_id : Z) (s : db) : db * Z :=
  (mkdb (customers s) (map (set_paid loan_id) (loans s)) (call_logs s),
   no_rowid).

(** What [SET status = 'rescheduled', due_date = ? ... WHERE id = ?] does
    to one row. *)
Definition set_rescheduled (new_due_date : string) (loan_id : Z) (l : Loan.t)
  : Loan.t :=
  if Loan.id l =? loan_id
  then Loan.mk (Loan.id l) (Loan.customer_id l) (Loan.emi_amount l)
               new_due_date "rescheduled"
  else l.

(** [UPDATE loans SET status = 'rescheduled', due_date = ? WHERE id = ?] *)
Definition update_rescheduled (new_due_date : string) (loan_id : Z) (s : db)
  : db * Z :=
  (mkdb (customers s) (map (set_rescheduled new_due_date loan_id) (loans s))
        (call_logs s), no_rowid).

(** The rows of [loans l JOIN customers c ON l.customer_id = c.id]. *)
Definition joined (s : db) : list (Loan.t * Customer.t) :=
  flat_map (fun l =>
              map (fun c => (l, c))
                  (filter (fun c => Loan.customer_id l =? Customer.id c)
                          (customers s)))
           (loans s).

(** [SELECT l.id, l.emi_amount, l.due_date, c.name, c.phone, c.language
     FROM loans l JOIN customers c ON l.customer_id = c.id WHERE l.id = ?]
    (and the narrower column list of [send_payment_link]). *)
Definition select_loan_view (loan_id : Z) (s : db) : list (Loan.t * Customer.t) :=
  filter (fun r => Loan.id (fst r) =? loan_id) (joined s).

(** [SELECT due_date FROM loans WHERE id = ?] *)
Definition select_due_date (loan_id : Z) (s : db) : list string :=
  map Loan.due_date (filter (fun l => Loan.id l =? loan_id) (loans s)).

(** [SELECT id FROM loans WHERE due_date <= ? AND status='due']; text
    columns compare byte by byte. *)
Definition select_overdue (today : string) (s : db) : list Z :=
  map Loan.id
      (filter (fun l => String.leb (Loan.due_date l) today
                        && String.eqb (Loan.status l) "due")
              (loans s)).

(** [SELECT id FROM loans WHERE due_date = ? AND status='due'] *)
Definition select_pre_due (pre_due_date : string) (s : db) : list Z :=
  map Loan.id
      (filter (fun l => String.eqb (Loan.due_date l) pre_due_date
                        && String.eqb (Loan.status l) "due")
              (loans s)).

End Sql.

(* ------------------------------------------------------------------ *)
(** ** Language messages *)

(** [LANG_MSGS]: language code, then message key, to template. *)
Definition LANG_MSGS : dict (dict string) :=
  [
   ("en",
    [
      ("reminder",
       "Hello {name}. This is a reminder from TVS Credit. Your EMI of Rs {amount} is due today. Press 1 to pay now, or press 2 to request a reschedule.");
      ("pre_due_reminder",
       "Hello {name}. A friendly reminder from TVS Credit. Your EMI of Rs {amount} is due on {due_date}. Thank you.");
      ("link_sent",
       "We have sent a payment link to your phone. Thank you.");
      ("rescheduled",
       "Your request has been noted. An agent will call you back shortly to confirm a new date. Thank you.")
    ]);
   ("hi",
    [
      ("reminder",
       "नमस्ते {name}. TVS क्रेडिट से रिमाइंडर। आपकी EMI {amount} रुपये आज देय है। भुगतान के लिए 1 दबाएँ, पुनर्निर्धारण के लिए 2 दबाएँ।");
      ("pre_due_reminder",
       "नमस्ते {name}. TVS क्रेडिट से एक सूचना। आपकी EMI {amount} रुपये {due_date} को देय है। धन्यवाद।");
      ("link_sent",
       "हमने आपके नंबर पर भुगतान लिंक भेज दिया है। धन्यवाद।");
      ("rescheduled",
       "आपका अनुरोध नोट कर लिया गया है। एक एजेंट आपको एक नई तारीख की पुष्टि करने के लिए जल्द ही कॉल करेगा। धन्यवाद।")
    ]);
   ("bn",
    [
      ("reminder",
       "নমস্কার {name}. TVS Credit থেকে একটি রিমাইন্ডার। আপনার EMI {amount} টাকা আজ বাকি আছে। পে করতে 1 চেপে দিন, পুনঃনির্ধারণ করতে 2 চেপে দিন।");
      ("pre_due_reminder",
       "নমস্কার {name}. TVS Credit থেকে একটি বন্ধুত্বপূর্ণ রিমাইন্ডার। আপনার EMI {amount} টাকা {due_date} তারিখে বাকি আছে। ধন্যবাদ।");
      ("link_sent",
       "পেমেন্ট লিঙ্ক আপনার ফোনে পাঠানো হয়েছে। ধন্যবাদ।");
      ("rescheduled",
       "আপনার অনুরোধ নোট করা হয়েছে। একজন এজেন্ট একটি নতুন তারিখ নিশ্চিত করতে আপনাকে শীঘ্রই আবার কল করবে। ধন্যবাদ।")
    ]);
   ("ta",
    [
      ("reminder",
       "வணக்கம் {name}. TVS Credit நினைவூட்டல். உங்கள் EMI {amount} ரூபாய் இன்று செலுத்த வேண்டும். செலுத்த 1 ஐ அழுத்தவும், மாற்றம் செய்ய 2 ஐ அழுத்தவும்.");
      ("pre_due_reminder",
       "வணக்கம் {name}. TVS Credit நினைவூட்டல். உங்கள் EMI {amount} ரூபாய் {due_date} அன்று செலுத்த வேண்டும். நன்றி.");
      ("link_sent",
       "உங்கள் எண்ணுக்கான கட்டண இணைப்பு அனுப்பப்பட்டுள்ளது.");
      ("rescheduled",
       "உங்கள் கோரிக்கை ஏற்கப்பட்டது. ஒரு முகவர் புதிய தேதியை உறுதிப்படுத்த உங்களை மீண்டும் அழைப்பார். நன்றி.")
    ]);
   ("te",
    [
      ("reminder",
       "నమస్కారం {name}. TVS క్రెడిట్ నుండి రిమైండర్. మీ EMI {amount} రూపాయలు ఈ రోజు చెల్లించాల్సి ఉంది. ఇప్పుడు చెల్లించడానికి 1 నొక్కండి లేదా రీషెడ్యూల్ కోసం 2 నొక్కండి.");
      ("pre_due_reminder",
       "నమస్కారం {name}. TVS క్రెడిట్ నుండి ఒక స్నేహపూర్వక రిమైండర్. మీ EMI {amount} రూపాయలు {due_date} న చెల్లించాల్సి ఉంది. ధన్యవాదాలు.");
      ("link_sent",
       "మేము మీ ఫోన్‌కు చెల్లింపు లింక్‌ను పంపాము. ధన్యవాదాలు.");
      ("rescheduled",
       "మీ అభ్యర్థన నమోదు చేయబడింది. ఒక ఏజెంట్ త్వరలో కొత్త తేదీని నిర్ధారించడానికి మీకు తిరిగి కాల్ చేస్తారు. ధన్యవాదాలు.")
    ]);
   ("mr",
    [
      ("reminder",
       "नमस्कार {name}. TVS क्रेडिट कडून रिमाइंडर. तुमचा {amount} रुपयांचा EMI आज देय आहे. आता पेमेंट करण्यासाठी 1 दाबा किंवा रीशेड्यूल करण्याची विनंती करण्यासाठी 2 दाबा.");
      ("pre_due_reminder",
       "नमस्कार {name}. TVS क्रेडिट कडून एक मैत्रीपूर्ण रिमाइंडर. तुमचा {amount} रुपयांचा EMI {due_date} रोजी देय आहे. धन्यवाद.");
      ("link_sent",
       "आम्ही तुमच्या फोनवर पेमेंट लिंक पाठवली आहे. धन्यवाद.");
      ("rescheduled",
       "तुमच्या विनंतीची नोंद घेतली आहे. एक एजंट लवकरच नवीन तारखेची पुष्टी करण्यासाठी तुम्हाला परत कॉल करेल. धन्यवाद.")
    ]);
   ("gu",
    [
      ("reminder",
       "નમસ્તે {name}. TVS ક્રેડિટ તરફથી રિમાઇન્ડર. તમારી EMI {amount} રૂપિયા આજે ચૂકવવાપાત્ર છે. હમણાં ચૂકવવા માટે 1 દબાવો, અથવા ફરીથી શેડ્યૂલની વિનંતી કરવા માટે 2 દબાવો.");
      ("pre_due_reminder",
       "નમસ્તે {name}. TVS ક્રેડિટ તરફથી એક અનૌપચારિક રિમાઇન્ડર. તમારી EMI {amount} રૂપિયા {due_date} ના રોજ ચૂકવવાપાત્ર છે. આભાર.");
      ("link_sent",
       "અમે તમારા ફોન પર ચુકવણી લિંક મોકલી છે. આભાર.");
      ("rescheduled",
       "તમારી વિનંતીની નોંધ લેવામાં આવી છે. એક એજન્ટ ટૂંક સમયમાં નવી તારીખની પુષ્ટિ કરવા માટે તમને પાછા કૉલ કરશે. આભાર.")
    ]);
   ("kn",
    [
      ("reminder",
       "ನಮಸ್ಕಾರ {name}. TVS ಕ್ರೆಡಿಟ್‌ನಿಂದ ಜ್ಞಾಪನೆ. ನಿಮ್ಮ EMI {amount} ರೂಪಾಯಿಗಳು ಇಂದು ಪಾವತಿಸಬೇಕಾಗಿದೆ. ಈಗ ಪಾವತಿಸಲು 1 ಒತ್ತಿರಿ, ಅಥವಾ ಮರುಹೊಂದಿಸಲು 2 ಒತ್ತಿರಿ.");
      ("pre_due_reminder",
       "ನಮಸ್ಕಾರ {name}. TVS ಕ್ರೆಡಿಟ್‌ನಿಂದ ಸೌಹಾರ್ದಯುತ ಜ್ಞಾಪನೆ. ನಿಮ್ಮ EMI {amount} ರೂಪಾಯಿಗಳು {due_date} ರಂದು ಪಾವತಿಸಬೇಕಾಗಿದೆ. ಧನ್ಯವಾದಗಳು.");
      ("link_sent",
       "ನಾವು ನಿಮ್ಮ ಫೋನ್‌ಗೆ ಪಾವತಿ ಲಿಂಕ್ ಕಳುಹಿಸಿದ್ದೇವೆ. ಧನ್ಯವಾದಗಳು.");
      ("rescheduled",
       "ನಿಮ್ಮ ವಿನಂತಿಯನ್ನು નોંધಲಾಗಿದೆ. ಏಜೆಂಟ್ ಶೀಘ್ರದಲ್ಲೇ ಹೊಸ ದಿನಾಂಕವನ್ನು ಖಚಿತಪಡಿಸಲು ನಿಮಗೆ ಮರಳಿ ಕರೆ ಮಾಡುತ್ತಾರೆ. ಧನ್ಯವಾದಗಳು.")
    ]);
   ("ml",
    [
      ("reminder",
       "നമസ്കാരം {name}. TVS ക്രെഡിറ്റിൽ നിന്നുള്ള ഒരു ഓർമ്മപ്പെടുത്തൽ. നിങ്ങളുടെ {amount} രൂപയുടെ EMI ഇന്ന് അടയ്‌ക്കേണ്ടതാണ്. ഇപ്പോൾ പണമടയ്ക്കാൻ 1 അമർത്തുക, അല്ലെങ്കിൽ പുനഃക്രമീകരിക്കാൻ 2 അമർത്തുക.");
      ("pre_due_reminder",
       "നമസ്കാരം {name}. TVS ക്രെഡിറ്റിൽ നിന്നുള്ള ഒരു സൗഹൃദപരമായ ഓർമ്മപ്പെടുത്തൽ. നിങ്ങളുടെ {amount} രൂപയുടെ EMI {due_date} തീയതിയിൽ അടയ്‌ക്കേണ്ടതാണ്. നന്ദി.");
      ("link_sent",
       "ഞങ്ങൾ നിങ്ങളുടെ ഫോണിലേക്ക് ഒരു പേയ്‌മെന്റ് ലിങ്ക് അയച്ചിട്ടുണ്ട്. നന്ദി.");
      ("rescheduled",
       "നിങ്ങളുടെ അഭ്യർത്ഥന രേഖപ്പെടുത്തിയിട്ടുണ്ട്. ഒരു പുതിയ തീയതി സ്ഥിരീകരിക്കുന്നതിന് ഒരു ഏജന്റ് നിങ്ങളെ ഉടൻ തിരികെ വിളിക്കുന്നതാണ്. നന്ദി.")
    ]);
   ("pa",
    [
      ("reminder",
       "ਸਤ ਸ੍ਰੀ ਅਕਾਲ {name}. TVS ਕ੍ਰੈਡਿਟ ਵੱਲੋਂ ਇੱਕ ਯਾਦ-ਦਹਾਨੀ। ਤੁਹਾਡੀ {amount} ਰੁਪਏ ਦੀ EMI ਅੱਜ ਬਕਾਇਆ ਹੈ। ਹੁਣੇ ਭੁਗਤਾਨ ਕਰਨ ਲਈ 1 ਦਬਾਓ, ਜਾਂ ਮੁੜ-ਨਿਰਧਾਰਤ ਕਰਨ ਲਈ 2 ਦਬਾਓ।");
      ("pre_due_reminder",
       "ਸਤ ਸ੍ਰੀ ਅਕਾਲ {name}. TVS ਕ੍ਰੈਡਿਟ ਵੱਲੋਂ ਇੱਕ ਦੋਸਤਾਨਾ ਯਾਦ-ਦਹਾਨੀ। ਤੁਹਾਡੀ {amount} ਰੁਪਏ ਦੀ EMI {due_date} ਨੂੰ ਬਕਾਇਆ ਹੈ। ਧੰਨਵਾਦ।");
      ("link_sent",
       "ਅਸੀਂ ਤੁਹਾਡੇ ਫ਼ੋਨ 'ਤੇ ਭੁਗਤਾਨ ਲਿੰਕ ਭੇਜ ਦਿੱਤਾ ਹੈ। ਧੰਨਵਾਦ।");
      ("rescheduled",
       "ਤੁਹਾਡੀ ਬੇਨਤੀ ਨੋਟ ਕਰ ਲਈ ਗਈ ਹੈ। ਇੱਕ ਏਜੰਟ ਜਲਦੀ ਹੀ ਨਵੀਂ ਤਾਰੀਖ ਦੀ ਪੁਸ਼ਟੀ ਕਰਨ ਲਈ ਤੁਹਾਨੂੰ ਵਾਪਸ ਕਾਲ ਕਰੇਗਾ। ਧੰਨਵਾਦ।")
    ]);
   ("or",
    [
      ("reminder",
       "ନମସ୍କାର {name}। TVS କ୍ରେଡିଟ୍‌ରୁ ଏକ ସ୍ମାରକ। ଆପଣଙ୍କର {amount} ଟଙ୍କାର EMI ଆଜି ଦେୟ ଅଟେ। ବର୍ତ୍ତମାନ ପେମେଣ୍ଟ କରିବା ପାଇଁ 1 ଦବାନ୍ତୁ, କିମ୍ବା ପୁନଃ-ନିର୍ଧାରଣ ପାଇଁ 2 ଦବାନ୍ତୁ।");
      ("pre_due_reminder",
       "ନମସ୍କାର {name}। TVS କ୍ରେଡିଟ୍‌ରୁ ଏକ ବନ୍ଧୁତ୍ୱପୂର୍ଣ୍ଣ ସ୍ମାରକ। ଆପଣଙ୍କର {amount} ଟଙ୍କାର EMI {due_date} ରେ ଦେୟ ଅଟେ। ଧନ୍ୟବାଦ।");
      ("link_sent",
       "ଆମେ ଆପଣଙ୍କ ଫୋନକୁ ଏକ ପେମେଣ୍ଟ ଲିଙ୍କ୍ ପଠାଇଛୁ। ଧନ୍ୟବାଦ।");
      ("rescheduled",
       "ଆପଣଙ୍କ ଅନୁରୋଧକୁ ଟିପ୍ପଣୀ କରାଯାଇଛି। ଜଣେ ଏଜେଣ୍ଟ ଶୀଘ୍ର ଏକ ନୂତନ ତାରିଖ ନିଶ୍ଚିତ କରିବାକୁ ଆପଣଙ୍କୁ ପୁନର୍ବାର କଲ୍ କରିବେ। ଧନ୍ୟବାଦ।")
    ]);
   ("ur",
    [
      ("reminder",
       "ہیلو {name}۔ TVS کریڈٹ کی طرف سے ایک یاد دہانی۔ آپ کی {amount} روپے کی EMI آج واجب الادا ہے۔ ابھی ادائیگی کے لیے 1 دبائیں، یا دوبارہ شیڈول کرنے کی درخواست کے لیے 2 دبائیں۔");
      ("pre_due_reminder",
       "ہیلو {name}۔ TVS کریڈٹ کی طرف سے ایک دوستانہ یاد دہانی۔ آپ کی {amount} روپے کی EMI {due_date} کو واجب الادا ہے۔ شکریہ۔");
      ("link_sent",
       "ہم نے آپ کے فون پر ادائیگی کا لنک بھیج دیا ہے۔ شکریہ۔");
      ("rescheduled",
       "آپ کی درخواست نوٹ کر لی گئی ہے۔ ایک ایجنٹ جلد ہی نئی تاریخ کی تصدیق کے لیے آپ کو واپس کال کرے گا۔ شکریہ۔")
    ]);
   ("es",
    [
      ("reminder",
       "Hola {name}. Este es un recordatorio de TVS Credit. Su EMI de {amount} rupias vence hoy. Presione 1 para pagar ahora, o 2 para solicitar una reprogramación.");
      ("pre_due_reminder",
       "Hola {name}. Un recordatorio amistoso de TVS Credit. Su EMI de {amount} rupias vence el {due_date}. Gracias.");
      ("link_sent",
       "Hemos enviado un enlace de pago a su teléfono. Gracias.");
      ("rescheduled",
       "Su solicitud ha sido registrada. Un agente le devolverá la llamada en breve para confirmar una nueva fecha. Gracias.")
    ]);
   ("fr",
    [
      ("reminder",
       "Bonjour {name}. Ceci est un rappel de TVS Credit. Votre EMI de {amount} roupies est due aujourd'hui. Appuyez sur 1 pour payer maintenant, ou sur 2 pour demander un rééchelonnement.");
      ("pre_due_reminder",
       "Bonjour {name}. Un rappel amical de TVS Credit. Votre EMI de {amount} roupies est due le {due_date}. Merci.");
      ("link_sent",
       "Nous avons envoyé un lien de paiement sur votre téléphone. Merci.");
      ("rescheduled",
       "Votre demande a été enregistrée. Un agent vous rappellera sous peu pour confirmer une nouvelle date. Merci.")
    ]);
   ("de",
    [
      ("reminder",
       "Hallo {name}. Dies ist eine Erinnerung von TVS Credit. Ihre EMI von {amount} Rupien ist heute fällig. Drücken Sie 1, um jetzt zu zahlen, oder 2, um eine Umschuldung zu beantragen.");
      ("pre_due_reminder",
       "Hallo {name}. Eine freundliche Erinnerung von TVS Credit. Ihre EMI von {amount} Rupien ist am {due_date} fällig. Danke.");
      ("link_sent",
       "Wir haben einen Zahlungslink an Ihr Telefon gesendet. Danke.");
      ("rescheduled",
       "Ihre Anfrage wurde vermerkt. Ein Mitarbeiter wird Sie in Kürze zurückrufen, um ein neues Datum zu bestätigen. Danke.")
    ]);
   ("pt",
    [
      ("reminder",
       "Olá {name}. Este é um lembrete da TVS Credit. Sua EMI de {amount} rúpias vence hoje. Pressione 1 para pagar agora, ou 2 para solicitar um reagendamento.");
      ("pre_due_reminder",
       "Olá {name}. Um lembrete amigável da TVS Credit. Sua EMI de {amount} rúpias vence em {due_date}. Obrigado.");
      ("link_sent",
       "Enviamos um link de pagamento para o seu telefone. Obrigado.");
      ("rescheduled",
       "Sua solicitação foi registrada. Um agente ligará de volta em breve para confirmar uma nova data. Obrigado.")
    ]);
   ("ru",
    [
      ("reminder",
       "Здравствуйте, {name}. Это напоминание от TVS Credit. Ваш платеж EMI в размере {amount} рупий необходимо внести сегодня. Нажмите 1, чтобы оплатить сейчас, или 2, чтобы запросить перенос срока.");
      ("pre_due_reminder",
       "Здравствуйте, {name}. Дружеское напоминание от TVS Credit. Ваш платеж EMI в размере {amount} рупий необходимо внести {due_date}. Спасибо.");
      ("link_sent",
       "Мы отправили ссылку для оплаты на ваш телефон. Спасибо.");
      ("rescheduled",
       "Ваш запрос был принят. Агент скоро свяжется с вами для подтверждения новой даты. Спасибо.")
    ]);
   ("zh",
    [
      ("reminder",
       "您好 {name}。这是来自 TVS Credit 的提醒。您的 {amount} 卢比 EMI 今天到期。请按 1 立即付款，或按 2 请求重新安排。");
      ("pre_due_reminder",
       "您好 {name}。来自 TVS Credit 的友好提醒。您的 {amount} 卢比 EMI 将于 {due_date} 到期。谢谢。");
      ("link_sent",
       "我们已将付款链接发送到您的手机。谢谢。");
      ("rescheduled",
       "您的请求已被记录。代理商将很快给您回电以确认新日期。谢谢。")
    ]);
   ("ja",
    [
      ("reminder",
       "こんにちは、{name}さん。TVS Creditからのお知らせです。{amount}ルピーのEMIは本日が期日です。今すぐ支払うには1を、リスケジュールをリクエストするには2を押してください。");
      ("pre_due_reminder",
       "こんにちは、{name}さん。TVS Creditからの丁寧なリマインダーです。{amount}ルピーのEMIは{due_date}が期日です。ありがとうございます。");
      ("link_sent",
       "お使いの携帯電話に支払いリンクを送信しました。ありがとうございます。");
      ("rescheduled",
       "ご要望は記録されました。担当者が後ほど新しい日付を確認するために折り返しお電話いたします。ありがとうございます。")
    ]);
   ("ar",
    [
      ("reminder",
       "مرحباً {name}. هذا تذكير من TVS Credit. قسطك الشهري بقيمة {amount} روبية مستحق اليوم. اضغط 1 للدفع الآن، أو 2 لطلب إعادة جدولة.");
      ("pre_due_reminder",
       "مرحباً {name}. تذكير ودي من TVS Credit. قسطك الشهري بقيمة {amount} روبية مستحق في {due_date}. شكراً لك.");
      ("link_sent",
       "لقد أرسلنا رابط دفع إلى هاتفك. شكراً لك.");
      ("rescheduled",
       "لقد تم تسجيل طلبك. سيعاود أحد الوكلاء الاتصال بك قريباً لتأكيد تاريخ جديد. شكراً لك.")
    ]);
   ("id",
    [
      ("reminder",
       "Halo {name}. Ini adalah pengingat dari TVS Credit. EMI Anda sebesar {amount} rupee jatuh tempo hari ini. Tekan 1 untuk membayar sekarang, atau 2 untuk meminta penjadwalan ulang.");
      ("pre_due_reminder",
       "Halo {name}. Pengingat ramah dari TVS Credit. EMI Anda sebesar {amount} rupee jatuh tempo pada {due_date}. Terima kasih.");
      ("link_sent",
       "Kami telah mengirimkan tautan pembayaran ke ponsel Anda. Terima kasih.");
      ("rescheduled",
       "Permintaan Anda telah dicatat. Seorang agen akan segera menelepon Anda kembali untuk mengkonfirmasi tanggal baru. Terima kasih.")
    ]);
   ("it",
    [
      ("reminder",
       "Ciao {name}. Questo è un promemoria da TVS Credit. La tua rata EMI di {amount} rupie scade oggi. Premi 1 per pagare ora, o 2 per richiedere una riprogrammazione.");
      ("pre_due_reminder",
       "Ciao {name}. Un promemoria amichevole da TVS Credit. La tua rata EMI di {amount} rupie scade il {due_date}. Grazie.");
      ("link_sent",
       "Abbiamo inviato un link di pagamento al tuo telefono. Grazie.");
      ("rescheduled",
       "La tua richiesta è stata registrata. Un agente ti richiamerà a breve per confermare una nuova data. Grazie.")
    ]);
   ("tr",
    [
      ("reminder",
       "Merhaba {name}. Bu, TVS Credit'ten bir hatırlatmadır. {amount} rupilik EMI ödemeniz bugün vadesi dolmuştur. Şimdi ödemek için 1'e, yeniden planlama talep etmek için 2'ye basın.");
      ("pre_due_reminder",
       "Merhaba {name}. TVS Credit'ten dostça bir hatırlatma. {amount} rupilik EMI ödemenizin vadesi {due_date} tarihinde dolmaktadır. Teşekkür ederiz.");
      ("link_sent",
       "Telefonunuza bir ödeme bağlantısı gönderdik. Teşekkür ederiz.");
      ("rescheduled",
       "Talebiniz kaydedilmiştir. Bir temsilci yeni bir tarihi onaylamak için kısa süre içinde sizi geri arayacaktır. Teşekkür ederiz.")
    ]);
   ("nl",
    [
      ("reminder",
       "Hallo {name}. Dit is een herinnering van TVS Credit. Uw EMI van {amount} roepie vervalt vandaag. Druk op 1 om nu te betalen, of 2 om een nieuwe planning aan te vragen.");
      ("pre_due_reminder",
       "Hallo {name}. Een vriendelijke herinnering van TVS Credit. Uw EMI van {amount} roepie vervalt op {due_date}. Dank u.");
      ("link_sent",
       "We hebben een betalingslink naar uw telefoon gestuurd. Dank u.");
      ("rescheduled",
       "Uw verzoek is genoteerd. Een medewerker belt u binnenkort terug om een nieuwe datum te bevestigen. Dank u.")
    ]);
   ("ko",
    [
      ("reminder",
       "안녕하세요 {name}님. TVS Credit에서 알려드립니다. {amount}루피의 EMI가 오늘 마감입니다. 지금 결제하려면 1번을, 일정 변경을 요청하려면 2번을 누르십시오.");
      ("pre_due_reminder",
       "안녕하세요 {name}님. TVS Credit의 친절한 알림입니다. {amount}루피의 EMI가 {due_date}에 마감됩니다. 감사합니다.");
      ("link_sent",
       "결제 링크를 휴대폰으로 보내드렸습니다. 감사합니다.");
      ("rescheduled",
       "요청이 접수되었습니다. 상담원이 곧 새로운 날짜를 확인하기 위해 다시 연락드릴 것입니다. 감사합니다.")
    ]);
   ("pl",
    [
      ("reminder",
       "Witaj {name}. To jest przypomnienie od TVS Credit. Twoja rata EMI w wysokości {amount} rupii jest dzisiaj wymagalna. Naciśnij 1, aby zapłacić teraz, lub 2, aby poprosić o zmianę terminu.");
      ("pre_due_reminder",
       "Witaj {name}. Przyjazne przypomnienie od TVS Credit. Twoja rata EMI w wysokości {amount} rupii jest wymagalna {due_date}. Dziękujemy.");
      ("link_sent",
       "Wysłaliśmy link do płatności na Twój telefon. Dziękujemy.");
      ("rescheduled",
       "Twoja prośba została odnotowana. Agent wkrótce oddzwoni, aby potwierdzić nową datę. Dziękujemy.")
    ]);
   ("vi",
    [
      ("reminder",
       "Chào {name}. Đây là lời nhắc từ TVS Credit. Khoản EMI {amount} rupee của bạn đến hạn hôm nay. Nhấn 1 để thanh toán ngay, hoặc 2 để yêu cầu sắp xếp lại lịch.");
      ("pre_due_reminder",
       "Chào {name}. Một lời nhắc thân thiện từ TVS Credit. Khoản EMI {amount} rupee của bạn đến hạn vào ngày {due_date}. Cảm ơn bạn.");
      ("link_sent",
       "Chúng tôi đã gửi một liên kết thanh toán đến điện thoại của bạn. Cảm ơn bạn.");
      ("rescheduled",
       "Yêu cầu của bạn đã được ghi nhận. Một nhân viên sẽ sớm gọi lại cho bạn để xác nhận ngày mới. Cảm ơn bạn.")
    ]);
   ("fil",
    [
      ("reminder",
       "Kumusta {name}. Ito ay isang paalala mula sa TVS Credit. Ang iyong EMI na {amount} piso ay dapat bayaran ngayon. Pindutin ang 1 para magbayad ngayon, o 2 para humiling ng reschedule.");
      ("pre_due_reminder",
       "Kumusta {name}. Isang paalala mula sa TVS Credit. Ang iyong EMI na {amount} piso ay dapat bayaran sa {due_date}. Salamat.");
      ("link_sent",
       "Nagpadala kami ng link para sa pagbabayad sa iyong telepono. Salamat.");
      ("rescheduled",
       "Nai-record na ang iyong kahilingan. Tatawagan ka ng isang ahente sa lalong madaling panahon para kumpirmahin ang bagong petsa. Salamat.")
    ])
  ]%string.

(** [str.format] with keyword arguments, for templates whose replacement fields
    are plain names: text is copied, [{{] and [}}] are literal braces,
    [{field}] is replaced by the keyword argument of that name.  [field]
    is [Some f] while the scan is inside a replacement field. *)
Fixpoint format_from (field : option string) (t : string) (kwargs : dict string)
  : outcome string :=
  match field, t with
  | None, EmptyString => Ret EmptyString
  | None, String "{" (String "{" t') =>
      match format_from None t' kwargs with
      | Ret r => Ret (String "{" r)
      | Raise e => Raise e
      end
  | None, String "{" t' => format_from (Some EmptyString) t' kwargs
  | None, String "}" (String "}" t') =>
      match format_from None t' kwargs with
      | Ret r => Ret (String "}" r)
      | Raise e => Raise e
      end
  | None, String "}" _ => Raise ValueError
  | None, String c t' =>
      match format_from None t' kwargs with
      | Ret r => Ret (String c r)
      | Raise e => Raise e
      end
  | Some f, EmptyString => Raise ValueError
  | Some f, String "}" t' =>
      match dict_get kwargs f with
      | None => Raise (KeyError f)
      | Some v =>
          match format_from None t' kwargs with
          | Ret r => Ret (v ++ r)%string
          | Raise e => Raise e
          end
      end
  | Some f, String c t' =>
      format_from (Some (f ++ String c EmptyString)%string) t' kwargs
  end.

Definition format (t : string) (kwargs : dict string) : outcome string :=
  format_from None t kwargs.

(** [d[k]] *)
Definition dict_item {V : Type} (d : dict V) (k : string) : outcome V :=
  match dict_get d k with
  | Some v => Ret v
  | None => Raise (KeyError k)
  end.

(** [get_msg(lang, key, kwargs...)]: the messages of [lang], or those of
    ["en"] when [lang] has none, indexed by [key] and formatted. *)
Definition get_msg (lang key : string) (kwargs : dict string) : outcome string :=
  match dict_item LANG_MSGS "en" with
  | Raise e => Raise e
  | Ret en =>
      let msgs := match dict_get LANG_MSGS lang with
                  | Some m => m
                  | None => en
                  end in
      match dict_item msgs key with
      | Raise e => Raise e
      | Ret t => format t kwargs
      end
  end.

(* ------------------------------------------------------------------ *)
(** ** The notification channel

    [USE_TWILIO] is fixed when the script starts; [tw_client] is set
    exactly when it is true.  The two calls to the provider either return
    the [sid] of what they created or raise. *)
Record twilio : Type := mktwilio {
  USE_TWILIO : bool;
  TWILIO_NUMBER : string;
  (** [tw_client.calls.create(to=, from_=, twiml=).sid] *)
  calls_create : string -> string -> string -> outcome string;
  (** [tw_client.messages.create(body=, from_=, to=).sid] *)
  messages_create : string -> string -> string -> outcome string
}.

(** What the page shows while a button handler runs. *)
Inductive ui : Type :=
| Warning (text : string)
| Toast (text : string)
| Success (text : string).

(* ------------------------------------------------------------------ *)
(** ** Core functions *)
Section Core.

Variable tw : twilio.

Local Open Scope py_scope.
Local Open Scope string_scope.

Definition insert_log (loan_id : Z) (event detail : string) : M Z :=
  execute (Sql.insert_call_log loan_id event detail).

(** The keyword arguments [place_call] hands to [get_msg]. *)
Definition call_kwargs (l : Loan.t) (c : Customer.t) (formatted_due_date : string)
  : dict string :=
  [("name", Customer.name c);
   ("amount", str_of_int (Loan.emi_amount l));
   ("due_date", formatted_due_date)].

Definition twiml_of (text : string) : string :=
  "<Response><Gather input='dtmf' timeout='5' numDigits='1'><Say language='en-IN'>"
  ++ text ++ "</Say></Gather></Response>".

(** [place_call(loan_id, message_key="reminder")] *)
Definition place_call (loan_id : Z) (message_key : string) : M (dict string) :=
  loan <- query_all (Sql.select_loan_view loan_id) ;;
  match loan with
  | [] => ret [("error", "Loan not found")]
  | (l, c) :: _ =>
      d <- lift (PyDate.fromisoformat (Loan.due_date l)) ;;
      let formatted_due_date := PyDate.strftime_B_d_Y d in
      text <- lift (get_msg (Customer.language c) message_key
                            (call_kwargs l c formatted_due_date)) ;;
      insert_log loan_id "call_initiated" ("to " ++ Customer.phone c) ;;;
      if USE_TWILIO tw then
        sid <- lift (calls_create tw (Customer.phone c) (TWILIO_NUMBER tw)
                                  (twiml_of text)) ;;
        insert_log loan_id "twilio_call" sid ;;;
        ret [("status", "twilio_call_placed"); ("sid", sid)]
      else
        insert_log loan_id "mock_call" text ;;;
        ret [("status", "mock_call_logged"); ("text", text)]
  end.

Definition payment_link_of (loan_id emi_amount : Z) : string :=
  "https://example.com/pay?loan=" ++ str_of_int loan_id
  ++ "&amount=" ++ str_of_int emi_amount.

(** [send_payment_link(loan_id)] *)
Definition send_payment_link (loan_id : Z) : M (dict string) :=
  loan <- query_all (Sql.select_loan_view loan_id) ;;
  match loan with
  | [] => ret [("error", "Loan not found")]
  | (l, c) :: _ =>
      let payment_link := payment_link_of loan_id (Loan.emi_amount l) in
      let sms_body :=
        "TVS Credit: Pay your EMI of Rs " ++ str_of_int (Loan.emi_amount l)
        ++ ". Click " ++ payment_link in
      detail <-
        (if USE_TWILIO tw then
           sid <- lift (messages_create tw sms_body (TWILIO_NUMBER tw)
                                        (Customer.phone c)) ;;
           ret ("tw_sms:" ++ sid)
         else
           ret ("mock_sms_sent_to_" ++ Customer.phone c ++ "::" ++ payment_link)) ;;
      insert_log loan_id "payment_link_sent" detail ;;;
      ret [("status", "payment_link_sent"); ("link", payment_link)]
  end.

(** [mark_paid(loan_id)] *)
Definition mark_paid (loan_id : Z) : M (dict string) :=
  execute (Sql.update_paid loan_id) ;;;
  insert_log loan_id "marked_paid" "Webhook/Manual" ;;;
  ret [("status", "ok")].

(** [reschedule_loan(loan_id, days_to_add=7)] *)
Definition reschedule_loan (loan_id days_to_add : Z) : M (dict string) :=
  loan <- query_all (Sql.select_due_date loan_id) ;;
  match loan with
  | [] => ret [("error", "Loan not found")]
  | due_date :: _ =>
      current_due_date <- lift (PyDate.fromisoformat due_date) ;;
      new_due_date <- lift (PyDate.add_days current_due_date days_to_add) ;;
      execute (Sql.update_rescheduled (PyDate.isoformat new_due_date) loan_id) ;;;
      insert_log loan_id "rescheduled"
                 ("New due date: " ++ PyDate.isoformat new_due_date) ;;;
      ret [("status", "rescheduled"); ("new_date", PyDate.isoformat new_due_date)]
  end.

Definition days_to_add_default : Z := 7.

(** The "Create Loan" form: one customer row, then one loan row for it. *)
Definition create_loan (cname cphone clang : string) (emi_amt : Z) (due : PyDate.date)
  : M Z :=
  cid <- execute (Sql.insert_customer cname cphone clang) ;;
  execute (Sql.insert_loan cid emi_amt (PyDate.isoformat due)).

(** *** Bulk operations

    The loop of both bulk buttons: one [place_call] per selected loan, in
    the order of the query result; the value [place_call] returns is
    dropped, an exception leaves the loop.  The progress bar is not
    modelled. *)
Fixpoint call_each (message_key : string) (toast : Z -> string) (ids : list Z)
  (s : db) : db * list ui * outcome unit :=
  match ids with
  | [] => (s, [], Ret tt)
  | i :: rest =>
      match place_call i message_key s with
      | (s1, Raise e) => (s1, [], Raise e)
      | (s1, Ret _) =>
          let '(s2, shown, r) := call_each message_key toast rest s1 in
          (s2, Toast (toast i) :: shown, r)
      end
  end.

Definition bulk_calls (message_key : string) (toast : Z -> string)
  (empty_text : string) (done_text : nat -> string) (ids : list Z) (s : db)
  : db * list ui * outcome unit :=
  match ids with
  | [] => (s, [Warning empty_text], Ret tt)
  | _ :: _ =>
      match call_each message_key toast ids s with
      | (s', shown, Ret _) =>
          (s', (shown ++ [Success (done_text (List.length ids))])%list, Ret tt)
      | (s', shown, Raise e) => (s', shown, Raise e)
      end
  end.

(** The "Call Overdue Customers" button; [today] is [date.today()]. *)
Definition call_overdue_customers (today : PyDate.date) (s : db)
  : db * list ui * outcome unit :=
  bulk_calls "reminder"
    (fun i => "Called loan " ++ str_of_int i ++ " (overdue)")
    "No overdue loans to call."
    (fun n => "Finished calling all " ++ str_of_int (Z.of_nat n)
              ++ " overdue customers.")
    (Sql.select_overdue (PyDate.isoformat today) s) s.

(** The "Call Pre-Due Customers" button. *)
Definition call_pre_due_customers (today : PyDate.date) (s : db)
  : db * list ui * outcome unit :=
  match PyDate.add_days today 3 with
  | Raise e => (s, [], Raise e)
  | Ret target =>
      bulk_calls "pre_due_reminder"
        (fun i => "Called loan " ++ str_of_int i ++ " (pre-due reminder)")
        "No customers with EMIs due in 3 days."
        (fun n => "Finished calling all " ++ str_of_int (Z.of_nat n)
                  ++ " pre-due customers.")
        (Sql.select_pre_due (PyDate.isoformat target) s) s
  end.

(** *** Every action of the page that writes to existing tables

    ([seed_demo] fills an empty store with random rows and is not
    modelled.) *)
Inductive action : Type :=
| PlaceCall (loan_id : Z) (message_key : string)
| SendPaymentLink (loan_id : Z)
| MarkPaid (loan_id : Z)
| RescheduleLoan (loan_id days_to_add : Z)
| CreateLoan (cname cphone clang : string) (emi_amt : Z) (due : PyDate.date)
| CallOverdueCustomers (today : PyDate.date)
| CallPreDueCustomers (today : PyDate.date).

(** The store an action leaves behind, whether it returned or raised. *)
Definition run (a : action) (s : db) : db :=
  match a with
  | PlaceCall i k => fst (place_call i k s)
  | SendPaymentLink i => fst (send_payment_link i s)
  | MarkPaid i => fst (mark_paid i s)
  | RescheduleLoan i n => fst (reschedule_loan i n s)
  | CreateLoan n p l e d => fst (create_loan n p l e d s)
  | CallOverdueCustomers t => fst (fst (call_overdue_customers t s))
  | CallPreDueCustomers t => fst (fst (call_pre_due_customers t s))
  end.

End Core.

(** The status of the loan row with a given id, if there is one. *)
Definition status_of (s : db) (loan_id : Z) : option string :=
  match filter (fun l => Loan.id l =? loan_id) (loans s) with
  | [] => None
  | l :: _ => Some (Loan.status l)
  end.

Definition find_loan (s : db) (loan_id : Z) : option Loan.t :=
  match filter (fun l => Loan.id l =? loan_id) (loans s) with
  | [] => None
  | l :: _ => Some l
  end.

(** The mock channel: no credentials set. *)
Definition mock : twilio :=
  mktwilio false EmptyString (fun _ _ _ => Raise TwilioException)
           (fun _ _ _ => Raise TwilioException).

Definition empty_db : db := mkdb [] [] [].

(* ------------------------------------------------------------------ *)
(** ** Stores the script can be in

    Row ids are handed out in increasing order and rows are kept in rowid
    order; every due date was written by [isoformat], so it reads back as
    a date. *)

Fixpoint ascending (ids : list Z) : bool :=
  match ids with
  | [] => true
  | i :: rest => forallb (fun j => i <? j) rest && ascending rest
  end.

Definition is_iso_date (text : string) : bool :=
  match PyDate.fromisoformat text with
  | Ret _ => true
  | Raise _ => false
  end.

Definition wf_db (s : db) : bool :=
  ascending (map Customer.id (customers s))
  && ascending (map Loan.id (loans s))
  && ascending (map CallLog.id (call_logs s))
  && forallb (fun l => is_iso_date (Loan.due_date l)) (loans s).

(** The dates an action carries are [date] objects, so their fields
    passed the constructor's check. *)
Definition action_ok (a : action) : bool :=
  match a with
  | CreateLoan _ _ _ _ due => PyDate.check_date_fields due
  | CallOverdueCustomers today | CallPreDueCustomers today =>
      PyDate.check_date_fields today
  | _ => true
  end.

(** The rows a run of an operation added to [call_logs], without their
    rowids. *)
Definition log_entry (e : CallLog.t) : Z * string * string :=
  (CallLog.loan_id e, CallLog.event e, CallLog.detail e).

Definition logged (before after : db) : list (Z * string * string) :=
  map log_entry (skipn (List.length (call_logs before)) (call_logs after)).

(** The month and the day [ord2ymd] computes from the 0-based day of the
    year, and the check that they are that day. *)
Definition month_day (leapyear : bool) (n : Z) : Z * Z :=
  let m := Z.shiftr (n + 50) 5 in
  let preceding :=
    PyDate.DAYS_BEFORE_MONTH m + (if (2 <? m) && leapyear then 1 else 0) in
  if n <? preceding then
    let m := m - 1 in
    let preceding :=
      preceding
      - (PyDate.DAYS_IN_MONTH m + (if (m =? 2) && leapyear then 1 else 0)) in
    (m, n - preceding + 1)
  else (m, n - preceding + 1).

Definition month_day_ok (leapyear : bool) (n : Z) : bool :=
  let '(m, d) := month_day leapyear n in
  (1 <=? m) && (m <=? 12) && (1 <=? d)
  && (d <=? (if (m =? 2) && leapyear then 29 else PyDate.DAYS_IN_MONTH m))
  && (PyDate.DAYS_BEFORE_MONTH m + (if (2 <? m) && leapyear then 1 else 0) + d
      =? n + 1).

(** *** Stores and channels used as examples *)

Definition jan1 : PyDate.date := PyDate.mkdate 2025 1 1.

(** Customer "A" (language [en]) with a loan of 4000 due on [jan1]. *)
Definition one_loan : db := fst (create_loan "A" "+911" "en" 4000 jan1 empty_db).

(** The same store after the loan was paid. *)
Definition paid_loan : db := fst (mark_paid 1 one_loan).

(** Two customers with one due loan each. *)
Definition two_loans : db := fst (create_loan "B" "+912" "hi" 2500 jan1 one_loan).

(** A second customer whose loan is due three days after [jan1]. *)
Definition jan4 : PyDate.date := PyDate.mkdate 2025 1 4.

Definition later_loan : db := fst (create_loan "B" "+912" "hi" 2500 jan4 one_loan).

(** A customer whose language code has no entry in [LANG_MSGS]. *)
Definition xx_loan : db := fst (create_loan "Asha" "+913" "xx" 4000 jan1 empty_db).

(** A live channel whose provider refuses every call. *)
Definition refusing : twilio :=
  mktwilio true "+10000000000" (fun _ _ _ => Raise TwilioException)
           (fun _ _ _ => Raise TwilioException).

(** Three customers with one due loan each. *)
Definition three_loans : db :=
  fst (create_loan "C" "+913" "ta" 3000 jan1 two_loans).

(** A live channel whose provider takes the calls to "+911" and refuses
    all others. *)
Definition picky : twilio :=
  mktwilio true "+10000000000"
           (fun to _ _ => if String.eqb to "+911"%string then Ret "CA1"%string
                          else Raise TwilioException)
           (fun _ _ _ => Raise TwilioException).

From Stdlib Require DecimalPos DecimalZ.

(* ------------------------------------------------------------------ *)
(** ** Runs of the page, and what every store of a run satisfies *)

(** The actions of a session, one after the other. *)
Definition run_all (tw : twilio) (acts : list action) (s : db) : db :=
  fold_left (fun s a => run tw a s) acts s.

(** Every loan row belongs to a customer row ([loans.customer_id] is the
    id of a row of [customers]). *)
Definition linked (s : db) : bool :=
  forallb (fun l => existsb (fun c => Loan.customer_id l =? Customer.id c)
                            (customers s))
          (loans s).

(* ------------------------------------------------------------------ *)
(** ** Replacement fields of a template *)

(** Whether the scan of [format_from] meets a replacement field named
    [k]: the same walk over the template, keeping only the field names. *)
Fixpoint names_field (field : option string) (t k : string) : bool :=
  match t with
  | EmptyString => false
  | String c t' =>
      match field with
      | Some f =>
          if Ascii.eqb c "}" then String.eqb f k || names_field None t' k
          else names_field (Some (f ++ String c EmptyString)%string) t' k
      | None =>
          if Ascii.eqb c "{" then
            match t' with
            | String c2 t'' =>
                if Ascii.eqb c2 "{" then names_field None t'' k
                else names_field (Some EmptyString) t' k
            | EmptyString => false
            end
          else if Ascii.eqb c "}" then
            match t' with
            | String c2 t'' =>
                if Ascii.eqb c2 "}" then names_field None t'' k else false
            | EmptyString => false
            end
          else names_field None t' k
      end
  end.

(** The four message keys of the script. *)
Definition MESSAGE_KEYS : list string :=
  ["reminder"; "pre_due_reminder"; "link_sent"; "rescheduled"]%string.

(* ------------------------------------------------------------------ *)
(** ** Demo data *)

(** The [random] module as far as [seed_demo] uses it.  What the [n]-th
    call of a run returns is the generator's business: [randint n a b] is
    [random.randint(a, b)] and [choices n population] is
    [random.choices(population, weights, k=1)[0]] when they are the
    [n]-th call. *)
Record random : Type := mkrandom {
  randint : nat -> Z -> Z -> Z;
  choices : nat -> list string -> string
}.

(** A query that returns one row with one column, read with [[0]]. *)
Definition query_value {A : Type} (q : db -> A) : M A :=
  fun s => (s, Ret (q s)).

(** [SELECT COUNT( * ) as count FROM customers] *)
Definition select_count_customers (s : db) : Z :=
  Z.of_nat (List.length (customers s)).

(** [INSERT INTO loans (customer_id, emi_amount, due_date, status)
    VALUES (?, ?, ?, ?)] *)
Definition insert_loan_with_status (customer_id emi_amount : Z)
  (due_date status : string) (s : db) : db * Z :=
  let i := next_id (map Loan.id (loans s)) in
  (mkdb (customers s)
        (loans s ++ [Loan.mk i customer_id emi_amount due_date status])
        (call_logs s), i).

Definition customers_to_seed : list (string * string * string) :=
  [("Ramesh Kumar", "+919876543210", "hi");
   ("Sita Devi", "+919123456789", "en");
   ("Arjun Patil", "+919888777666", "mr");
   ("Priya Sharma", "+919999888777", "pa");
   ("Vikram Singh", "+919111222333", "gu");
   ("Ananya Reddy", "+919222333444", "te");
   ("Fatima Begum", "+919333444555", "ur");
   ("Carlos Garcia", "+34612345678", "es");
   ("Sophie Dubois", "+33612345678", "fr");
   ("Kenji Tanaka", "+819012345678", "ja");
   ("Maria Silva", "+5511987654321", "pt");
   ("John Smith", "+447123456789", "en")]%string.

Section Seed.

Variable rnd : random.

(** One pass of the inner loop of [seed_demo]: three calls of the
    generator, starting with the [n]-th, and one loan row. *)
Definition seed_loan (today : PyDate.date) (cid : Z) (n : nat) (total : Z)
  : M (nat * Z) :=
  (let status := choices rnd n ["due"; "paid"; "rescheduled"]%string in
   let emi := randint rnd (n + 1) 15 80 * 100 in
   due_dt <-
     lift (if String.eqb status "paid" then
             PyDate.add_days today (- randint rnd (n + 2) 15 60)
           else if String.eqb status "rescheduled" then
             PyDate.add_days today (randint rnd (n + 2) 10 25)
           else
             PyDate.add_days today (randint rnd (n + 2) (-10) 20)) ;;
   execute (insert_loan_with_status cid emi (PyDate.isoformat due_dt) status) ;;;
   ret ((n + 3)%nat, total + 1))%py.

(** [for _ in range(count)] *)
Fixpoint seed_loans (today : PyDate.date) (cid : Z) (count : nat) (n : nat)
  (total : Z) : M (nat * Z) :=
  match count with
  | O => ret (n, total)
  | S count' =>
      (r <- seed_loan today cid n total ;;
       seed_loans today cid count' (fst r) (snd r))%py
  end.

(** The loop over [customers_to_seed]. *)
Fixpoint seed_customers (today : PyDate.date)
  (cs : list (string * string * string)) (n : nat) (total : Z) : M Z :=
  match cs with
  | [] => ret total
  | (name, phone, lang) :: rest =>
      (cid <- execute (Sql.insert_customer name phone lang) ;;
       r <- seed_loans today cid (Z.to_nat (randint rnd n 1 2)) (n + 1) total ;;
       seed_customers today rest (fst r) (snd r))%py
  end.

(** [seed_demo()]; [today] is [date.today()]. *)
Definition seed_demo (today : PyDate.date) : M string :=
  (existing <- query_value select_count_customers ;;
   if existing >? 0 then
     ret ("Database already contains " ++ str_of_int existing
          ++ " customers. To re-seed, please delete the 'emi_genie_streamlit.db' file and restart.")%string
   else
     total_loans_created <- seed_customers today customers_to_seed 0 0 ;;
     ret ("✅ Seeded "
          ++ str_of_int (Z.of_nat (List.length customers_to_seed))
          ++ " new customers and " ++ str_of_int total_loans_created
          ++ " loans with varied statuses and due dates.")%string)%py.

End Seed.

(** What the generator promises: a number within the bounds, an element
    of the population. *)
Definition random_ok (rnd : random) : Prop :=
  (forall n a b, a <= b -> a <= randint rnd n a b <= b)
  /\ (forall n population, population <> [] ->
        In (choices rnd n population) population).

(** A generator that always returns the lower bound and the first
    element. *)
Definition lowest : random :=
  mkrandom (fun _ a _ => a) (fun _ population => hd EmptyString population).

(** What [seed_demo] intends for a loan row it writes, seen from the day
    of seeding: an amount from 1500 to 8000 in hundreds; [paid] loans due
    15 to 60 days ago, [rescheduled] ones due in 10 to 25 days, [due]
    ones due from 10 days ago to 20 days ahead. *)
Definition seeded_loan_ok (today : PyDate.date) (l : Loan.t) : bool :=
  (1500 <=? Loan.emi_amount l) && (Loan.emi_amount l <=? 8000)
  && (Loan.emi_amount l mod 100 =? 0)
  && match PyDate.fromisoformat (Loan.due_date l) with
     | Ret d =>
         let k := PyDate.toordinal d - PyDate.toordinal today in
         if String.eqb (Loan.status l) "paid" then (-60 <=? k) && (k <=? -15)
         else if String.eqb (Loan.status l) "rescheduled" then
           (10 <=? k) && (k <=? 25)
         else String.eqb (Loan.status l) "due" && (-10 <=? k) && (k <=? 20)
     | Raise _ => false
     end.

(** The days from which every date [seed_demo] computes exists: 60 days
    back and 25 days ahead stay within the dates of Python. *)
Definition seed_day (today : PyDate.date) : bool :=
  PyDate.check_date_fields today
  && (60 <? PyDate.toordinal today)
  && (PyDate.toordinal today <=? PyDate.MAXORDINAL - 25).

(** The name, phone and language of a customer row. *)
Definition customer_entry (c : Customer.t) : string * string * string :=
  (Customer.name c, Customer.phone c, Customer.language c).

(* ------------------------------------------------------------------ *)
(** ** The second script, [ap2.py]

    It has the tables, [query_all], [execute], [send_payment_link],
    [mark_paid] and [reschedule_loan] of [ap3.py], statement for
    statement; what differs is modelled here: its messages, its
    [place_call], its [seed_demo], its overdue button and the counts of
    its dashboard. *)
Module Ap2.

(** [LANG_MSGS]: four languages, no pre-due reminder. *)
Definition LANG_MSGS : dict (dict string) :=
  [
   ("hi",
    [
      ("reminder",
       "नमस्ते {name}. यह TVS क्रेडिट से रिमाइंडर है। आपकी अगली EMI {amount} रुपये है। भुगतान के लिए 1 दबाएँ, पुनर्निर्धारण के लिए 2 दबाएँ.");
      ("link_sent",
       "हमने आपके नंबर पर भुगतान लिंक भेज दिया है। धन्यवाद।");
      ("rescheduled",
       "आपका अनुरोध नोट कर लिया गया है। एक एजेंट आपको एक नई तारीख की पुष्टि करने के लिए जल्द ही कॉल करेगा। धन्यवाद।")
    ]);
   ("en",
    [
      ("reminder",
       "Hello {name}. This is a reminder from TVS Credit. Your EMI of Rs {amount} is due. Press 1 to pay now, or press 2 to request a reschedule.");
      ("link_sent",
       "We have sent a payment link to your phone. Thank you.");
      ("rescheduled",
       "Your request has been noted. An agent will call you back shortly to confirm a new date. Thank you.")
    ]);
   ("ta",
    [
      ("reminder",
       "வணக்கம் {name}. இது TVS Credit நினைவூட்டலாகும். உங்கள் EMI {amount} ரூபாய் நிலுவையில் உள்ளது. இப்போது செலுத்த 1 ஐ அழுத்தவும், மாற்றம் செய்ய 2 ஐ அழுத்தவும்.");
      ("link_sent",
       "உங்கள் எண்ணுக்கான கட்டண இணைப்பு அனுப்பப்பட்டுள்ளது.");
      ("rescheduled",
       "உங்கள் கோரிக்கை ஏற்கப்பட்டது. ஒரு முகவர் புதிய தேதியை உறுதிப்படுத்த உங்களை மீண்டும் அழைப்பார். நன்றி.")
    ]);
   ("bn",
    [
      ("reminder",
       "নমস্কার {name}. এটি TVS Credit থেকে একটি রিমাইন্ডার। আপনার EMI {amount} টাকা বাকি আছে। পে করতে 1 চেপে দিন, পুনঃনির্ধারণ করতে 2 চেপে দিন।");
      ("link_sent",
       "পেমেন্ট লিঙ্ক আপনার ফোনে পাঠানো হয়েছে। ধন্যবাদ।");
      ("rescheduled",
       "আপনার অনুরোধ নোট করা হয়েছে। একজন এজেন্ট একটি নতুন তারিখ নিশ্চিত করতে আপনাকে শীঘ্রই আবার কল করবে। ধন্যবাদ।")
    ])
  ]%string.

(** [get_msg(lang, key, kwargs...)] *)
Definition get_msg (lang key : string) (kwargs : dict string) : outcome string :=
  match dict_item LANG_MSGS "en" with
  | Raise e => Raise e
  | Ret en =>
      let msgs := match dict_get LANG_MSGS lang with
                  | Some m => m
                  | None => en
                  end in
      match dict_item msgs key with
      | Raise e => Raise e
      | Ret t => format t kwargs
      end
  end.

(** [res.get('status', 'failed')] *)
Definition status_or_failed (res : dict string) : string :=
  match dict_get res "status" with
  | Some v => v
  | None => "failed"
  end.

Definition demo_customers : list (string * string * string) :=
  [("Ramesh Kumar", "+919876543210", "hi");
   ("Sita Devi", "+919123456789", "en");
   ("Rajesh Kumar", "+919888777666", "bn");
   ("Karthik", "+919999888777", "ta")]%string.

Section Core.

Variable tw : twilio.

Local Open Scope py_scope.
Local Open Scope string_scope.

(** [place_call(loan_id)]: the reminder, without the due date. *)
Definition place_call (loan_id : Z) : M (dict string) :=
  loan <- query_all (Sql.select_loan_view loan_id) ;;
  match loan with
  | [] => ret [("error", "Loan not found")]
  | (l, c) :: _ =>
      text <- lift (get_msg (Customer.language c) "reminder"
                            [("name", Customer.name c);
                             ("amount", str_of_int (Loan.emi_amount l))]) ;;
      insert_log loan_id "call_initiated" ("to " ++ Customer.phone c) ;;;
      if USE_TWILIO tw then
        sid <- lift (calls_create tw (Customer.phone c) (TWILIO_NUMBER tw)
                                  (twiml_of text)) ;;
        insert_log loan_id "twilio_call" sid ;;;
        ret [("status", "twilio_call_placed"); ("sid", sid)]
      else
        insert_log loan_id "mock_call" text ;;;
        ret [("status", "mock_call_logged"); ("text", text)]
  end.

(** The loop of the "Call All Overdue Loans" button: the toast of a loan
    shows the status its call returned, or [failed]. *)
Fixpoint call_each (ids : list Z) (s : db) : db * list ui * outcome unit :=
  match ids with
  | [] => (s, [], Ret tt)
  | i :: rest =>
      match place_call i s with
      | (s1, Raise e) => (s1, [], Raise e)
      | (s1, Ret res) =>
          let '(s2, shown, r) := call_each rest s1 in
          (s2,
           Toast ("Called loan " ++ str_of_int i ++ ": " ++ status_or_failed res)
           :: shown,
           r)
      end
  end.

(** The "Call All Overdue Loans" button; [today] is [date.today()]. *)
Definition call_all_overdue (today : PyDate.date) (s : db)
  : db * list ui * outcome unit :=
  match Sql.select_overdue (PyDate.isoformat today) s with
  | [] => (s, [Warning "No overdue loans to call."], Ret tt)
  | (_ :: _) as overdue_loans =>
      match call_each overdue_loans s with
      | (s', shown, Ret _) =>
          (s',
           (shown
            ++ [Success ("Finished calling all "
                         ++ str_of_int (Z.of_nat (List.length overdue_loans))
                         ++ " overdue customers.")])%list,
           Ret tt)
      | (s', shown, Raise e) => (s', shown, Raise e)
      end
  end.

(** The loop of [seed_demo]; [clock k] is what [date.today()] returns in
    pass [k], the loop reads the clock in every pass. *)
Fixpoint seed_each (clock : nat -> PyDate.date)
  (cs : list (string * string * string)) (k : nat) : M unit :=
  match cs with
  | [] => ret tt
  | (name, phone, lang) :: rest =>
      cid <- execute (Sql.insert_customer name phone lang) ;;
      execute (Sql.insert_loan cid 4000 (PyDate.isoformat (clock k))) ;;;
      seed_each clock rest (S k)
  end.

(** [seed_demo()] *)
Definition seed_demo (clock : nat -> PyDate.date) : M string :=
  existing <- query_value select_count_customers ;;
  if existing >? 0 then ret "Already seeded"
  else
    seed_each clock demo_customers 0 ;;;
    ret "Seeded demo customers and loans.".

End Core.

(** One more row in the group of [k]. *)
Fixpoint bump (k : string) (d : dict Z) : dict Z :=
  match d with
  | [] => [(k, 1)]
  | (k', n) :: d' =>
      if String.eqb k' k then (k', n + 1) :: d' else (k', n) :: bump k d'
  end.

(** [SELECT status, COUNT( * ) as count FROM loans GROUP BY status], one
    row per status, and the dictionary [status_data] made of the rows.
    The order of the groups, which SQL leaves open, is here that of their
    first loan; the dictionary is read by key and summed only. *)
Definition status_data (s : db) : dict Z :=
  fold_left (fun d l => bump (Loan.status l) d) (loans s) [].

(** [d.get(k, 0)] *)
Definition get_or_zero (d : dict Z) (k : string) : Z :=
  match dict_get d k with
  | Some n => n
  | None => 0
  end.

(** The four numbers of the dashboard. *)
Record metrics : Type := mkmetrics {
  total_loans : Z;
  paid_loans : Z;
  rescheduled_loans : Z;
  overdue_loans : Z
}.

Definition dashboard (today : PyDate.date) (s : db) : metrics :=
  let status_data := status_data s in
  mkmetrics (fold_right Z.add 0 (map snd status_data))
            (get_or_zero status_data "paid"%string)
            (get_or_zero status_data "rescheduled"%string)
            (Z.of_nat (List.length (Sql.select_overdue (PyDate.isoformat today) s))).

End Ap2.

(** The number of loans with a given status. *)
Definition count_status (st : string) (s : db) : Z :=
  Z.of_nat (List.length (filter (fun l => String.eqb (Loan.status l) st) (loans s))).

(* ------------------------------------------------------------------ *)
(** ** The loan picker of the page *)

(** [d[k] = v] *)
Fixpoint dict_set {V : Type} (d : dict V) (k : string) (v : V) : dict V :=
  match d with
  | [] => [(k, v)]
  | (k', v') :: d' =>
      if String.eqb k' k then (k', v) :: d' else (k', v') :: dict_set d' k v
  end.

(** [ORDER BY l.due_date ASC], on text: a row goes before the rows whose
    due date is not smaller.  (The order among equal due dates is
    SQLite's choice; here it is the order of the join.) *)
Fixpoint insert_by_due_date (r : Loan.t * Customer.t)
  (rows : list (Loan.t * Customer.t)) : list (Loan.t * Customer.t) :=
  match rows with
  | [] => [r]
  | r' :: rest =>
      if String.ltb (Loan.due_date (fst r')) (Loan.due_date (fst r))
      then r' :: insert_by_due_date r rest
      else r :: r' :: rest
  end.

(** [SELECT l.id, c.name, l.emi_amount, l.due_date, l.status FROM loans l
     JOIN customers c ON l.customer_id = c.id ORDER BY l.due_date ASC] *)
Definition select_all_loans (s : db) : list (Loan.t * Customer.t) :=
  fold_right insert_by_due_date [] (Sql.joined s).

Section Picker.

(** [str.upper]; nothing below depends on what it returns. *)
Variable upper : string -> string.

(** The label of a row in the select box. *)
Definition loan_label (r : Loan.t * Customer.t) : string :=
  ("Loan " ++ str_of_int (Loan.id (fst r)) ++ " | " ++ Customer.name (snd r)
   ++ " | Status: " ++ upper (Loan.status (fst r))
   ++ " | Due: " ++ Loan.due_date (fst r))%string.

(** [loan_map]: the dictionary comprehension from labels to loan ids. *)
Definition loan_map (s : db) : dict Z :=
  fold_left (fun d r => dict_set d (loan_label r) (Loan.id (fst r)))
            (select_all_loans s) [].

(** [list(loan_map.keys())], the options of the select box. *)
Definition options (s : db) : list string := map fst (loan_map s).

End Picker.

(** Whether a character occurs in a text. *)
Fixpoint has_char (c : ascii) (s : string) : bool :=
  match s with
  | EmptyString => false
  | String c' s' => Ascii.eqb c' c || has_char c s'
  end.

(* ------------------------------------------------------------------ *)
(** ** The styles of the loan table *)

(** [a < b] on dates, the order of the [(year, month, day)] triples. *)
Definition date_ltb (a b : PyDate.date) : bool :=
  (PyDate.year a <? PyDate.year b)
  || ((PyDate.year a =? PyDate.year b)
      && ((PyDate.month a <? PyDate.month b)
          || ((PyDate.month a =? PyDate.month b)
              && (PyDate.day a <? PyDate.day b)))).

(** [style_status(row)]: one style per cell of the row; [n] is
    [len(row)], and [due_date] the date in the row. *)
Definition style_status (status : string) (due_date : PyDate.date) (n : nat)
  : list string :=
  let today := PyDate.mkdate 2025 8 12 in
  (if String.eqb status "paid" then
     repeat "background-color: #d4edda; color: #155724" n
   else if String.eqb status "rescheduled" then
     repeat "background-color: #cce5ff; color: #004085" n
   else if String.eqb status "due" && date_ltb due_date today then
     repeat "background-color: #f8d7da; color: #721c24" n
   else if String.eqb status "due" then
     repeat "background-color: #fff3cd; color: #856404" n
   else repeat EmptyString n)%string.

(** The day before the one [style_status] compares with. *)
Definition aug11 : PyDate.date := PyDate.mkdate 2025 8 11.

(* ------------------------------------------------------------------ *)
(** ** What a rescheduling writes *)

(** The new due date [reschedule_loan] computes, when it gets as far as
    its [UPDATE]. *)
Definition reschedule_target (loan_id days_to_add : Z) (s : db) : option string :=
  match Sql.select_due_date loan_id s with
  | [] => None
  | due_date :: _ =>
      match PyDate.fromisoformat due_date with
      | Raise _ => None
      | Ret d =>
          match PyDate.add_days d days_to_add with
          | Raise _ => None
          | Ret d' => Some (PyDate.isoformat d')
          end
      end
  end.

(* ------------------------------------------------------------------ *)
(** * Facts about dates *)
Module PyDateFacts.
Import PyDate.

Lemma digit_cases (k : Z) :
  0 <= k <= 9 ->
  k = 0 \/ k = 1 \/ k = 2 \/ k = 3 \/ k = 4 \/ k = 5 \/ k = 6 \/ k = 7
  \/ k = 8 \/ k = 9.
Proof. lia. Qed.

Ltac digit_split H :=
  apply digit_cases in H;
  repeat (destruct H as [H | H]); subst.

Lemma digit_val_digit (k : Z) : 0 <= k <= 9 -> digit_val (digit k) = Some k.
Proof. intros H. digit_split H; reflexivity. Qed.

Lemma digit_val_inv (c : ascii) (k : Z) :
  digit_val c = Some k -> c = digit k /\ 0 <= k <= 9.
Proof.
  unfold digit_val, digit.
  destruct ((48 <=? _) && (_ <=? 57)) eqn:E; [| discriminate].
  intros [= <-]. apply andb_true_iff in E. rewrite !Z.leb_le in E.
  split; [| lia].
  replace (48 + Z.to_N (Z.of_N (N_of_ascii c) - 48))%N with (N_of_ascii c) by lia.
  symmetry. apply ascii_N_embedding.
Qed.

Lemma digit_compare (a b : Z) :
  0 <= a <= 9 -> 0 <= b <= 9 -> Ascii.compare (digit a) (digit b) = (a ?= b).
Proof. intros Ha Hb. digit_split Ha; digit_split Hb; reflexivity. Qed.

Lemma compare_digit_cons (a b : Z) (s t : string) :
  0 <= a <= 9 -> 0 <= b <= 9 ->
  String.compare (String (digit a) s) (String (digit b) t)
  = match a ?= b with Eq => String.compare s t | Lt => Lt | Gt => Gt end.
Proof. intros Ha Hb. simpl. rewrite digit_compare by assumption. reflexivity. Qed.

Lemma compare_dash_cons (s t : string) :
  String.compare (String "-" s) (String "-" t) = String.compare s t.
Proof. reflexivity. Qed.

(** The decimal digits of a four-digit and of a two-digit field. *)
Lemma digits4 (y : Z) :
  0 <= y <= 9999 ->
  exists a b c d,
    y / 1000 = a /\ y / 100 mod 10 = b /\ y / 10 mod 10 = c /\ y mod 10 = d
    /\ y = a * 1000 + b * 100 + c * 10 + d
    /\ 0 <= a <= 9 /\ 0 <= b <= 9 /\ 0 <= c <= 9 /\ 0 <= d <= 9.
Proof.
  intros H. do 4 eexists. repeat (split; [reflexivity|]).
  Z.to_euclidean_division_equations. lia.
Qed.

Lemma digits2 (m : Z) :
  0 <= m <= 99 ->
  exists a b, m / 10 = a /\ m mod 10 = b /\ m = a * 10 + b
              /\ 0 <= a <= 9 /\ 0 <= b <= 9.
Proof.
  intros H. do 2 eexists. repeat (split; [reflexivity|]).
  Z.to_euclidean_division_equations. lia.
Qed.

Lemma fmt04_digits (a b c d : Z) :
  0 <= a <= 9 -> 0 <= b <= 9 -> 0 <= c <= 9 -> 0 <= d <= 9 ->
  fmt04 (a * 1000 + b * 100 + c * 10 + d)
  = String (digit a) (String (digit b) (String (digit c)
      (String (digit d) EmptyString))).
Proof.
  intros. unfold fmt04. repeat f_equal;
    Z.to_euclidean_division_equations; lia.
Qed.

Lemma fmt02_digits (a b : Z) :
  0 <= a <= 9 -> 0 <= b <= 9 ->
  fmt02 (a * 10 + b) = String (digit a) (String (digit b) EmptyString).
Proof.
  intros. unfold fmt02. repeat f_equal;
    Z.to_euclidean_division_equations; lia.
Qed.

Lemma check_date_fields_bounds (d : date) :
  check_date_fields d = true ->
  1 <= year d <= 9999 /\ 1 <= month d <= 12 /\ 1 <= day d <= 31.
Proof.
  unfold check_date_fields, MINYEAR, MAXYEAR, days_in_month.
  rewrite !andb_true_iff, !Z.leb_le. intros [[[[[? ?] ?] ?] ?] Hd].
  assert (Hm : month d = 1 \/ month d = 2 \/ month d = 3 \/ month d = 4 \/
               month d = 5 \/ month d = 6 \/ month d = 7 \/ month d = 8 \/
               month d = 9 \/ month d = 10 \/ month d = 11 \/ month d = 12)
    by lia.
  repeat (destruct Hm as [Hm | Hm]); rewrite Hm in Hd; simpl in Hd;
    try destruct (is_leap (year d)); simpl in Hd; lia.
Qed.

(** What [isoformat] writes, [fromisoformat] reads back. *)
Lemma fromisoformat_isoformat (d : date) :
  check_date_fields d = true -> fromisoformat (isoformat d) = Ret d.
Proof.
  intros Hc. destruct (check_date_fields_bounds d Hc) as (Hy & Hm & Hd).
  destruct d as [y m dd]; simpl in Hy, Hm, Hd.
  destruct (digits4 y)
    as (a3 & a2 & a1 & a0 & _ & _ & _ & _ & Ey & ? & ? & ? & ?); [lia|].
  destruct (digits2 m) as (b1 & b0 & _ & _ & Em & ? & ?); [lia|].
  destruct (digits2 dd) as (c1 & c0 & _ & _ & Ed & ? & ?); [lia|].
  unfold isoformat; cbn [year month day].
  rewrite Ey, Em, Ed in *.
  rewrite fmt04_digits, !fmt02_digits by assumption.
  cbn [String.append fromisoformat].
  rewrite !digit_val_digit by assumption. cbn [Ascii.eqb Bool.eqb negb].
  rewrite Hc. reflexivity.
Qed.

(** Only what [isoformat] writes is read as a date. *)
Lemma fromisoformat_inv (s : string) (d : date) :
  fromisoformat s = Ret d -> check_date_fields d = true /\ s = isoformat d.
Proof.
  unfold fromisoformat.
  do 10 (destruct s as [| ?c s]; [discriminate|]).
  destruct s; [| discriminate].
  destruct (Ascii.eqb_spec c3 "-") as [-> | ?], (Ascii.eqb_spec c6 "-") as [-> | ?];
    cbn [negb];
    repeat match goal with
      | |- context [digit_val ?c] =>
          let k := fresh "k" in let E := fresh "E" in
          destruct (digit_val c) as [k|] eqn:E; [apply digit_val_inv in E|];
          try discriminate
      end.
  destruct (check_date_fields _) eqn:Hc; [| discriminate].
  intros [= <-]. split; [exact Hc|].
  unfold isoformat; cbn [year month day].
  repeat match goal with H : _ = digit _ /\ _ |- _ => destruct H; subst end.
  rewrite fmt04_digits, !fmt02_digits by assumption. reflexivity.
Qed.

(** Text order on ISO dates is date order. *)
Lemma isoformat_leb (a b : date) :
  check_date_fields a = true -> check_date_fields b = true ->
  String.leb (isoformat a) (isoformat b) = leb a b.
Proof.
  intros Ha Hb.
  destruct (check_date_fields_bounds a Ha) as (Hy & Hm & Hd).
  destruct (check_date_fields_bounds b Hb) as (Hy' & Hm' & Hd').
  destruct a as [y m d], b as [y' m' d'];
    simpl in Hy, Hm, Hd, Hy', Hm', Hd'.
  destruct (digits4 y)
    as (a3 & a2 & a1 & a0 & _ & _ & _ & _ & Ey & ? & ? & ? & ?); [lia|].
  destruct (digits2 m) as (b1 & b0 & _ & _ & Em & ? & ?); [lia|].
  destruct (digits2 d) as (c1 & c0 & _ & _ & Ed & ? & ?); [lia|].
  destruct (digits4 y')
    as (a3' & a2' & a1' & a0' & _ & _ & _ & _ & Ey' & ? & ? & ? & ?); [lia|].
  destruct (digits2 m') as (b1' & b0' & _ & _ & Em' & ? & ?); [lia|].
  destruct (digits2 d') as (c1' & c0' & _ & _ & Ed' & ? & ?); [lia|].
  clear Ha Hb.
  unfold String.leb, isoformat, leb; cbn [year month day].
  rewrite Ey, Em, Ed, Ey', Em', Ed'.
  rewrite !fmt04_digits, !fmt02_digits by assumption.
  cbn [String.append].
  repeat ((rewrite compare_digit_cons by assumption)
          || rewrite compare_dash_cons).
  cbn [String.compare].
  rewrite <- Ey, <- Em, <- Ed, <- Ey', <- Em', <- Ed'.
  destruct (Z.ltb_spec y y'), (Z.eqb_spec y y'), (Z.ltb_spec m m'),
    (Z.eqb_spec m m'), (Z.leb_spec d d'); cbn [orb andb];
  repeat match goal with
    | |- context [?p ?= ?q] => destruct (Z.compare_spec p q)
    end; try reflexivity; exfalso; lia.
Qed.

(** *** Ordinals *)

Lemma month_day_table (leapyear : bool) :
  forallb (fun k => month_day_ok leapyear (Z.of_nat k)) (seq 0 365) = true.
Proof. destruct leapyear; vm_compute; reflexivity. Qed.

Lemma month_day_spec (leapyear : bool) (n : Z) :
  0 <= n < 365 -> month_day_ok leapyear n = true.
Proof.
  intros H. pose proof (month_day_table leapyear) as T.
  rewrite forallb_forall in T.
  specialize (T (Z.to_nat n)). rewrite Z2Nat.id in T by lia.
  apply T. apply in_seq. lia.
Qed.

Lemma ord2ymd_unfold (n : Z) :
  ord2ymd n =
  let n0 := n - 1 in
  let n400 := n0 / 146097 in
  let r400 := n0 mod 146097 in
  let n100 := r400 / 36524 in
  let r100 := r400 mod 36524 in
  let n4 := r100 / 1461 in
  let r4 := r100 mod 1461 in
  let n1 := r4 / 365 in
  let r1 := r4 mod 365 in
  let y := n400 * 400 + 1 + n100 * 100 + n4 * 4 + n1 in
  if (n1 =? 4) || (n100 =? 4) then mkdate (y - 1) 12 31
  else
    let leapyear := (n1 =? 3) && (negb (n4 =? 24) || (n100 =? 3)) in
    let '(m, d) := month_day leapyear r1 in mkdate y m d.
Proof.
  unfold ord2ymd, month_day, DI400Y, DI100Y, DI4Y. cbv zeta.
  destruct ((_ =? 4) || (_ =? 4)); [reflexivity|].
  match goal with |- context [if ?c then _ else _] => destruct c end;
    reflexivity.
Qed.

Lemma is_leap_split (q a b c : Z) :
  0 <= a <= 3 -> 0 <= b <= 24 -> 0 <= c <= 3 ->
  is_leap (q * 400 + 1 + a * 100 + b * 4 + c)
  = (c =? 3) && (negb (b =? 24) || (a =? 3)).
Proof.
  intros Ha Hb Hc. unfold is_leap.
  destruct (Z.eqb_spec c 3), (Z.eqb_spec b 24), (Z.eqb_spec a 3);
    cbn [andb orb negb];
    repeat match goal with
      | |- context [?x mod ?k =? 0] => destruct (Z.eqb_spec (x mod k) 0)
      end; cbn [andb orb negb]; try reflexivity; exfalso;
    Z.to_euclidean_division_equations; lia.
Qed.

Lemma days_before_year_split (q a b c : Z) :
  0 <= a <= 3 -> 0 <= b <= 24 -> 0 <= c <= 3 ->
  days_before_year (q * 400 + 1 + a * 100 + b * 4 + c)
  = q * 146097 + a * 36524 + b * 1461 + c * 365.
Proof.
  intros Ha Hb Hc. unfold days_before_year. cbv zeta.
  Z.to_euclidean_division_equations. lia.
Qed.

Lemma dec31_spec (q a b : Z) :
  0 <= q <= 24 -> 0 <= a <= 3 -> 0 <= b <= 24 -> b <> 24 \/ a = 3 ->
  q * 146097 + a * 36524 + b * 1461 + 1461 <= MAXORDINAL ->
  check_date_fields (mkdate (q * 400 + 1 + a * 100 + b * 4 + 3) 12 31) = true
  /\ toordinal (mkdate (q * 400 + 1 + a * 100 + b * 4 + 3) 12 31)
     = q * 146097 + a * 36524 + b * 1461 + 1461.
Proof.
  intros Hq Ha Hb Hl Hmax. unfold MAXORDINAL in Hmax.
  unfold check_date_fields, toordinal, ymd2ord, days_before_month,
    days_in_month.
  cbn [year month day].
  rewrite days_before_year_split, is_leap_split by lia.
  unfold MINYEAR, MAXYEAR. cbn.
  split; [| destruct (negb (b =? 24) || (a =? 3)) eqn:E; [lia|]].
  - rewrite !andb_true_iff, !Z.leb_le. repeat split; try lia.
  - exfalso. destruct Hl as [Hl | Hl].
    + apply Z.eqb_neq in Hl. rewrite Hl in E. discriminate.
    + subst a. rewrite orb_true_r in E. discriminate.
Qed.

(** [fromordinal] builds a date, and it is the inverse of [toordinal]. *)
Lemma ord2ymd_spec (n : Z) :
  1 <= n <= MAXORDINAL ->
  check_date_fields (ord2ymd n) = true /\ toordinal (ord2ymd n) = n.
Proof.
  unfold MAXORDINAL. intros Hn. rewrite ord2ymd_unfold. cbv zeta.
  set (n0 := n - 1).
  set (q := n0 / 146097). set (r400 := n0 mod 146097).
  set (a := r400 / 36524). set (r100 := r400 mod 36524).
  set (b := r100 / 1461). set (r4 := r100 mod 1461).
  set (c := r4 / 365). set (r1 := r4 mod 365).
  assert (E400 : n0 = q * 146097 + r400 /\ 0 <= r400 < 146097)
    by (subst q r400; Z.to_euclidean_division_equations; lia).
  assert (E100 : r400 = a * 36524 + r100 /\ 0 <= r100 < 36524)
    by (subst a r100; Z.to_euclidean_division_equations; lia).
  assert (E4 : r100 = b * 1461 + r4 /\ 0 <= r4 < 1461)
    by (subst b r4; Z.to_euclidean_division_equations; lia).
  assert (E1 : r4 = c * 365 + r1 /\ 0 <= r1 < 365)
    by (subst c r1; Z.to_euclidean_division_equations; lia).
  assert (Hn0 : 0 <= n0 <= 3652058 /\ n = n0 + 1) by (subst n0; lia).
  clearbody q r400 a r100 b r4 c r1 n0.
  assert (Hq : 0 <= q <= 24) by lia.
  assert (Ha : 0 <= a <= 4) by lia.
  assert (Hb : 0 <= b <= 24) by lia.
  assert (Hc : 0 <= c <= 4) by lia.
  destruct (Z.eqb_spec c 4) as [C4 | C4]; cbn [orb].
  - (* the last day of a four-year cycle *)
    replace (q * 400 + 1 + a * 100 + b * 4 + c - 1)
      with (q * 400 + 1 + a * 100 + b * 4 + 3) by lia.
    destruct (dec31_spec q a b) as [V O]; unfold MAXORDINAL; try lia.
    split; [exact V | rewrite O; lia].
  - destruct (Z.eqb_spec a 4) as [A4 | A4]; cbn [orb].
    + (* the last day of a four-hundred-year cycle *)
      replace (q * 400 + 1 + a * 100 + b * 4 + c - 1)
        with (q * 400 + 1 + 3 * 100 + 24 * 4 + 3) by lia.
      destruct (dec31_spec q 3 24) as [V O]; unfold MAXORDINAL; try lia.
      split; [exact V | rewrite O; lia].
    + pose proof (month_day_spec
                    ((c =? 3) && (negb (b =? 24) || (a =? 3))) r1) as MD.
      unfold month_day_ok in MD.
      destruct (month_day _ r1) as [m d].
      specialize (MD ltac:(lia)).
      rewrite !andb_true_iff, !Z.leb_le, Z.eqb_eq in MD.
      destruct MD as ((((M1 & M2) & D1) & D2) & S).
      unfold check_date_fields, toordinal, ymd2ord, days_before_month,
        days_in_month, MINYEAR, MAXYEAR.
      cbn [year month day].
      rewrite days_before_year_split, is_leap_split by lia.
      split; [| lia].
      rewrite !andb_true_iff, !Z.leb_le. repeat split; try lia.
Qed.

(** [d + timedelta(days=n)], when it is a date, is the date [n] days
    after [d]. *)
Lemma add_days_spec (d d' : date) (n : Z) :
  add_days d n = Ret d' ->
  check_date_fields d' = true /\ toordinal d' = toordinal d + n.
Proof.
  unfold add_days, fromordinal.
  destruct ((-999999999 <=? n) && (n <=? 999999999)); [| discriminate].
  destruct ((0 <? toordinal d + n) && (toordinal d + n <=? MAXORDINAL)) eqn:E;
    [| discriminate].
  intros [= <-]. apply andb_true_iff in E. destruct E as [E1 E2].
  apply Z.ltb_lt in E1. apply Z.leb_le in E2.
  apply ord2ymd_spec. lia.
Qed.

(** *** Values of the Python module *)

Example toordinal_2025_01_01 : toordinal (mkdate 2025 1 1) = 739252.
Proof. reflexivity. Qed.

Example fromordinal_first : fromordinal 1 = mkdate 1 1 1.
Proof. reflexivity. Qed.

Example fromordinal_last : fromordinal MAXORDINAL = mkdate 9999 12 31.
Proof. reflexivity. Qed.

Example leap_day_2024 : add_days (mkdate 2024 2 28) 1 = Ret (mkdate 2024 2 29).
Proof. reflexivity. Qed.

Example no_leap_day_2025 : add_days (mkdate 2025 2 28) 1 = Ret (mkdate 2025 3 1).
Proof. reflexivity. Qed.

Example new_year : add_days (mkdate 2023 12 31) 1 = Ret (mkdate 2024 1 1).
Proof. reflexivity. Qed.

Example back_one_week : add_days (mkdate 2025 1 3) (-7) = Ret (mkdate 2024 12 27).
Proof. reflexivity. Qed.

Example past_the_last_day : add_days (mkdate 9999 12 31) 1 = Raise OverflowError.
Proof. reflexivity. Qed.

Example isoformat_2025_01_08 : isoformat (mkdate 2025 1 8) = "2025-01-08"%string.
Proof. reflexivity. Qed.

Example strftime_2025_01_08 :
  strftime_B_d_Y (mkdate 2025 1 8) = "January 08, 2025"%string.
Proof. reflexivity. Qed.

Example fromisoformat_bad_day : fromisoformat "2025-02-30" = Raise ValueError.
Proof. reflexivity. Qed.

End PyDateFacts.

Import Sql.

Local Open Scope string_scope.
Local Open Scope Z_scope.
Local Open Scope list_scope.

(* ------------------------------------------------------------------ *)
(** * Facts about tables and queries *)

Lemma ascending_sorted (ids : list Z) :
  ascending ids = true <-> StronglySorted Z.lt ids.
Proof.
  induction ids as [| i rest IH]; cbn [ascending].
  - split; [constructor | reflexivity].
  - rewrite andb_true_iff, forallb_forall, IH. split.
    + intros [Hall Hs]. constructor; [exact Hs|].
      apply Forall_forall. intros j Hj. apply Z.ltb_lt. auto.
    + intros Hs. inversion Hs as [| ? ? Hs' Hall]; subst. split; [| exact Hs'].
      intros j Hj. apply Z.ltb_lt.
      rewrite Forall_forall in Hall. auto.
Qed.

(** A scan with a [WHERE] clause keeps the rowid order. *)
Lemma sorted_filter_ids {A : Type} (key : A -> Z) (p : A -> bool) (rows : list A) :
  StronglySorted Z.lt (map key rows) ->
  StronglySorted Z.lt (map key (filter p rows)).
Proof.
  induction rows as [| r rows IH]; cbn [map filter]; intros Hs.
  - constructor.
  - inversion Hs as [| ? ? Hs' Hall]; subst.
    destruct (p r); cbn [map]; [| auto].
    constructor; [auto|].
    rewrite Forall_forall in *. intros j Hj. apply Hall.
    apply in_map_iff in Hj. destruct Hj as (x & <- & Hx).
    apply filter_In in Hx. apply in_map. tauto.
Qed.

(** Rowids name rows. *)
Lemma sorted_ids_unique {A : Type} (key : A -> Z) (rows : list A) (x y : A) :
  StronglySorted Z.lt (map key rows) ->
  In x rows -> In y rows -> key x = key y -> x = y.
Proof.
  induction rows as [| r rows IH]; cbn [map]; intros Hs Hx Hy E; [easy|].
  inversion Hs as [| ? ? Hs' Hall]; subst. rewrite Forall_forall in Hall.
  destruct Hx as [-> | Hx], Hy as [-> | Hy]; auto.
  - specialize (Hall (key y) (in_map key _ _ Hy)). lia.
  - specialize (Hall (key x) (in_map key _ _ Hx)). lia.
Qed.

Lemma find_loan_none (s : db) (i : Z) :
  find_loan s i = None <-> forall l, In l (loans s) -> Loan.id l <> i.
Proof.
  unfold find_loan. split.
  - intros H l Hl E.
    assert (Hin : In l (filter (fun l => Loan.id l =? i) (loans s)))
      by (apply filter_In; split; [exact Hl | apply Z.eqb_eq; exact E]).
    destruct (filter _ (loans s)); [exact Hin | discriminate].
  - intros H. destruct (filter _ (loans s)) as [| l rest] eqn:E; [reflexivity|].
    assert (Hin : In l (filter (fun l => Loan.id l =? i) (loans s)))
      by (rewrite E; left; reflexivity).
    apply filter_In in Hin. destruct Hin as [Hl Hi].
    apply Z.eqb_eq in Hi. exfalso. exact (H l Hl Hi).
Qed.

Lemma find_loan_some (s : db) (i : Z) (l : Loan.t) :
  find_loan s i = Some l -> In l (loans s) /\ Loan.id l = i.
Proof.
  unfold find_loan. destruct (filter _ (loans s)) as [| l' rest] eqn:E;
    [discriminate|].
  intros [= <-].
  assert (Hin : In l' (filter (fun l => Loan.id l =? i) (loans s)))
    by (rewrite E; left; reflexivity).
  apply filter_In in Hin. rewrite Z.eqb_eq in Hin. exact Hin.
Qed.

Lemma status_of_find_loan (s : db) (i : Z) :
  status_of s i = option_map Loan.status (find_loan s i).
Proof.
  unfold status_of, find_loan. destruct (filter _ (loans s)); reflexivity.
Qed.

Lemma select_due_date_find_loan (s : db) (i : Z) :
  Sql.select_due_date i s
  = match find_loan s i with
    | None => []
    | Some l =>
        Loan.due_date l
        :: map Loan.due_date (tl (filter (fun l => Loan.id l =? i) (loans s)))
    end.
Proof.
  unfold Sql.select_due_date, find_loan.
  destruct (filter _ (loans s)); reflexivity.
Qed.

(** No loan row, no row in the join. *)
Lemma select_loan_view_none (s : db) (i : Z) :
  find_loan s i = None -> Sql.select_loan_view i s = [].
Proof.
  rewrite find_loan_none. intros H.
  unfold Sql.select_loan_view, Sql.joined.
  destruct (filter _ _) as [| [l c] rest] eqn:E; [reflexivity|].
  assert (Hin : In (l, c) (filter (fun r => Loan.id (fst r) =? i)
                                  (flat_map (fun l => map (fun c => (l, c))
                                     (filter (fun c => Loan.customer_id l =? Customer.id c)
                                             (customers s))) (loans s))))
    by (rewrite E; left; reflexivity).
  apply filter_In in Hin. destruct Hin as [Hin Hi]. cbn [fst] in Hi.
  apply Z.eqb_eq in Hi. apply in_flat_map in Hin.
  destruct Hin as (l' & Hl' & Hin). apply in_map_iff in Hin.
  destruct Hin as (c' & [= <- <-] & _). exfalso. exact (H l' Hl' Hi).
Qed.

Lemma select_loan_view_in (s : db) (i : Z) (l : Loan.t) (c : Customer.t)
      (rest : list (Loan.t * Customer.t)) :
  select_loan_view i s = (l, c) :: rest -> In l (loans s).
Proof.
  intros H.
  assert (Hin : In (l, c) (select_loan_view i s)) by (rewrite H; left; reflexivity).
  unfold select_loan_view, joined in Hin.
  apply filter_In in Hin. destruct Hin as [Hin _].
  apply in_flat_map in Hin. destruct Hin as (l' & Hl' & Hin).
  apply in_map_iff in Hin. destruct Hin as (c' & [= <- <-] & _). exact Hl'.
Qed.

(** With rowids naming rows, a scan returns the id of a row exactly when
    the row passes the [WHERE] clause. *)
Lemma select_rows (p : Loan.t -> bool) (s : db) (l : Loan.t) :
  ascending (map Loan.id (loans s)) = true ->
  In l (loans s) ->
  In (Loan.id l) (map Loan.id (filter p (loans s))) <-> p l = true.
Proof.
  intros Hs Hl. apply ascending_sorted in Hs. split.
  - intros Hin. apply in_map_iff in Hin. destruct Hin as (l' & E & Hin).
    apply filter_In in Hin. destruct Hin as [Hl' Hp].
    rewrite <- (sorted_ids_unique Loan.id (loans s) l' l Hs Hl' Hl E).
    exact Hp.
  - intros Hp. apply in_map. apply filter_In. split; assumption.
Qed.

Lemma select_ids (p : Loan.t -> bool) (s : db) (i : Z) :
  In i (map Loan.id (filter p (loans s))) ->
  exists l, In l (loans s) /\ Loan.id l = i.
Proof.
  intros Hin. apply in_map_iff in Hin. destruct Hin as (l & E & Hin).
  apply filter_In in Hin. exists l. tauto.
Qed.

Lemma wf_db_parts (s : db) :
  wf_db s = true ->
  ascending (map Loan.id (loans s)) = true
  /\ forall l, In l (loans s) ->
       exists d, PyDate.fromisoformat (Loan.due_date l) = Ret d.
Proof.
  unfold wf_db. rewrite !andb_true_iff, forallb_forall.
  intros (((_ & Hl) & _) & Hd). split; [exact Hl|].
  intros l Hin. specialize (Hd l Hin). unfold is_iso_date in Hd.
  destruct (PyDate.fromisoformat _) as [d |]; [eauto | discriminate].
Qed.

(* ------------------------------------------------------------------ *)
(** * The operations, one case at a time *)

Lemma place_call_eq (tw : twilio) (i : Z) (key : string) (s : db) :
  place_call tw i key s =
  match Sql.select_loan_view i s with
  | [] => (s, Ret [("error", "Loan not found")])
  | (l, c) :: _ =>
      match PyDate.fromisoformat (Loan.due_date l) with
      | Raise e => (s, Raise e)
      | Ret d =>
          match get_msg (Customer.language c) key
                        (call_kwargs l c (PyDate.strftime_B_d_Y d)) with
          | Raise e => (s, Raise e)
          | Ret text =>
              let s1 := fst (Sql.insert_call_log i "call_initiated"
                               ("to " ++ Customer.phone c) s) in
              if USE_TWILIO tw then
                match calls_create tw (Customer.phone c) (TWILIO_NUMBER tw)
                                   (twiml_of text) with
                | Raise e => (s1, Raise e)
                | Ret sid =>
                    (fst (Sql.insert_call_log i "twilio_call" sid s1),
                     Ret [("status", "twilio_call_placed"); ("sid", sid)])
                end
              else
                (fst (Sql.insert_call_log i "mock_call" text s1),
                 Ret [("status", "mock_call_logged"); ("text", text)])
          end
      end
  end.
Proof.
  unfold place_call, bind, query_all, lift, ret, insert_log, execute.
  destruct (Sql.select_loan_view i s) as [| [l c] rest]; [reflexivity|].
  destruct (PyDate.fromisoformat _); [| reflexivity].
  destruct (get_msg _ _ _); [| reflexivity].
  cbn. destruct (USE_TWILIO tw); [| reflexivity].
  destruct (calls_create _ _ _ _); reflexivity.
Qed.

Lemma send_payment_link_eq (tw : twilio) (i : Z) (s : db) :
  send_payment_link tw i s =
  match Sql.select_loan_view i s with
  | [] => (s, Ret [("error", "Loan not found")])
  | (l, c) :: _ =>
      let payment_link := payment_link_of i (Loan.emi_amount l) in
      let sent detail :=
        (fst (Sql.insert_call_log i "payment_link_sent" detail s),
         Ret [("status", "payment_link_sent"); ("link", payment_link)]) in
      if USE_TWILIO tw then
        match messages_create tw
                ("TVS Credit: Pay your EMI of Rs " ++ str_of_int (Loan.emi_amount l)
                 ++ ". Click " ++ payment_link)
                (TWILIO_NUMBER tw) (Customer.phone c) with
        | Raise e => (s, Raise e)
        | Ret sid => sent ("tw_sms:" ++ sid)%string
        end
      else sent ("mock_sms_sent_to_" ++ Customer.phone c ++ "::"
                 ++ payment_link)%string
  end.
Proof.
  unfold send_payment_link, bind, query_all, lift, ret, insert_log, execute.
  destruct (Sql.select_loan_view i s) as [| [l c] rest]; [reflexivity|].
  destruct (USE_TWILIO tw); [| reflexivity].
  destruct (messages_create _ _ _ _); reflexivity.
Qed.

Lemma mark_paid_eq (i : Z) (s : db) :
  mark_paid i s =
  (fst (Sql.insert_call_log i "marked_paid" "Webhook/Manual"
          (fst (Sql.update_paid i s))),
   Ret [("status", "ok")]).
Proof. reflexivity. Qed.

Lemma reschedule_loan_eq (i n : Z) (s : db) :
  reschedule_loan i n s =
  match Sql.select_due_date i s with
  | [] => (s, Ret [("error", "Loan not found")])
  | due_date :: _ =>
      match PyDate.fromisoformat due_date with
      | Raise e => (s, Raise e)
      | Ret d =>
          match PyDate.add_days d n with
          | Raise e => (s, Raise e)
          | Ret d' =>
              (fst (Sql.insert_call_log i "rescheduled"
                      ("New due date: " ++ PyDate.isoformat d')
                      (fst (Sql.update_rescheduled (PyDate.isoformat d') i s))),
               Ret [("status", "rescheduled");
                    ("new_date", PyDate.isoformat d')])
          end
      end
  end.
Proof.
  unfold reschedule_loan, bind, query_all, lift, ret, insert_log, execute.
  destruct (Sql.select_due_date i s); [reflexivity|].
  destruct (PyDate.fromisoformat _); [| reflexivity].
  destruct (PyDate.add_days _ _); reflexivity.
Qed.

(** [place_call] only appends to [call_logs]. *)
Lemma place_call_frame (tw : twilio) (i : Z) (key : string) (s : db) :
  exists evs,
    fst (place_call tw i key s)
    = mkdb (customers s) (loans s) (call_logs s ++ evs).
Proof.
  rewrite place_call_eq.
  assert (Hs : s = mkdb (customers s) (loans s) (call_logs s ++ []))
    by (rewrite app_nil_r; destruct s; reflexivity).
  destruct (Sql.select_loan_view i s) as [| [l c] rest];
    [exists []; exact Hs|].
  destruct (PyDate.fromisoformat _); [| exists []; exact Hs].
  destruct (get_msg _ _ _); [| exists []; exact Hs].
  cbv zeta. destruct (USE_TWILIO tw).
  - destruct (calls_create _ _ _ _); cbn.
    + rewrite <- app_assoc. eexists. reflexivity.
    + eexists. reflexivity.
  - cbn. rewrite <- app_assoc. eexists. reflexivity.
Qed.

Lemma send_payment_link_frame (tw : twilio) (i : Z) (s : db) :
  exists evs,
    fst (send_payment_link tw i s)
    = mkdb (customers s) (loans s) (call_logs s ++ evs).
Proof.
  rewrite send_payment_link_eq.
  assert (Hs : s = mkdb (customers s) (loans s) (call_logs s ++ []))
    by (rewrite app_nil_r; destruct s; reflexivity).
  destruct (Sql.select_loan_view i s) as [| [l c] rest];
    [exists []; exact Hs|].
  cbv zeta. destruct (USE_TWILIO tw).
  - destruct (messages_create _ _ _ _); cbn.
    + eexists. reflexivity.
    + exists []. exact Hs.
  - cbn. eexists. reflexivity.
Qed.

Lemma logged_app (s s' : db) (evs : list CallLog.t) :
  call_logs s' = call_logs s ++ evs -> logged s s' = map log_entry evs.
Proof.
  intros E. unfold logged. rewrite E.
  rewrite skipn_app, skipn_all, Nat.sub_diag. reflexivity.
Qed.

(** What [place_call] returns and logs depends on the [loans] and
    [customers] tables only. *)
Lemma place_call_same (tw : twilio) (i : Z) (key : string) (s s2 : db) :
  customers s2 = customers s -> loans s2 = loans s ->
  snd (place_call tw i key s2) = snd (place_call tw i key s)
  /\ logged s2 (fst (place_call tw i key s2))
     = logged s (fst (place_call tw i key s)).
Proof.
  intros Hc Hl. rewrite !place_call_eq.
  assert (Hv : Sql.select_loan_view i s2 = Sql.select_loan_view i s)
    by (unfold Sql.select_loan_view, Sql.joined; rewrite Hc, Hl; reflexivity).
  rewrite Hv.
  assert (Hnil : forall t, logged t t = [])
    by (intros t; apply (logged_app t t []); rewrite app_nil_r; reflexivity).
  destruct (Sql.select_loan_view i s) as [| [l c] rest];
    [rewrite !Hnil; auto|].
  destruct (PyDate.fromisoformat _); [| cbn [fst snd]; rewrite !Hnil; auto].
  destruct (get_msg _ _ _); [| cbn [fst snd]; rewrite !Hnil; auto].
  cbv zeta. destruct (USE_TWILIO tw).
  - destruct (calls_create _ _ _ _); cbn [fst snd]; split; try reflexivity.
    + erewrite !logged_app by (cbn; rewrite <- app_assoc; reflexivity).
      reflexivity.
    + erewrite !logged_app by (cbn; reflexivity). reflexivity.
  - cbn [fst snd]; split; try reflexivity.
    erewrite !logged_app by (cbn; rewrite <- app_assoc; reflexivity).
    reflexivity.
Qed.

(* ------------------------------------------------------------------ *)
(** * Updates of the loans table *)

Lemma find_loan_map (f : Loan.t -> Loan.t) (s : db)
      (cs : list Customer.t) (logs : list CallLog.t) (i : Z) :
  (forall l, Loan.id (f l) = Loan.id l) ->
  find_loan (mkdb cs (map f (loans s)) logs) i = option_map f (find_loan s i).
Proof.
  intros Hid. unfold find_loan. cbn [loans].
  induction (loans s) as [| l rest IH]; [reflexivity|].
  cbn [map filter]. rewrite Hid.
  destruct (Loan.id l =? i); [reflexivity | exact IH].
Qed.

Lemma find_loan_logs (s : db) (logs : list CallLog.t) (i : Z) :
  find_loan (mkdb (customers s) (loans s) logs) i = find_loan s i.
Proof. reflexivity. Qed.

Lemma find_loan_app (s : db) (cs : list Customer.t) (logs : list CallLog.t)
      (new : list Loan.t) (i : Z) (l : Loan.t) :
  find_loan s i = Some l ->
  find_loan (mkdb cs (loans s ++ new) logs) i = Some l.
Proof.
  unfold find_loan. cbn [loans]. rewrite filter_app.
  destruct (filter _ (loans s)); [discriminate | intros H; exact H].
Qed.

Lemma map_update_other (f : Loan.t -> Loan.t) (rows : list Loan.t) (i : Z) :
  (forall l, In l rows -> Loan.id l <> i) ->
  map (fun l => if Loan.id l =? i then f l else l) rows = rows.
Proof.
  intros H. induction rows as [| l rest IH]; [reflexivity|].
  cbn [map]. rewrite IH by (intros; apply H; right; assumption).
  destruct (Z.eqb_spec (Loan.id l) i) as [E | _]; [| reflexivity].
  exfalso. exact (H l (or_introl eq_refl) E).
Qed.

Lemma set_paid_id (i : Z) (l : Loan.t) : Loan.id (set_paid i l) = Loan.id l.
Proof. unfold set_paid. destruct (Loan.id l =? i); reflexivity. Qed.

Lemma set_rescheduled_id (t : string) (i : Z) (l : Loan.t) :
  Loan.id (set_rescheduled t i l) = Loan.id l.
Proof. unfold set_rescheduled. destruct (Loan.id l =? i); reflexivity. Qed.

Lemma set_paid_twice (i : Z) (l : Loan.t) :
  set_paid i (set_paid i l) = set_paid i l.
Proof.
  unfold set_paid. destruct (Loan.id l =? i) eqn:E; cbn [Loan.id];
    rewrite E; reflexivity.
Qed.

Lemma mark_paid_store (i : Z) (s : db) :
  fst (mark_paid i s)
  = mkdb (customers s) (map (set_paid i) (loans s))
         (call_logs s
          ++ [CallLog.mk (next_id (map CallLog.id (call_logs s))) i
                         "marked_paid" "Webhook/Manual"]).
Proof. reflexivity. Qed.

Lemma reschedule_loan_store (s : db) (i n : Z) (l : Loan.t) (d d' : PyDate.date) :
  find_loan s i = Some l ->
  PyDate.fromisoformat (Loan.due_date l) = Ret d ->
  PyDate.add_days d n = Ret d' ->
  reschedule_loan i n s
  = (mkdb (customers s)
          (map (set_rescheduled (PyDate.isoformat d') i) (loans s))
          (call_logs s
           ++ [CallLog.mk (next_id (map CallLog.id (call_logs s))) i
                 "rescheduled" ("New due date: " ++ PyDate.isoformat d')]),
     Ret [("status", "rescheduled"); ("new_date", PyDate.isoformat d')]).
Proof.
  intros Hf Hd Ha. rewrite reschedule_loan_eq, select_due_date_find_loan, Hf.
  rewrite Hd, Ha. reflexivity.
Qed.

Lemma status_of_set_paid (s : db) (cs : list Customer.t) (logs : list CallLog.t)
      (i j : Z) (st : string) :
  status_of s i = Some st ->
  status_of (mkdb cs (map (set_paid j) (loans s)) logs) i
  = Some (if i =? j then "paid" else st).
Proof.
  rewrite !status_of_find_loan.
  rewrite (find_loan_map (set_paid j)) by apply set_paid_id.
  destruct (find_loan s i) as [l |] eqn:E; [| discriminate].
  apply find_loan_some in E. destruct E as [_ E]. cbn [option_map].
  intros [= <-]. unfold set_paid. rewrite E.
  destruct (i =? j); reflexivity.
Qed.

Lemma status_of_set_rescheduled (s : db) (cs : list Customer.t)
      (logs : list CallLog.t) (t : string) (i j : Z) (st : string) :
  status_of s i = Some st ->
  status_of (mkdb cs (map (set_rescheduled t j) (loans s)) logs) i
  = Some (if i =? j then "rescheduled" else st).
Proof.
  rewrite !status_of_find_loan.
  rewrite (find_loan_map (set_rescheduled t j)) by apply set_rescheduled_id.
  destruct (find_loan s i) as [l |] eqn:E; [| discriminate].
  apply find_loan_some in E. destruct E as [_ E]. cbn [option_map].
  intros [= <-]. unfold set_rescheduled. rewrite E.
  destruct (i =? j); reflexivity.
Qed.

Lemma status_of_same_loans (s s' : db) (i : Z) :
  loans s' = loans s -> status_of s' i = status_of s i.
Proof. unfold status_of. intros ->. reflexivity. Qed.

(* ------------------------------------------------------------------ *)
(** * Messages *)

Lemma string_app_assoc (a b c : string) :
  ((a ++ b) ++ c = a ++ (b ++ c))%string.
Proof. induction a as [| x a IH]; cbn; [reflexivity | rewrite IH; reflexivity]. Qed.

(** A language without messages gets those of ["en"], whatever the key
    and the arguments. *)
Lemma get_msg_unmapped (lang key : string) (kwargs : dict string) :
  dict_get LANG_MSGS lang = None ->
  get_msg lang key kwargs = get_msg "en" key kwargs.
Proof. intros H. unfold get_msg. rewrite H. reflexivity. Qed.

Lemma en_reminder (n a dd : string) :
  get_msg "en" "reminder" [("name", n); ("amount", a); ("due_date", dd)]
  = Ret ("Hello " ++ n
         ++ ". This is a reminder from TVS Credit. Your EMI of Rs " ++ a
         ++ " is due today. Press 1 to pay now, or press 2 to request a reschedule.")%string.
Proof. reflexivity. Qed.

Lemma en_pre_due_reminder (n a dd : string) :
  get_msg "en" "pre_due_reminder"
          [("name", n); ("amount", a); ("due_date", dd)]
  = Ret ("Hello " ++ n
         ++ ". A friendly reminder from TVS Credit. Your EMI of Rs " ++ a
         ++ " is due on " ++ dd ++ ". Thank you.")%string.
Proof. reflexivity. Qed.

Lemma dict_get_in {V : Type} (d : dict V) (k : string) (v : V) :
  dict_get d k = Some v -> In (k, v) d.
Proof.
  induction d as [| [k' v'] d IH]; cbn [dict_get]; [discriminate|].
  destruct (String.eqb_spec k' k) as [-> | _].
  - intros [= ->]. left. reflexivity.
  - intros H. right. exact (IH H).
Qed.

(** Every language of [LANG_MSGS] has both reminder templates, and they
    format with the three arguments [place_call] passes. *)
Lemma reminder_templates_format (n a dd : string) :
  forallb (fun entry : string * dict string =>
             match dict_item (snd entry) "reminder",
                   dict_item (snd entry) "pre_due_reminder" with
             | Ret t1, Ret t2 =>
                 match format t1 [("name", n); ("amount", a); ("due_date", dd)],
                       format t2 [("name", n); ("amount", a); ("due_date", dd)]
                 with
                 | Ret _, Ret _ => true
                 | _, _ => false
                 end
             | _, _ => false
             end)
          LANG_MSGS = true.
Proof. vm_compute. reflexivity. Qed.

Lemma get_msg_reminder_returns (lang key n a dd : string) :
  key = "reminder" \/ key = "pre_due_reminder" ->
  exists text,
    get_msg lang key [("name", n); ("amount", a); ("due_date", dd)] = Ret text.
Proof.
  intros Hkey.
  assert (Hall := reminder_templates_format n a dd).
  rewrite forallb_forall in Hall.
  assert (Hen : exists en, dict_get LANG_MSGS "en" = Some en)
    by (eexists; reflexivity).
  destruct Hen as [en Hen].
  assert (Hmsgs : exists l0 msgs,
             In (l0, msgs) LANG_MSGS
             /\ get_msg lang key [("name", n); ("amount", a); ("due_date", dd)]
                = match dict_item msgs key with
                  | Raise e => Raise e
                  | Ret t => format t [("name", n); ("amount", a); ("due_date", dd)]
                  end).
  { unfold get_msg, dict_item at 1. rewrite Hen.
    destruct (dict_get LANG_MSGS lang) as [m |] eqn:E.
    - exists lang, m. split; [apply dict_get_in; exact E | reflexivity].
    - exists "en", en. split; [apply dict_get_in; exact Hen | reflexivity]. }
  destruct Hmsgs as (l0 & msgs & Hin & ->).
  specialize (Hall _ Hin). cbn [snd] in Hall.
  destruct (dict_item msgs "reminder") as [t1 |] eqn:E1; [| discriminate].
  destruct (dict_item msgs "pre_due_reminder") as [t2 |] eqn:E2;
    [| discriminate].
  destruct (format t1 _) as [x1 |] eqn:F1; [| discriminate].
  destruct (format t2 _) as [x2 |] eqn:F2; [| discriminate].
  destruct Hkey as [-> | ->]; [rewrite E1, F1 | rewrite E2, F2];
    eexists; reflexivity.
Qed.

Lemma place_call_mock (tw : twilio) (s : db) (i : Z) (key : string)
      (l : Loan.t) (c : Customer.t) (rest : list (Loan.t * Customer.t))
      (d : PyDate.date) (text : string) :
  select_loan_view i s = (l, c) :: rest ->
  PyDate.fromisoformat (Loan.due_date l) = Ret d ->
  get_msg (Customer.language c) key (call_kwargs l c (PyDate.strftime_B_d_Y d))
  = Ret text ->
  USE_TWILIO tw = false ->
  snd (place_call tw i key s)
  = Ret [("status", "mock_call_logged"); ("text", text)]
  /\ logged s (fst (place_call tw i key s))
     = [(i, "call_initiated", ("to " ++ Customer.phone c)%string);
        (i, "mock_call", text)].
Proof.
  intros Hv Hd Hm Hu. rewrite place_call_eq, Hv, Hd, Hm. cbv zeta.
  rewrite Hu. cbn [fst snd]. split; [reflexivity|].
  erewrite logged_app by (cbn; rewrite <- app_assoc; reflexivity).
  reflexivity.
Qed.

Lemma place_call_live (tw : twilio) (s : db) (i : Z) (key : string)
      (l : Loan.t) (c : Customer.t) (rest : list (Loan.t * Customer.t))
      (d : PyDate.date) (text : string) :
  select_loan_view i s = (l, c) :: rest ->
  PyDate.fromisoformat (Loan.due_date l) = Ret d ->
  get_msg (Customer.language c) key (call_kwargs l c (PyDate.strftime_B_d_Y d))
  = Ret text ->
  USE_TWILIO tw = true ->
  snd (place_call tw i key s)
  = match calls_create tw (Customer.phone c) (TWILIO_NUMBER tw)
                       (twiml_of text) with
    | Ret sid => Ret [("status", "twilio_call_placed"); ("sid", sid)]
    | Raise e => Raise e
    end.
Proof.
  intros Hv Hd Hm Hu. rewrite place_call_eq, Hv, Hd, Hm. cbv zeta.
  rewrite Hu. destruct (calls_create _ _ _ _); reflexivity.
Qed.

(* ------------------------------------------------------------------ *)
(** * The bulk loop *)

Lemma call_each_frame (tw : twilio) (key : string) (toast : Z -> string)
      (ids : list Z) (s : db) :
  customers (fst (fst (call_each tw key toast ids s))) = customers s
  /\ loans (fst (fst (call_each tw key toast ids s))) = loans s.
Proof.
  revert s. induction ids as [| i rest IH]; intros s; cbn [call_each].
  - split; reflexivity.
  - destruct (place_call_frame tw i key s) as [evs Hs1].
    destruct (place_call tw i key s) as [s1 [r | e]]; cbn [fst] in Hs1.
    + specialize (IH s1).
      destruct (call_each tw key toast rest s1) as [[s2 shown] r2].
      cbn [fst] in *. rewrite Hs1 in IH. exact IH.
    + subst s1. split; reflexivity.
Qed.

Lemma bulk_calls_frame (tw : twilio) (key : string) (toast : Z -> string)
      (empty_text : string) (done_text : nat -> string) (ids : list Z) (s : db) :
  customers (fst (fst (bulk_calls tw key toast empty_text done_text ids s)))
  = customers s
  /\ loans (fst (fst (bulk_calls tw key toast empty_text done_text ids s)))
     = loans s.
Proof.
  unfold bulk_calls. destruct ids as [| i rest]; [split; reflexivity|].
  pose proof (call_each_frame tw key toast (i :: rest) s) as H.
  destruct (call_each tw key toast (i :: rest) s) as [[s' shown] [r | e]];
    exact H.
Qed.

(** The loop runs to its end when no call raises; the log then grows by
    what each call logs, in the order of the list. *)
Lemma call_each_run (tw : twilio) (key : string) (toast : Z -> string)
      (ids : list Z) (s0 : db) :
  (forall i, In i ids -> exists r, snd (place_call tw i key s0) = Ret r) ->
  forall s, customers s = customers s0 -> loans s = loans s0 ->
  exists evs,
    call_each tw key toast ids s
    = (mkdb (customers s) (loans s) (call_logs s ++ evs),
       map (fun i => Toast (toast i)) ids, Ret tt)
    /\ map log_entry evs
       = flat_map (fun i => logged s0 (fst (place_call tw i key s0))) ids.
Proof.
  induction ids as [| i rest IH]; intros Hret s Hc Hl; cbn [call_each].
  - exists []. rewrite app_nil_r. destruct s. split; reflexivity.
  - destruct (place_call_same tw i key s0 s Hc Hl) as [Hsnd Hlog].
    destruct (Hret i (or_introl eq_refl)) as [r Hr].
    destruct (place_call_frame tw i key s) as [evs1 Hs1].
    destruct (place_call tw i key s) as [s1 o1]. cbn [fst snd] in *.
    rewrite Hr in Hsnd. subst o1 s1.
    destruct (IH (fun j Hj => Hret j (or_intror Hj))
                 (mkdb (customers s) (loans s) (call_logs s ++ evs1)) Hc Hl)
      as (evs2 & -> & Hevs2).
    cbn [customers loans call_logs map flat_map].
    exists (evs1 ++ evs2). rewrite <- app_assoc. split; [reflexivity|].
    rewrite map_app, Hevs2. f_equal.
    rewrite <- Hlog. symmetry. apply logged_app. reflexivity.
Qed.

(** The loop stops at the first call that raises: the loans before it
    have been called and toasted, the call that raised has left what it
    logged before raising, and the loans after it are not called. *)
Lemma call_each_stops (tw : twilio) (key : string) (toast : Z -> string)
      (pre : list Z) (i : Z) (post : list Z) (s0 : db) (e : exn) :
  (forall j, In j pre -> exists r, snd (place_call tw j key s0) = Ret r) ->
  snd (place_call tw i key s0) = Raise e ->
  forall s, customers s = customers s0 -> loans s = loans s0 ->
  exists evs,
    call_each tw key toast (pre ++ i :: post) s
    = (mkdb (customers s) (loans s) (call_logs s ++ evs),
       map (fun j => Toast (toast j)) pre, Raise e)
    /\ map log_entry evs
       = (flat_map (fun j => logged s0 (fst (place_call tw j key s0))) pre
          ++ logged s0 (fst (place_call tw i key s0)))%list
    /\ mkdb (customers s) (loans s) (call_logs s ++ evs)
       = fst (place_call tw i key (fst (fst (call_each tw key toast pre s)))).
Proof.
  intros Hret He.
  induction pre as [| j pre IH]; intros s Hc Hl; cbn [app call_each fst].
  - destruct (place_call_same tw i key s0 s Hc Hl) as [Hsnd Hlog].
    destruct (place_call_frame tw i key s) as [evs1 Hs1].
    destruct (place_call tw i key s) as [s1 o1]. cbn [fst snd] in *.
    rewrite He in Hsnd. subst o1 s1.
    exists evs1. cbn [map flat_map app]. split; [reflexivity|].
    split; [| reflexivity].
    rewrite <- Hlog. symmetry. apply logged_app. reflexivity.
  - destruct (place_call_same tw j key s0 s Hc Hl) as [Hsnd Hlog].
    destruct (Hret j (or_introl eq_refl)) as [r Hr].
    destruct (place_call_frame tw j key s) as [evs1 Hs1].
    destruct (place_call tw j key s) as [s1 o1]. cbn [fst snd] in *.
    rewrite Hr in Hsnd. subst o1 s1.
    destruct (IH (fun k Hk => Hret k (or_intror Hk))
                 (mkdb (customers s) (loans s) (call_logs s ++ evs1)) Hc Hl)
      as (evs2 & -> & Hevs2 & Hst).
    cbn [customers loans call_logs map flat_map] in *.
    exists (evs1 ++ evs2). rewrite <- !app_assoc in *.
    split; [reflexivity|]. split.
    + rewrite map_app, Hevs2. f_equal.
      rewrite <- Hlog. symmetry. apply logged_app. reflexivity.
    + rewrite Hst.
      destruct (call_each tw key toast pre
                  (mkdb (customers s) (loans s) (call_logs s ++ evs1)))
        as [[s2 shown] r2].
      reflexivity.
Qed.

(* ------------------------------------------------------------------ *)
(** * The store stays well formed *)

Lemma next_id_above (ids : list Z) (j : Z) : In j ids -> j < next_id ids.
Proof.
  unfold next_id. induction ids as [| i rest IH]; cbn [In fold_right]; [easy|].
  intros [-> | Hj]; [lia|]. specialize (IH Hj). lia.
Qed.

Lemma ascending_snoc (ids : list Z) :
  ascending ids = true -> ascending (ids ++ [next_id ids]) = true.
Proof.
  rewrite !ascending_sorted. intros Hs.
  assert (Hall : Forall (fun j => j < next_id ids) ids)
    by (apply Forall_forall; apply next_id_above).
  revert Hall. generalize (next_id ids) as n.
  induction Hs as [| i rest Hs IH Hi]; intros n Hall; cbn [app].
  - repeat constructor.
  - inversion Hall as [| ? ? Hin Hrest]; subst.
    constructor; [apply IH; exact Hrest|].
    apply Forall_app. split; [exact Hi | repeat constructor; exact Hin].
Qed.

Lemma wf_insert_call_log (i : Z) (event detail : string) (s : db) :
  wf_db s = true -> wf_db (fst (insert_call_log i event detail s)) = true.
Proof.
  unfold wf_db, insert_call_log. cbn [fst customers loans call_logs].
  rewrite !andb_true_iff. intros (((Hc & Hl) & Hg) & Hd).
  repeat split; try assumption.
  rewrite map_app. cbn [map CallLog.id]. apply ascending_snoc. exact Hg.
Qed.

Lemma wf_update (f : Loan.t -> Loan.t) (s : db) :
  (forall l, Loan.id (f l) = Loan.id l) ->
  (forall l, is_iso_date (Loan.due_date l) = true ->
             is_iso_date (Loan.due_date (f l)) = true) ->
  wf_db s = true ->
  wf_db (mkdb (customers s) (map f (loans s)) (call_logs s)) = true.
Proof.
  intros Hid Hdate. unfold wf_db. cbn [customers loans call_logs].
  rewrite !andb_true_iff, !forallb_forall.
  intros (((Hc & Hl) & Hg) & Hd). repeat split; try assumption.
  - rewrite map_map. rewrite (map_ext _ _ Hid). exact Hl.
  - intros l' Hin. apply in_map_iff in Hin. destruct Hin as (l & <- & Hin).
    apply Hdate. apply Hd. exact Hin.
Qed.

Lemma is_iso_date_isoformat (d : PyDate.date) :
  PyDate.check_date_fields d = true -> is_iso_date (PyDate.isoformat d) = true.
Proof.
  intros H. unfold is_iso_date.
  rewrite PyDateFacts.fromisoformat_isoformat by exact H. reflexivity.
Qed.

Lemma wf_place_call (tw : twilio) (i : Z) (key : string) (s : db) :
  wf_db s = true -> wf_db (fst (place_call tw i key s)) = true.
Proof.
  intros H. rewrite place_call_eq.
  destruct (select_loan_view i s) as [| [l c] rest]; [exact H|].
  destruct (PyDate.fromisoformat _); [| exact H].
  destruct (get_msg _ _ _); [| exact H].
  cbv zeta. destruct (USE_TWILIO tw); [destruct (calls_create _ _ _ _)|];
    cbn [fst]; repeat apply wf_insert_call_log; exact H.
Qed.

Lemma wf_send_payment_link (tw : twilio) (i : Z) (s : db) :
  wf_db s = true -> wf_db (fst (send_payment_link tw i s)) = true.
Proof.
  intros H. rewrite send_payment_link_eq.
  destruct (select_loan_view i s) as [| [l c] rest]; [exact H|].
  cbv zeta. destruct (USE_TWILIO tw); [destruct (messages_create _ _ _ _)|];
    cbn [fst]; try apply wf_insert_call_log; exact H.
Qed.

Lemma wf_call_each (tw : twilio) (key : string) (toast : Z -> string)
      (ids : list Z) (s : db) :
  wf_db s = true -> wf_db (fst (fst (call_each tw key toast ids s))) = true.
Proof.
  revert s. induction ids as [| i rest IH]; intros s H; cbn [call_each];
    [exact H|].
  pose proof (wf_place_call tw i key s H) as H1.
  destruct (place_call tw i key s) as [s1 [r | e]]; cbn [fst] in H1;
    [| exact H1].
  specialize (IH s1 H1).
  destruct (call_each tw key toast rest s1) as [[s2 shown] r2]. exact IH.
Qed.

Lemma wf_bulk_calls (tw : twilio) (key : string) (toast : Z -> string)
      (empty_text : string) (done_text : nat -> string) (ids : list Z) (s : db) :
  wf_db s = true ->
  wf_db (fst (fst (bulk_calls tw key toast empty_text done_text ids s))) = true.
Proof.
  intros H. unfold bulk_calls. destruct ids as [| i rest]; [exact H|].
  pose proof (wf_call_each tw key toast (i :: rest) s H) as H1.
  destruct (call_each tw key toast (i :: rest) s) as [[s' shown] [r | e]];
    exact H1.
Qed.

(** Every action of the page takes a well-formed store to a well-formed
    store, whether it returns or raises; the empty store is well
    formed. *)
Theorem wf_db_run (tw : twilio) (a : action) (s : db) :
  action_ok a = true -> wf_db s = true -> wf_db (run tw a s) = true.
Proof.
  intros Ha H.
  destruct a as [j k | j | j | j n | cn cp cl e d | t | t]; cbn [run].
  - apply wf_place_call; exact H.
  - apply wf_send_payment_link; exact H.
  - rewrite mark_paid_eq. cbn [fst]. apply wf_insert_call_log.
    apply (wf_update (set_paid j)); [apply set_paid_id | | exact H].
    intros l Hl. unfold set_paid. destruct (Loan.id l =? j); exact Hl.
  - rewrite reschedule_loan_eq.
    destruct (select_due_date j s) as [| due rest]; [exact H|].
    destruct (PyDate.fromisoformat due) as [d0 |]; [| exact H].
    destruct (PyDate.add_days d0 n) as [d' |] eqn:Hadd; [| exact H].
    cbn [fst]. apply wf_insert_call_log.
    apply (wf_update (set_rescheduled (PyDate.isoformat d') j));
      [apply set_rescheduled_id | | exact H].
    intros l Hl. unfold set_rescheduled.
    destruct (Loan.id l =? j); [| exact Hl].
    apply is_iso_date_isoformat.
    exact (proj1 (PyDateFacts.add_days_spec _ _ _ Hadd)).
  - cbn [action_ok] in Ha. revert H.
    unfold create_loan, bind, execute, insert_customer, insert_loan, wf_db.
    cbn [fst customers loans call_logs].
    rewrite !andb_true_iff, !map_app, forallb_app.
    intros (((Hc & Hl) & Hg) & Hd). cbn [map Customer.id Loan.id forallb].
    rewrite andb_true_iff, andb_true_r.
    repeat split; try assumption; try (apply ascending_snoc; assumption).
    apply is_iso_date_isoformat. exact Ha.
  - apply wf_bulk_calls. exact H.
  - unfold call_pre_due_customers.
    destruct (PyDate.add_days t 3); [apply wf_bulk_calls|]; exact H.
Qed.

Lemma wf_db_empty : wf_db empty_db = true.
Proof. reflexivity. Qed.

(** With the mock channel, in a well-formed store, a reminder call
    returns for every loan id: nothing in it can raise. *)
Lemma mock_call_returns (tw : twilio) (s : db) (i : Z) (key : string) :
  USE_TWILIO tw = false ->
  wf_db s = true ->
  key = "reminder" \/ key = "pre_due_reminder" ->
  exists r, snd (place_call tw i key s) = Ret r.
Proof.
  intros Hu Hwf Hkey. rewrite place_call_eq.
  destruct (select_loan_view i s) as [| [l c] rest] eqn:Hv;
    [eexists; reflexivity|].
  destruct (proj2 (wf_db_parts s Hwf) l (select_loan_view_in s i l c rest Hv))
    as [d ->].
  destruct (get_msg_reminder_returns (Customer.language c) key
              (Customer.name c) (str_of_int (Loan.emi_amount l))
              (PyDate.strftime_B_d_Y d) Hkey) as [text Ht].
  unfold call_kwargs. rewrite Ht. cbv zeta. rewrite Hu.
  eexists. reflexivity.
Qed.

(** So the overdue button, with the mock channel and a well-formed store,
    always runs to its end. *)
Lemma mock_overdue_batch_completes (tw : twilio) (s : db) (today : PyDate.date) :
  USE_TWILIO tw = false ->
  wf_db s = true ->
  exists s' shown, call_overdue_customers tw today s = (s', shown, Ret tt).
Proof.
  intros Hu Hwf. unfold call_overdue_customers, bulk_calls.
  destruct (select_overdue (PyDate.isoformat today) s) as [| i rest];
    [do 2 eexists; reflexivity|].
  destruct (call_each_run tw "reminder"
              (fun i => "Called loan " ++ str_of_int i ++ " (overdue)")%string
              (i :: rest) s
              (fun j _ => mock_call_returns tw s j "reminder" Hu Hwf
                            (or_introl eq_refl))
              s eq_refl eq_refl) as (evs & -> & _).
  do 2 eexists. reflexivity.
Qed.

(* ------------------------------------------------------------------ *)
(** * The properties of the specification *)

(** C1, as the code has it.  Whatever an action of the page does, a loan
    stays in the store, and its status afterwards is the status it had,
    or [paid] because the action was [mark_paid] on that loan, or
    [rescheduled] because the action was [reschedule_loan] on that loan.
    Neither function looks at the status before: [mark_paid] makes any
    loan [paid], and [reschedule_loan], when it returns the new date,
    makes any loan [rescheduled], a [paid] one included. *)
Theorem status_transitions (tw : twilio) (a : action) (s : db) (i : Z) (st : string) :
  status_of s i = Some st ->
  (exists st',
     status_of (run tw a s) i = Some st'
     /\ (st' = st
         \/ (st' = "paid" /\ a = MarkPaid i)
         \/ (st' = "rescheduled" /\ exists n, a = RescheduleLoan i n)))
  /\ status_of (run tw (MarkPaid i) s) i = Some "paid"
  /\ (forall n new_date,
        snd (reschedule_loan i n s)
        = Ret [("status", "rescheduled"); ("new_date", new_date)] ->
        status_of (run tw (RescheduleLoan i n) s) i = Some "rescheduled").
Proof.
  intros Hst. split; [| split].
  - destruct a as [j k | j | j | j n | cn cp cl e d | t | t]; cbn [run].
    + destruct (place_call_frame tw j k s) as [evs ->].
      exists st. split; [exact Hst | left; reflexivity].
    + destruct (send_payment_link_frame tw j s) as [evs ->].
      exists st. split; [exact Hst | left; reflexivity].
    + rewrite mark_paid_store. rewrite (status_of_set_paid s _ _ i j st Hst).
      destruct (Z.eqb_spec i j) as [<- | _]; eexists; split;
        try reflexivity; auto.
    + rewrite reschedule_loan_eq.
      destruct (select_due_date j s) as [| due rest];
        [exists st; split; [exact Hst | left; reflexivity]|].
      destruct (PyDate.fromisoformat due) as [d0 |];
        [| exists st; split; [exact Hst | left; reflexivity]].
      destruct (PyDate.add_days d0 n) as [d' |];
        [| exists st; split; [exact Hst | left; reflexivity]].
      cbn [fst insert_call_log update_rescheduled customers loans call_logs].
      rewrite (status_of_set_rescheduled s _ _ _ i j st Hst).
      destruct (Z.eqb_spec i j) as [<- | _]; eexists; split;
        try reflexivity; eauto.
    + exists st. split; [| left; reflexivity].
      rewrite status_of_find_loan in *.
      destruct (find_loan s i) as [l |] eqn:E; [| discriminate].
      unfold create_loan, bind, execute, insert_customer, insert_loan.
      cbn [fst customers loans call_logs].
      rewrite (find_loan_app _ _ _ _ i l); [exact Hst|].
      exact E.
    + exists st. split; [| left; reflexivity].
      unfold call_overdue_customers. rewrite <- Hst.
      apply status_of_same_loans. apply bulk_calls_frame.
    + exists st. split; [| left; reflexivity].
      unfold call_pre_due_customers.
      destruct (PyDate.add_days t 3); [| exact Hst].
      rewrite <- Hst. apply status_of_same_loans. apply bulk_calls_frame.
  - cbn [run]. rewrite mark_paid_store.
    rewrite (status_of_set_paid s _ _ i i st Hst), Z.eqb_refl. reflexivity.
  - intros n new_date Hr. cbn [run]. revert Hr. rewrite reschedule_loan_eq.
    destruct (select_due_date i s) as [| due rest]; [discriminate|].
    destruct (PyDate.fromisoformat due) as [d0 |]; [| discriminate].
    destruct (PyDate.add_days d0 n) as [d' |]; [| discriminate].
    intros _.
    cbn [fst insert_call_log update_rescheduled customers loans call_logs].
    rewrite (status_of_set_rescheduled s _ _ _ i i st Hst), Z.eqb_refl.
    reflexivity.
Qed.

Lemma status_transitions_witness :
  status_of paid_loan 1 = Some "paid"
  /\ exists st',
       status_of (run mock (RescheduleLoan 1 7) paid_loan) 1 = Some st'
       /\ (st' = "paid"
           \/ (st' = "paid" /\ RescheduleLoan 1 7 = MarkPaid 1)
           \/ (st' = "rescheduled"
               /\ exists n, RescheduleLoan 1 7 = RescheduleLoan 1 n)).
Proof.
  split; [reflexivity|].
  exact (proj1 (status_transitions mock (RescheduleLoan 1 7) paid_loan 1
                  "paid" eq_refl)).
Defined.

(** C1 as stated fails: [paid] is not terminal.  Rescheduling the paid
    loan of customer "A" returns the new date and leaves the loan
    [rescheduled]. *)
Lemma paid_loan_rescheduled :
  status_of paid_loan 1 = Some "paid"
  /\ snd (reschedule_loan 1 days_to_add_default paid_loan)
     = Ret [("status", "rescheduled"); ("new_date", "2025-01-08")]
  /\ status_of (run mock (RescheduleLoan 1 days_to_add_default) paid_loan) 1
     = Some "rescheduled"
  /\ status_of (run mock (RescheduleLoan 1 days_to_add_default) paid_loan) 1
     <> Some "paid".
Proof. vm_compute. repeat split. discriminate. Qed.

(** C2, as the code has it.  The bulk loop calls [place_call] on the
    given ids one at a time, in the order of the list.  A call that
    returns "Loan not found" logs nothing and does not stop the loop.  A
    call that raises stops the loop at that loan, wherever the loan is in
    the list: the loans before it have been called and toasted, the log
    ends with what the raising call had logged, the loans after it are
    not called, and nothing is reported.  When no call raises, the loop
    leaves loans and customers alone, the log has grown by what each call
    logs, in the order of the list, one toast per loan is shown, and the
    button ends with a message giving the number of loans in the batch
    (succeeded or not), not a count of successes and a list of failures.
    For the single due loan of customer "A": two events, the status still
    [due], and "Finished calling all 1 overdue customers."  (Ids are
    those SQLite can bind, and for the loop that stops the due dates are
    ISO dates, as in every store the script writes.) *)
Theorem bulk_calls_in_order (tw : twilio) (key : string) (toast : Z -> string)
        (empty_text : string) (done_text : nat -> string) (ids : list Z) (s : db) :
  Forall (fun i => sqlite_int i = true) ids ->
  ((forall i, In i ids -> exists r, snd (place_call tw i key s) = Ret r) ->
   exists s',
     call_each tw key toast ids s
     = (s', map (fun i => Toast (toast i)) ids, Ret tt)
     /\ customers s' = customers s
     /\ loans s' = loans s
     /\ logged s s'
        = flat_map (fun i => logged s (fst (place_call tw i key s))) ids
     /\ (ids <> [] ->
         bulk_calls tw key toast empty_text done_text ids s
         = (s', map (fun i => Toast (toast i)) ids
                ++ [Success (done_text (List.length ids))], Ret tt)))
  /\ (forall i, sqlite_int i = true -> find_loan s i = None ->
        snd (place_call tw i key s) = Ret [("error", "Loan not found")]
        /\ logged s (fst (place_call tw i key s)) = [])
  /\ (wf_db s = true ->
      forall pre i post e,
        ids = (pre ++ i :: post)%list ->
        (forall j, In j pre -> exists r, snd (place_call tw j key s) = Ret r) ->
        snd (place_call tw i key s) = Raise e ->
        exists s',
          call_each tw key toast ids s
          = (s', map (fun j => Toast (toast j)) pre, Raise e)
          /\ bulk_calls tw key toast empty_text done_text ids s
             = (s', map (fun j => Toast (toast j)) pre, Raise e)
          /\ s' = fst (place_call tw i key
                         (fst (fst (call_each tw key toast pre s))))
          /\ customers s' = customers s
          /\ loans s' = loans s
          /\ logged s s'
             = (flat_map (fun j => logged s (fst (place_call tw j key s))) pre
                ++ logged s (fst (place_call tw i key s)))%list)
  /\ (let '(s', shown, r) := call_overdue_customers mock jan1 one_loan in
      r = Ret tt
      /\ shown = [Toast "Called loan 1 (overdue)";
                  Success "Finished calling all 1 overdue customers."]
      /\ map (fun e => (CallLog.loan_id e, CallLog.event e)) (call_logs s')
         = [(1, "call_initiated"); (1, "mock_call")]
      /\ status_of s' 1 = Some "due").
Proof.
  intros _. split.
  { intros Hret.
    destruct (call_each_run tw key toast ids s Hret s eq_refl eq_refl)
      as (evs & Hrun & Hevs).
    eexists. split; [exact Hrun|]. cbn [customers loans].
    split; [reflexivity|]. split; [reflexivity|]. split.
    - rewrite <- Hevs. apply logged_app. reflexivity.
    - intros Hne. unfold bulk_calls. rewrite Hrun.
      destruct ids; [contradiction | reflexivity]. }
  split.
  { intros i _ Hf. rewrite place_call_eq, select_loan_view_none by exact Hf.
    cbn [fst snd]. split; [reflexivity|].
    apply (logged_app s s []). rewrite app_nil_r. reflexivity. }
  split.
  { intros _ pre i post e -> Hret He.
    destruct (call_each_stops tw key toast pre i post s e Hret He s
                eq_refl eq_refl) as (evs & Hrun & Hevs & Hst).
    eexists. split; [exact Hrun|]. split.
    - unfold bulk_calls. rewrite Hrun.
      destruct pre; reflexivity.
    - split; [exact Hst|]. cbn [customers loans].
      split; [reflexivity|]. split; [reflexivity|].
      rewrite <- Hevs. apply logged_app. reflexivity. }
  vm_compute. repeat split.
Qed.

Lemma bulk_calls_in_order_witness :
  Forall (fun i => sqlite_int i = true) [1; 2; 3]
  /\ wf_db three_loans = true
  /\ select_overdue (PyDate.isoformat jan1) three_loans = [1; 2; 3]
  /\ (forall j, In j [1] ->
        exists r, snd (place_call picky j "reminder" three_loans) = Ret r)
  /\ snd (place_call picky 2 "reminder" three_loans) = Raise TwilioException
  /\ exists s',
       call_each picky "reminder" str_of_int [1; 2; 3] three_loans
       = (s', [Toast "1"], Raise TwilioException)
       /\ logged three_loans s'
          = [(1, "call_initiated", "to +911"); (1, "twilio_call", "CA1");
             (2, "call_initiated", "to +912")].
Proof.
  assert (Hin : Forall (fun i => sqlite_int i = true) [1; 2; 3])
    by (repeat constructor).
  assert (Hret : forall j, In j [1] ->
            exists r, snd (place_call picky j "reminder" three_loans) = Ret r).
  { intros j [<- | []]. eexists. reflexivity. }
  split; [exact Hin|]. split; [reflexivity|]. split; [reflexivity|].
  split; [exact Hret|]. split; [reflexivity|].
  destruct (bulk_calls_in_order picky "reminder" str_of_int EmptyString
              (fun _ => EmptyString) [1; 2; 3] three_loans Hin)
    as (_ & _ & Hstop & _).
  destruct (Hstop eq_refl [1] 2 [3] TwilioException eq_refl Hret eq_refl)
    as (s' & Hcall & _ & _ & _ & _ & Hlog).
  exists s'. split; [exact Hcall|]. rewrite Hlog. reflexivity.
Defined.

(** C2 as stated fails: with a live channel whose provider refuses the
    call, the failure of the first overdue loan ends the batch.  The
    second loan is never called, and the button produces no report. *)
Lemma bulk_stops_at_refused_call :
  select_overdue (PyDate.isoformat jan1) two_loans = [1; 2]
  /\ (let '(s', shown, r) := call_overdue_customers refusing jan1 two_loans in
      r = Raise TwilioException
      /\ shown = []
      /\ logged two_loans s' = [(1, "call_initiated", "to +911")]).
Proof. vm_compute. repeat split. Qed.

(** C3. In a store whose rows are in rowid order and whose due dates are
    ISO dates, the overdue query for the date [today] returns the id of a
    loan exactly when its status is [due] and its due date is on or
    before [today]; every id returned is the id of a loan, no loan with
    another status ([paid], [rescheduled]) is returned, and the ids come
    in ascending order. *)
Theorem select_overdue_spec (s : db) (today : PyDate.date) :
  wf_db s = true ->
  PyDate.check_date_fields today = true ->
  let r := select_overdue (PyDate.isoformat today) s in
  (forall l, In l (loans s) ->
     (In (Loan.id l) r <->
      Loan.status l = "due"
      /\ exists d, PyDate.fromisoformat (Loan.due_date l) = Ret d
                   /\ PyDate.leb d today = true))
  /\ (forall i, In i r -> exists l, In l (loans s) /\ Loan.id l = i)
  /\ (forall l, In l (loans s) -> In (Loan.id l) r ->
        Loan.status l <> "paid" /\ Loan.status l <> "rescheduled")
  /\ StronglySorted Z.lt r.
Proof.
  intros Hwf Ht. destruct (wf_db_parts s Hwf) as [Hasc Hiso].
  cbv zeta. unfold select_overdue.
  assert (Hrow : forall l, In l (loans s) ->
            (In (Loan.id l)
                (map Loan.id
                   (filter (fun l => String.leb (Loan.due_date l)
                                                (PyDate.isoformat today)
                                     && String.eqb (Loan.status l) "due")
                           (loans s))) <->
             Loan.status l = "due"
             /\ exists d, PyDate.fromisoformat (Loan.due_date l) = Ret d
                          /\ PyDate.leb d today = true)).
  { intros l Hl. rewrite select_rows by assumption.
    rewrite andb_true_iff, String.eqb_eq.
    destruct (Hiso l Hl) as [d Hd].
    destruct (PyDateFacts.fromisoformat_inv _ _ Hd) as [Hc E].
    rewrite E at 1. rewrite PyDateFacts.isoformat_leb by assumption.
    split.
    - intros [Hle Hst]. split; [exact Hst | eauto].
    - intros [Hst (d' & Hd' & Hle)]. rewrite Hd in Hd'.
      injection Hd' as <-. tauto. }
  split; [exact Hrow|]. split.
  { intros i Hi. exact (select_ids _ s i Hi). }
  split.
  { intros l Hl Hin. apply Hrow in Hin; [| exact Hl].
    destruct Hin as [-> _]. split; discriminate. }
  apply sorted_filter_ids. apply ascending_sorted. exact Hasc.
Qed.

Lemma select_overdue_spec_witness :
  wf_db two_loans = true
  /\ PyDate.check_date_fields jan1 = true
  /\ StronglySorted Z.lt (select_overdue (PyDate.isoformat jan1) two_loans)
  /\ select_overdue (PyDate.isoformat jan1) two_loans = [1; 2].
Proof.
  split; [reflexivity|]. split; [reflexivity|]. split; [| reflexivity].
  exact (proj2 (proj2 (proj2 (select_overdue_spec two_loans jan1
                                eq_refl eq_refl)))).
Defined.

(** C4. The pre-due button asks for the date [target], three days after
    [today], and the pre-due query for [target] returns the id of a loan
    exactly when its status is [due] and its due date is [target]
    itself: the match is on the exact date, so a loan due before or after
    [target] is not returned. *)
Theorem select_pre_due_exact (tw : twilio) (s : db) (today target : PyDate.date) :
  wf_db s = true ->
  PyDate.add_days today 3 = Ret target ->
  let r := select_pre_due (PyDate.isoformat target) s in
  PyDate.toordinal target = PyDate.toordinal today + 3
  /\ call_pre_due_customers tw today s
     = bulk_calls tw "pre_due_reminder"
         (fun i => "Called loan " ++ str_of_int i ++ " (pre-due reminder)")%string
         "No customers with EMIs due in 3 days."
         (fun n => "Finished calling all " ++ str_of_int (Z.of_nat n)
                   ++ " pre-due customers.")%string
         r s
  /\ (forall l, In l (loans s) ->
        (In (Loan.id l) r <->
         Loan.status l = "due"
         /\ PyDate.fromisoformat (Loan.due_date l) = Ret target))
  /\ (forall i, In i r -> exists l, In l (loans s) /\ Loan.id l = i)
  /\ (forall l d, In l (loans s) ->
        PyDate.fromisoformat (Loan.due_date l) = Ret d ->
        PyDate.toordinal d <> PyDate.toordinal target ->
        ~ In (Loan.id l) r).
Proof.
  intros Hwf Hadd. destruct (wf_db_parts s Hwf) as [Hasc Hiso].
  destruct (PyDateFacts.add_days_spec _ _ _ Hadd) as [Hc Hord].
  cbv zeta. unfold select_pre_due.
  assert (Hrow : forall l, In l (loans s) ->
            (In (Loan.id l)
                (map Loan.id
                   (filter (fun l => String.eqb (Loan.due_date l)
                                                (PyDate.isoformat target)
                                     && String.eqb (Loan.status l) "due")
                           (loans s))) <->
             Loan.status l = "due"
             /\ PyDate.fromisoformat (Loan.due_date l) = Ret target)).
  { intros l Hl. rewrite select_rows by assumption.
    rewrite andb_true_iff, !String.eqb_eq. split.
    - intros [E Hst]. split; [exact Hst|]. rewrite E.
      apply PyDateFacts.fromisoformat_isoformat. exact Hc.
    - intros [Hst Hd]. split; [| exact Hst].
      apply PyDateFacts.fromisoformat_inv in Hd. tauto. }
  split; [exact Hord|]. split.
  { unfold call_pre_due_customers, select_pre_due. rewrite Hadd. reflexivity. }
  split; [exact Hrow|]. split.
  { intros i Hi. exact (select_ids _ s i Hi). }
  intros l d Hl Hd Hne Hin. apply Hrow in Hin; [| exact Hl].
  destruct Hin as [_ Hd']. rewrite Hd in Hd'. injection Hd' as ->.
  apply Hne. reflexivity.
Qed.

Lemma select_pre_due_exact_witness :
  wf_db later_loan = true
  /\ PyDate.add_days jan1 3 = Ret jan4
  /\ select_pre_due (PyDate.isoformat jan4) later_loan = [2]
  /\ PyDate.toordinal jan4 = PyDate.toordinal jan1 + 3.
Proof.
  split; [reflexivity|]. split; [reflexivity|]. split; [reflexivity|].
  exact (proj1 (select_pre_due_exact mock later_loan jan1 jan4
                  eq_refl eq_refl)).
Defined.

(** C5. [reschedule_loan(loan_id, days_to_add)], [days_to_add] being 7
    unless given, for a loan id SQLite can bind (a signed 64-bit integer;
    for any other [cur.execute] raises [OverflowError]).  For an id that
    has no row it returns the "Loan not found" result and changes
    nothing.  For an existing loan whose due date is [d], when [d] plus
    [days_to_add] days is the date [d'], it returns the new date, sets
    the loan's due date to [d'] (which is [days_to_add] days after [d]
    and reads back as [d']) and its status to [rescheduled], leaves the
    other loans and the customers alone, and appends one [rescheduled]
    event whose detail is the new date.  A loan due 2025-01-01 becomes
    due 2025-01-08, and 2025-01-15 when rescheduled again. *)
Theorem reschedule_loan_spec (s : db) (i n : Z) :
  sqlite_int i = true ->
  (find_loan s i = None ->
   reschedule_loan i n s = (s, Ret [("error", "Loan not found")]))
  /\ (forall l d d',
        find_loan s i = Some l ->
        PyDate.fromisoformat (Loan.due_date l) = Ret d ->
        PyDate.add_days d n = Ret d' ->
        let s' := fst (reschedule_loan i n s) in
        snd (reschedule_loan i n s)
        = Ret [("status", "rescheduled"); ("new_date", PyDate.isoformat d')]
        /\ PyDate.toordinal d' = PyDate.toordinal d + n
        /\ find_loan s' i
           = Some (Loan.mk i (Loan.customer_id l) (Loan.emi_amount l)
                           (PyDate.isoformat d') "rescheduled")
        /\ PyDate.fromisoformat (PyDate.isoformat d') = Ret d'
        /\ (forall j, j <> i -> find_loan s' j = find_loan s j)
        /\ customers s' = customers s
        /\ call_logs s'
           = call_logs s
             ++ [CallLog.mk (next_id (map CallLog.id (call_logs s))) i
                   "rescheduled" ("New due date: " ++ PyDate.isoformat d')])
  /\ days_to_add_default = 7
  /\ (let s1 := fst (reschedule_loan 1 days_to_add_default one_loan) in
      let s2 := fst (reschedule_loan 1 days_to_add_default s1) in
      find_loan one_loan 1 = Some (Loan.mk 1 1 4000 "2025-01-01" "due")
      /\ find_loan s1 1 = Some (Loan.mk 1 1 4000 "2025-01-08" "rescheduled")
      /\ find_loan s2 1 = Some (Loan.mk 1 1 4000 "2025-01-15" "rescheduled")).
Proof.
  intros _. split.
  { intros Hf. rewrite reschedule_loan_eq, select_due_date_find_loan, Hf.
    reflexivity. }
  split.
  { intros l d d' Hf Hd Ha. cbv zeta.
    rewrite (reschedule_loan_store s i n l d d' Hf Hd Ha).
    cbn [fst snd customers call_logs].
    destruct (PyDateFacts.add_days_spec _ _ _ Ha) as [Hc Hord].
    split; [reflexivity|]. split; [exact Hord|]. split.
    { rewrite (find_loan_map (set_rescheduled (PyDate.isoformat d') i))
        by apply set_rescheduled_id.
      rewrite Hf. cbn [option_map]. apply find_loan_some in Hf.
      destruct Hf as [_ Hi]. unfold set_rescheduled.
      rewrite (proj2 (Z.eqb_eq _ _) Hi), Hi. reflexivity. }
    split; [apply PyDateFacts.fromisoformat_isoformat; exact Hc|].
    split; [| split; reflexivity].
    intros j Hj.
    rewrite (find_loan_map (set_rescheduled (PyDate.isoformat d') i))
      by apply set_rescheduled_id.
    destruct (find_loan s j) as [l' |] eqn:E; [| reflexivity].
    apply find_loan_some in E. destruct E as [_ E].
    cbn [option_map]. unfold set_rescheduled.
    destruct (Z.eqb_spec (Loan.id l') i); [lia | reflexivity]. }
  split; [reflexivity|].
  vm_compute. repeat split.
Qed.

Lemma reschedule_loan_spec_witness :
  sqlite_int 7 = true
  /\ sqlite_int 1 = true
  /\ find_loan one_loan 7 = None
  /\ reschedule_loan 7 7 one_loan = (one_loan, Ret [("error", "Loan not found")])
  /\ find_loan one_loan 1 = Some (Loan.mk 1 1 4000 "2025-01-01" "due")
  /\ PyDate.fromisoformat "2025-01-01" = Ret jan1
  /\ PyDate.add_days jan1 7 = Ret (PyDate.mkdate 2025 1 8)
  /\ find_loan (fst (reschedule_loan 1 7 one_loan)) 1
     = Some (Loan.mk 1 1 4000 "2025-01-08" "rescheduled").
Proof.
  destruct (reschedule_loan_spec one_loan 7 7 eq_refl) as (Hnone & _).
  destruct (reschedule_loan_spec one_loan 1 7 eq_refl) as (_ & Hsome & _).
  split; [reflexivity|]. split; [reflexivity|].
  split; [reflexivity|]. split; [exact (Hnone eq_refl)|].
  split; [reflexivity|]. split; [reflexivity|]. split; [reflexivity|].
  exact (proj1 (proj2 (proj2
           (Hsome (Loan.mk 1 1 4000 "2025-01-01" "due") jan1
                  (PyDate.mkdate 2025 1 8) eq_refl eq_refl eq_refl)))).
Defined.

(** C6. [mark_paid] twice on the same loan id, an id SQLite can bind
    (every id of a loan row is one): both calls return
    [{"status": "ok"}], the second leaves every loan and customer row as
    the first left it, the loan (when there is one) has status [paid],
    other loans keep their status, and the event log has grown by exactly
    two [marked_paid] events for that id. *)
Theorem mark_paid_twice (s : db) (i : Z) :
  sqlite_int i = true ->
  let s1 := fst (mark_paid i s) in
  let s2 := fst (mark_paid i s1) in
  snd (mark_paid i s) = Ret [("status", "ok")]
  /\ snd (mark_paid i s1) = Ret [("status", "ok")]
  /\ loans s2 = loans s1
  /\ customers s2 = customers s1
  /\ status_of s2 i = option_map (fun _ => "paid") (status_of s i)
  /\ (forall j, j <> i -> status_of s2 j = status_of s j)
  /\ exists e1 e2,
       call_logs s2 = call_logs s ++ [e1; e2]
       /\ log_entry e1 = (i, "marked_paid", "Webhook/Manual")
       /\ log_entry e2 = (i, "marked_paid", "Webhook/Manual").
Proof.
  intros _. cbv zeta. rewrite !mark_paid_store. cbn [loans customers call_logs].
  rewrite map_map.
  rewrite (map_ext _ _ (set_paid_twice i)).
  repeat split.
  - rewrite !status_of_find_loan.
    rewrite (find_loan_map (set_paid i)) by apply set_paid_id.
    destruct (find_loan s i) as [l |] eqn:E; [| reflexivity].
    apply find_loan_some in E. destruct E as [_ E].
    cbn [option_map]. unfold set_paid.
    apply Z.eqb_eq in E. rewrite E. reflexivity.
  - intros j Hj. rewrite !status_of_find_loan.
    rewrite (find_loan_map (set_paid i)) by apply set_paid_id.
    destruct (find_loan s j) as [l |] eqn:E; [| reflexivity].
    apply find_loan_some in E. destruct E as [_ E].
    cbn [option_map]. unfold set_paid.
    destruct (Z.eqb_spec (Loan.id l) i); [lia | reflexivity].
  - do 2 eexists. rewrite <- app_assoc. cbn [app].
    repeat split.
Qed.

Lemma mark_paid_twice_witness :
  sqlite_int 1 = true
  /\ status_of one_loan 1 = Some "due"
  /\ snd (mark_paid 1 (fst (mark_paid 1 one_loan))) = Ret [("status", "ok")]
  /\ status_of (fst (mark_paid 1 (fst (mark_paid 1 one_loan)))) 1
     = Some "paid"
  /\ map log_entry (call_logs (fst (mark_paid 1 (fst (mark_paid 1 one_loan)))))
     = [(1, "marked_paid", "Webhook/Manual");
        (1, "marked_paid", "Webhook/Manual")].
Proof.
  destruct (mark_paid_twice one_loan 1 eq_refl)
    as (_ & R2 & _ & _ & Hst & _ & e1 & e2 & Hlog & H1 & H2).
  split; [reflexivity|]. split; [reflexivity|]. split; [exact R2|].
  split; [exact Hst|].
  rewrite Hlog. change (call_logs one_loan) with (@nil CallLog.t).
  cbn [app map]. rewrite H1, H2. reflexivity.
Defined.

(** C7. For every loan id SQLite can bind (a signed 64-bit integer) that
    is not in the store, [place_call] returns its "Loan not found" result
    and leaves the whole store (customers, loans and the event log) as it
    was: no event is appended and nothing else is done, whatever the
    channel.  (For an id outside that range the [SELECT] cannot be run:
    [cur.execute] raises [OverflowError].) *)
Theorem place_call_missing_loan (tw : twilio) (s : db) (i : Z) (key : string) :
  sqlite_int i = true ->
  find_loan s i = None ->
  place_call tw i key s = (s, Ret [("error", "Loan not found")]).
Proof.
  intros _ H. rewrite place_call_eq, select_loan_view_none by exact H.
  reflexivity.
Qed.

Lemma place_call_missing_loan_witness :
  sqlite_int 7 = true
  /\ find_loan one_loan 7 = None
  /\ place_call refusing 7 "reminder" one_loan
     = (one_loan, Ret [("error", "Loan not found")]).
Proof.
  split; [reflexivity|].
  split; [reflexivity | apply place_call_missing_loan; reflexivity].
Defined.

(** C8. [place_call] and [send_payment_link] leave the [customers] and
    [loans] tables exactly as they were, for every loan id, key, store and
    channel, so no status and no other field changes; all they do to the
    store is append rows to [call_logs]. *)
Theorem dispatch_only_appends_events (tw : twilio) (s : db) (i : Z) (key : string) :
  (customers (fst (place_call tw i key s)) = customers s
   /\ loans (fst (place_call tw i key s)) = loans s
   /\ (forall j, status_of (fst (place_call tw i key s)) j = status_of s j)
   /\ exists evs, call_logs (fst (place_call tw i key s)) = call_logs s ++ evs)
  /\ (customers (fst (send_payment_link tw i s)) = customers s
      /\ loans (fst (send_payment_link tw i s)) = loans s
      /\ (forall j, status_of (fst (send_payment_link tw i s)) j = status_of s j)
      /\ exists evs,
           call_logs (fst (send_payment_link tw i s)) = call_logs s ++ evs).
Proof.
  destruct (place_call_frame tw i key s) as [evs ->].
  destruct (send_payment_link_frame tw i s) as [evs' ->].
  cbn [customers loans call_logs]. unfold status_of. cbn [loans].
  repeat split; eauto.
Qed.

(** C9. When the customer's language code has no entry in [LANG_MSGS],
    [get_msg] uses the messages of ["en"], for every key and without any
    trace; for the two reminder keys [place_call] uses, the text rendered
    from the English template is not empty and contains the customer's
    name and the loan amount, and it is the text the mock call logs and
    returns, and the text a live call hands to the provider. *)
Theorem place_call_unmapped_language
        (tw : twilio) (s : db) (i : Z) (key : string)
        (l : Loan.t) (c : Customer.t) (rest : list (Loan.t * Customer.t))
        (d : PyDate.date) :
  select_loan_view i s = (l, c) :: rest ->
  PyDate.fromisoformat (Loan.due_date l) = Ret d ->
  dict_get LANG_MSGS (Customer.language c) = None ->
  key = "reminder" \/ key = "pre_due_reminder" ->
  (forall k kwargs,
     get_msg (Customer.language c) k kwargs = get_msg "en" k kwargs)
  /\ exists en template text,
       dict_get LANG_MSGS "en" = Some en
       /\ dict_get en key = Some template
       /\ format template (call_kwargs l c (PyDate.strftime_B_d_Y d)) = Ret text
       /\ get_msg (Customer.language c) key
                  (call_kwargs l c (PyDate.strftime_B_d_Y d)) = Ret text
       /\ text <> EmptyString
       /\ contains text (Customer.name c)
       /\ contains text (str_of_int (Loan.emi_amount l))
       /\ (USE_TWILIO tw = false ->
           snd (place_call tw i key s)
           = Ret [("status", "mock_call_logged"); ("text", text)]
           /\ logged s (fst (place_call tw i key s))
              = [(i, "call_initiated", ("to " ++ Customer.phone c)%string);
                 (i, "mock_call", text)])
       /\ (USE_TWILIO tw = true ->
           snd (place_call tw i key s)
           = match calls_create tw (Customer.phone c) (TWILIO_NUMBER tw)
                                (twiml_of text) with
             | Ret sid => Ret [("status", "twilio_call_placed"); ("sid", sid)]
             | Raise e => Raise e
             end).
Proof.
  intros Hv Hd Hnone Hkey.
  split; [intros k kwargs; apply get_msg_unmapped; exact Hnone|].
  assert (Hen : exists en, dict_get LANG_MSGS "en" = Some en
                           /\ get_msg "en" = fun k kw =>
                                match dict_item en k with
                                | Raise e => Raise e
                                | Ret t => format t kw
                                end)
    by (eexists; split; reflexivity).
  destruct Hen as (en & Hen & Hget).
  set (kw := call_kwargs l c (PyDate.strftime_B_d_Y d)).
  assert (Htext : exists text,
             get_msg "en" key kw = Ret text
             /\ text <> EmptyString
             /\ contains text (Customer.name c)
             /\ contains text (str_of_int (Loan.emi_amount l))).
  { unfold kw, call_kwargs. destruct Hkey as [-> | ->].
    - rewrite en_reminder. eexists. split; [reflexivity|].
      split; [discriminate|]. split.
      + exists "Hello ". eexists. reflexivity.
      + exists ("Hello " ++ Customer.name c
                ++ ". This is a reminder from TVS Credit. Your EMI of Rs ")%string.
        eexists. rewrite !string_app_assoc. reflexivity.
    - rewrite en_pre_due_reminder. eexists. split; [reflexivity|].
      split; [discriminate|]. split.
      + exists "Hello ". eexists. reflexivity.
      + exists ("Hello " ++ Customer.name c
                ++ ". A friendly reminder from TVS Credit. Your EMI of Rs ")%string.
        eexists. rewrite !string_app_assoc. reflexivity. }
  destruct Htext as (text & Ht & Hne & Hname & Hamount).
  assert (Hmsg : get_msg (Customer.language c) key kw = Ret text)
    by (rewrite get_msg_unmapped; assumption).
  rewrite Hget in Ht. unfold dict_item in Ht.
  destruct (dict_get en key) as [template |] eqn:Htpl; [| discriminate].
  exists en, template, text.
  repeat (split; [assumption|]).
  split; intros Hu.
  - exact (place_call_mock tw s i key l c rest d text Hv Hd Hmsg Hu).
  - exact (place_call_live tw s i key l c rest d text Hv Hd Hmsg Hu).
Qed.

Lemma place_call_unmapped_language_witness :
  select_loan_view 1 xx_loan
  = [(Loan.mk 1 1 4000 "2025-01-01" "due", Customer.mk 1 "Asha" "+913" "xx")]
  /\ PyDate.fromisoformat "2025-01-01" = Ret jan1
  /\ dict_get LANG_MSGS "xx" = None
  /\ exists text,
       snd (place_call mock 1 "reminder" xx_loan)
       = Ret [("status", "mock_call_logged"); ("text", text)]
       /\ text <> EmptyString
       /\ contains text "Asha"
       /\ contains text (str_of_int 4000).
Proof.
  split; [reflexivity|]. split; [reflexivity|]. split; [reflexivity|].
  destruct (place_call_unmapped_language mock xx_loan 1 "reminder"
              (Loan.mk 1 1 4000 "2025-01-01" "due")
              (Customer.mk 1 "Asha" "+913" "xx") [] jan1
              eq_refl eq_refl eq_refl (or_introl eq_refl))
    as (_ & en & template & text & _ & _ & _ & _ & Hne & Hn & Ha & Hmock & _).
  exists text. destruct (Hmock eq_refl) as [Hr _].
  split; [exact Hr|]. split; [exact Hne|]. split; [exact Hn | exact Ha].
Defined.

(** C10. [mark_paid] checks nothing: for every loan id SQLite can bind
    (a signed 64-bit integer), with a loan row or without, it returns
    [{"status": "ok"}] and appends one [marked_paid] event carrying that
    id; when no loan row has the id, the tables of loans and customers
    stay as they were, so the new event refers to no loan.  (For an id
    outside that range the [UPDATE] cannot be run: [cur.execute] raises
    [OverflowError].) *)
Theorem mark_paid_any_id (s : db) (i : Z) :
  sqlite_int i = true ->
  snd (mark_paid i s) = Ret [("status", "ok")]
  /\ call_logs (fst (mark_paid i s))
     = call_logs s
       ++ [CallLog.mk (next_id (map CallLog.id (call_logs s))) i
                      "marked_paid" "Webhook/Manual"]
  /\ (find_loan s i = None ->
      loans (fst (mark_paid i s)) = loans s
      /\ customers (fst (mark_paid i s)) = customers s
      /\ find_loan (fst (mark_paid i s)) i = None).
Proof.
  intros _. rewrite mark_paid_store. cbn [call_logs loans customers].
  split; [reflexivity|]. split; [reflexivity|].
  intros Hf. split; [| split; [reflexivity|]].
  - apply map_update_other. apply find_loan_none. exact Hf.
  - rewrite (find_loan_map (set_paid i)) by apply set_paid_id.
    rewrite Hf. reflexivity.
Qed.

Lemma mark_paid_any_id_witness :
  sqlite_int 7 = true
  /\ find_loan one_loan 7 = None
  /\ snd (mark_paid 7 one_loan) = Ret [("status", "ok")]
  /\ call_logs (fst (mark_paid 7 one_loan))
     = [CallLog.mk 1 7 "marked_paid" "Webhook/Manual"]
  /\ loans (fst (mark_paid 7 one_loan)) = loans one_loan.
Proof.
  destruct (mark_paid_any_id one_loan 7 eq_refl) as (R & L & N).
  destruct (N eq_refl) as (Hl & _ & _).
  split; [reflexivity|].
  split; [reflexivity|]. split; [exact R|]. split; [exact L | exact Hl].
Defined.

(* ------------------------------------------------------------------ *)
(** * Further properties of the dispatch functions *)

Lemma in_select_loan_view (s : db) (i : Z) (l : Loan.t) (c : Customer.t) :
  In (l, c) (select_loan_view i s) <->
  In l (loans s) /\ In c (customers s)
  /\ Loan.customer_id l = Customer.id c /\ Loan.id l = i.
Proof.
  unfold select_loan_view, joined.
  rewrite filter_In, in_flat_map. cbn [fst]. rewrite Z.eqb_eq. split.
  - intros [(l' & Hl' & Hin) Hi]. apply in_map_iff in Hin.
    destruct Hin as (c' & [= <- <-] & Hc). apply filter_In in Hc.
    rewrite Z.eqb_eq in Hc. tauto.
  - intros (Hl & Hc & Hlc & Hi). split; [| exact Hi].
    exists l. split; [exact Hl|]. apply in_map. apply filter_In.
    rewrite Z.eqb_eq. tauto.
Qed.

Lemma select_loan_view_nil_iff (s : db) (i : Z) :
  select_loan_view i s = [] <->
  forall l c, In l (loans s) -> In c (customers s) -> Loan.id l = i ->
              Loan.customer_id l <> Customer.id c.
Proof.
  split.
  - intros E l c Hl Hc Hi Hlc.
    assert (Hin : In (l, c) (select_loan_view i s))
      by (apply in_select_loan_view; tauto).
    rewrite E in Hin. exact Hin.
  - intros H. destruct (select_loan_view i s) as [| [l c] rest] eqn:E;
      [reflexivity|].
    assert (Hin : In (l, c) (select_loan_view i s))
      by (rewrite E; left; reflexivity).
    apply in_select_loan_view in Hin.
    destruct Hin as (Hl & Hc & Hlc & Hi). exfalso. exact (H l c Hl Hc Hi Hlc).
Qed.

Lemma logged_refl (s : db) : logged s s = [].
Proof. apply (logged_app s s []). rewrite app_nil_r. reflexivity. Qed.

(** X1. For a loan id SQLite can bind, both dispatch functions answer
    "Loan not found" exactly when no loan row of that id is joined to a
    customer row, that is when the loan is missing or its customer is;
    the store is then left as it was.  (An id outside the 64-bit
    integers cannot be bound: [cur.execute] raises [OverflowError].) *)
Theorem not_found_iff_no_joined_row (tw : twilio) (s : db) (i : Z) (key : string) :
  sqlite_int i = true ->
  let no_row :=
    forall l c, In l (loans s) -> In c (customers s) -> Loan.id l = i ->
                Loan.customer_id l <> Customer.id c in
  (snd (place_call tw i key s) = Ret [("error", "Loan not found")] <-> no_row)
  /\ (snd (send_payment_link tw i s) = Ret [("error", "Loan not found")]
      <-> no_row)
  /\ (snd (place_call tw i key s) = Ret [("error", "Loan not found")] ->
      fst (place_call tw i key s) = s)
  /\ (snd (send_payment_link tw i s) = Ret [("error", "Loan not found")] ->
      fst (send_payment_link tw i s) = s).
Proof.
  intros _. cbv zeta. rewrite <- select_loan_view_nil_iff.
  rewrite place_call_eq, send_payment_link_eq.
  destruct (select_loan_view i s) as [| [l c] rest].
  - repeat split; auto.
  - destruct (PyDate.fromisoformat (Loan.due_date l)) as [d |];
      [destruct (get_msg _ _ _) as [text |]|]; cbv zeta;
      destruct (USE_TWILIO tw);
      try destruct (calls_create _ _ _ _);
      try destruct (messages_create _ _ _ _);
      cbn [fst snd]; repeat split; intros; try discriminate; auto.
Qed.

Lemma not_found_iff_no_joined_row_witness :
  sqlite_int 7 = true
  /\ snd (send_payment_link refusing 7 one_loan)
     = Ret [("error", "Loan not found")]
  /\ forall l c, In l (loans one_loan) -> In c (customers one_loan) ->
                 Loan.id l = 7 -> Loan.customer_id l <> Customer.id c.
Proof.
  split; [reflexivity|]. split; [reflexivity|].
  exact (proj1 (proj1 (proj2 (not_found_iff_no_joined_row refusing one_loan 7
                                "reminder" eq_refl)))
               eq_refl).
Defined.

Ltac solve_logged :=
  erewrite logged_app by (cbn; rewrite <- ?app_assoc; reflexivity);
  reflexivity.

(** X2. [send_payment_link] is all or nothing, for a loan id SQLite can
    bind.  Either it reports [payment_link_sent] with the link for that
    loan id and amount, and the log has grown by exactly one
    [payment_link_sent] event for the loan (the synthetic descriptor with
    the mock channel, ["tw_sms:"] and the message sid with a live one);
    or it returns "Loan not found" or, with a live channel, raises what
    the provider raised, and the store is as it was. *)
Theorem send_payment_link_all_or_nothing (tw : twilio) (s : db) (i : Z) :
  sqlite_int i = true ->
  (exists l c detail,
     In (l, c) (select_loan_view i s)
     /\ snd (send_payment_link tw i s)
        = Ret [("status", "payment_link_sent");
               ("link", payment_link_of i (Loan.emi_amount l))]
     /\ logged s (fst (send_payment_link tw i s))
        = [(i, "payment_link_sent", detail)]
     /\ (if USE_TWILIO tw
         then exists body sid,
                messages_create tw body (TWILIO_NUMBER tw) (Customer.phone c)
                = Ret sid
                /\ detail = ("tw_sms:" ++ sid)%string
         else detail
              = ("mock_sms_sent_to_" ++ Customer.phone c ++ "::"
                 ++ payment_link_of i (Loan.emi_amount l))%string))
  \/ (fst (send_payment_link tw i s) = s
      /\ (snd (send_payment_link tw i s) = Ret [("error", "Loan not found")]
          \/ (USE_TWILIO tw = true
              /\ exists e, snd (send_payment_link tw i s) = Raise e))).
Proof.
  intros _. rewrite send_payment_link_eq.
  destruct (select_loan_view i s) as [| [l c] rest] eqn:Hv;
    [right; split; [reflexivity | left; reflexivity]|].
  cbv zeta. destruct (USE_TWILIO tw) eqn:Hu.
  - destruct (messages_create _ _ _ _) as [sid | e] eqn:Hm.
    + left. exists l, c, ("tw_sms:" ++ sid)%string. cbn [fst snd].
      split; [left; reflexivity|]. split; [reflexivity|]. split.
      * solve_logged.
      * do 2 eexists. split; [exact Hm | reflexivity].
    + right. split; [reflexivity|]. right. split; [reflexivity|].
      eexists. reflexivity.
  - left. exists l, c. eexists. cbn [fst snd].
    split; [left; reflexivity|]. split; [reflexivity|]. split.
    + solve_logged.
    + reflexivity.
Qed.

Lemma send_payment_link_all_or_nothing_witness :
  sqlite_int 1 = true
  /\ snd (send_payment_link refusing 1 one_loan) = Raise TwilioException
  /\ fst (send_payment_link refusing 1 one_loan) = one_loan.
Proof.
  split; [reflexivity|]. split; [reflexivity|].
  destruct (send_payment_link_all_or_nothing refusing one_loan 1 eq_refl)
    as [(l & c & detail & _ & Hr & _) | [Hs _]].
  - discriminate Hr.
  - exact Hs.
Defined.

(** X3. What [place_call] leaves in the log, case by case, for a loan
    id SQLite can bind.  Without a joined row it answers "Loan not found"
    and the store is as it was.  For a loan whose due date is an ISO
    date: when the message cannot be rendered the call raises and the
    store is as it was; with the mock channel it returns the text and has
    logged exactly [call_initiated], with the customer's phone, and then
    [mock_call] with that text; with a live channel, when the provider
    takes the call it returns the sid and has logged [call_initiated] and
    then [twilio_call] with that sid, and when the provider refuses it
    raises what the provider raised and [call_initiated] stays in the log
    without an outcome event.  Customers and loans are never touched. *)
Theorem place_call_log_cases (tw : twilio) (s : db) (i : Z) (key : string) :
  sqlite_int i = true ->
  let s' := fst (place_call tw i key s) in
  let r := snd (place_call tw i key s) in
  (select_loan_view i s = [] ->
   r = Ret [("error", "Loan not found")] /\ s' = s)
  /\ (forall l c rest d,
        select_loan_view i s = (l, c) :: rest ->
        PyDate.fromisoformat (Loan.due_date l) = Ret d ->
        let initiated :=
          (i, "call_initiated", ("to " ++ Customer.phone c)%string) in
        (forall e,
           get_msg (Customer.language c) key
                   (call_kwargs l c (PyDate.strftime_B_d_Y d)) = Raise e ->
           r = Raise e /\ s' = s)
        /\ (forall text,
              get_msg (Customer.language c) key
                      (call_kwargs l c (PyDate.strftime_B_d_Y d)) = Ret text ->
              customers s' = customers s
              /\ loans s' = loans s
              /\ (USE_TWILIO tw = false ->
                  r = Ret [("status", "mock_call_logged"); ("text", text)]
                  /\ logged s s' = [initiated; (i, "mock_call", text)])
              /\ (USE_TWILIO tw = true ->
                  forall e,
                    calls_create tw (Customer.phone c) (TWILIO_NUMBER tw)
                                 (twiml_of text) = Raise e ->
                    r = Raise e /\ logged s s' = [initiated])
              /\ (USE_TWILIO tw = true ->
                  forall sid,
                    calls_create tw (Customer.phone c) (TWILIO_NUMBER tw)
                                 (twiml_of text) = Ret sid ->
                    r = Ret [("status", "twilio_call_placed"); ("sid", sid)]
                    /\ logged s s' = [initiated; (i, "twilio_call", sid)]))).
Proof.
  intros _. cbv zeta. rewrite place_call_eq. split.
  - intros ->. split; reflexivity.
  - intros l c rest d -> ->. split.
    + intros e ->. split; reflexivity.
    + intros text ->. cbv zeta.
      destruct (USE_TWILIO tw).
      * destruct (calls_create _ _ _ _) as [sid | e]; cbn [fst snd];
          (split; [reflexivity|]); (split; [reflexivity|]);
          (split; [discriminate|]); split; intros _ x Hx;
          try discriminate Hx; injection Hx as <-;
          (split; [reflexivity | solve_logged]).
      * cbn [fst snd]. split; [reflexivity|]. split; [reflexivity|].
        split; [| split; discriminate].
        intros _. split; [reflexivity | solve_logged].
Qed.

Lemma place_call_log_cases_witness :
  sqlite_int 2 = true
  /\ select_loan_view 2 two_loans
     = [(Loan.mk 2 2 2500 "2025-01-01" "due", Customer.mk 2 "B" "+912" "hi")]
  /\ PyDate.fromisoformat "2025-01-01" = Ret jan1
  /\ snd (place_call picky 2 "reminder" two_loans) = Raise TwilioException
  /\ logged two_loans (fst (place_call picky 2 "reminder" two_loans))
     = [(2, "call_initiated", "to +912")].
Proof.
  split; [reflexivity|]. split; [reflexivity|]. split; [reflexivity|].
  assert (Hg : exists text,
            get_msg "hi" "reminder"
                    (call_kwargs (Loan.mk 2 2 2500 "2025-01-01" "due")
                                 (Customer.mk 2 "B" "+912" "hi")
                                 (PyDate.strftime_B_d_Y jan1)) = Ret text)
    by (eexists; reflexivity).
  destruct Hg as [text Hg].
  destruct (place_call_log_cases picky two_loans 2 "reminder" eq_refl)
    as [_ Hrow].
  destruct (Hrow (Loan.mk 2 2 2500 "2025-01-01" "due")
                 (Customer.mk 2 "B" "+912" "hi") [] jan1 eq_refl eq_refl)
    as [_ Htext].
  destruct (Htext text Hg) as (_ & _ & _ & Hrefused & _).
  exact (Hrefused eq_refl TwilioException eq_refl).
Defined.

(** *** Rescheduling *)

Lemma fromisoformat_raises (text : string) (e : exn) :
  PyDate.fromisoformat text = Raise e -> e = ValueError.
Proof.
  unfold PyDate.fromisoformat.
  repeat match goal with
    | |- context [match ?x with _ => _ end] => destruct x
    end; congruence.
Qed.

Lemma add_days_raises (d : PyDate.date) (n : Z) (e : exn) :
  PyDate.add_days d n = Raise e -> e = OverflowError.
Proof.
  unfold PyDate.add_days.
  repeat match goal with
    | |- context [if ?x then _ else _] => destruct x
    end; congruence.
Qed.

(** X4. [reschedule_loan] writes only when it succeeds.  When it returns
    "Loan not found" or raises ([ValueError] from reading the stored date,
    [OverflowError] from the addition) the store is as it was; otherwise
    it returns the new date, the log has grown by exactly one
    [rescheduled] event naming that date, and the loan has status
    [rescheduled]. *)
Theorem reschedule_loan_all_or_nothing (s : db) (i n : Z) :
  let s' := fst (reschedule_loan i n s) in
  let r := snd (reschedule_loan i n s) in
  (s' = s
   /\ (r = Ret [("error", "Loan not found")]
       \/ r = Raise ValueError \/ r = Raise OverflowError))
  \/ (exists new_date,
        r = Ret [("status", "rescheduled"); ("new_date", new_date)]
        /\ logged s s' = [(i, "rescheduled", ("New due date: " ++ new_date)%string)]
        /\ customers s' = customers s
        /\ status_of s' i = Some "rescheduled"
        /\ option_map Loan.due_date (find_loan s' i) = Some new_date).
Proof.
  cbv zeta. rewrite reschedule_loan_eq, select_due_date_find_loan.
  destruct (find_loan s i) as [l |] eqn:Hf;
    [| left; split; [reflexivity | left; reflexivity]].
  destruct (PyDate.fromisoformat _) as [d | e] eqn:Hd.
  2:{ left. split; [reflexivity|]. right. left.
      rewrite (fromisoformat_raises _ _ Hd). reflexivity. }
  destruct (PyDate.add_days d n) as [d' | e] eqn:Ha.
  2:{ left. split; [reflexivity|]. right. right.
      rewrite (add_days_raises _ _ _ Ha). reflexivity. }
  right. exists (PyDate.isoformat d'). cbn [fst snd].
  split; [reflexivity|]. split; [solve_logged|].
  split; [reflexivity|].
  rewrite status_of_find_loan.
  unfold insert_call_log, update_rescheduled. cbn [fst customers loans call_logs].
  rewrite (find_loan_map (set_rescheduled (PyDate.isoformat d') i))
    by apply set_rescheduled_id.
  rewrite Hf. cbn [option_map]. apply find_loan_some in Hf.
  destruct Hf as [_ Hi]. unfold set_rescheduled.
  rewrite (proj2 (Z.eqb_eq _ _) Hi). split; reflexivity.
Qed.

Lemma set_rescheduled_twice (t1 t2 : string) (i : Z) (l : Loan.t) :
  set_rescheduled t2 i (set_rescheduled t1 i l) = set_rescheduled t2 i l.
Proof.
  unfold set_rescheduled. destruct (Loan.id l =? i) eqn:E; cbn [Loan.id];
    rewrite E; reflexivity.
Qed.

Lemma toordinal_bounds (d : PyDate.date) :
  PyDate.check_date_fields d = true ->
  1 <= PyDate.toordinal d <= PyDate.MAXORDINAL.
Proof.
  intros Hc. pose proof (PyDateFacts.check_date_fields_bounds d Hc) as (Hy & Hm & Hd).
  revert Hc. unfold PyDate.check_date_fields, PyDate.toordinal, PyDate.ymd2ord,
    PyDate.days_before_month, PyDate.days_in_month, PyDate.days_before_year,
    PyDate.MAXORDINAL, PyDate.MINYEAR, PyDate.MAXYEAR, PyDate.is_leap.
  destruct d as [y m dd]; cbn [PyDate.year PyDate.month PyDate.day] in *.
  rewrite !andb_true_iff, !Z.leb_le. intros (_ & Hdim). cbv zeta.
  assert (Hmc : m = 1 \/ m = 2 \/ m = 3 \/ m = 4 \/ m = 5 \/ m = 6 \/ m = 7
                \/ m = 8 \/ m = 9 \/ m = 10 \/ m = 11 \/ m = 12) by lia.
  repeat (destruct Hmc as [Hmc | Hmc]); subst m;
    cbn [PyDate.DAYS_IN_MONTH PyDate.DAYS_BEFORE_MONTH Z.eqb Z.ltb Z.compare
         Pos.compare Pos.compare_cont andb] in *;
    repeat match goal with
      | H : context [if ?b then _ else _] |- _ => destruct b eqn:?
      | |- context [if ?b then _ else _] => destruct b eqn:?
      end;
    rewrite ?andb_true_iff, ?andb_false_iff, ?orb_true_iff, ?orb_false_iff,
      ?negb_true_iff, ?negb_false_iff, ?Z.eqb_eq, ?Z.eqb_neq in *;
    Z.to_euclidean_division_equations; lia.
Qed.

Lemma add_days_add_days (d d1 d2 : PyDate.date) (n m : Z) :
  PyDate.add_days d n = Ret d1 -> PyDate.add_days d1 m = Ret d2 ->
  PyDate.check_date_fields d = true ->
  PyDate.add_days d (n + m) = Ret d2.
Proof.
  intros H1 H2 Hc.
  destruct (PyDateFacts.add_days_spec _ _ _ H1) as [Hc1 Ho1].
  revert H1 H2. unfold PyDate.add_days, PyDate.fromordinal.
  destruct ((-999999999 <=? n) && (n <=? 999999999)) eqn:Bn; [| discriminate].
  destruct ((0 <? PyDate.toordinal d + n)
            && (PyDate.toordinal d + n <=? PyDate.MAXORDINAL)) eqn:Rn;
    [| discriminate].
  intros _.
  destruct ((-999999999 <=? m) && (m <=? 999999999)) eqn:Bm; [| discriminate].
  destruct ((0 <? PyDate.toordinal d1 + m)
            && (PyDate.toordinal d1 + m <=? PyDate.MAXORDINAL)) eqn:Rm;
    [| discriminate].
  intros [= <-]. rewrite Ho1 in *.
  rewrite !andb_true_iff, ?Z.leb_le, ?Z.ltb_lt in *. unfold PyDate.MAXORDINAL in *.
  replace (PyDate.toordinal d + (n + m)) with (PyDate.toordinal d + n + m) by lia.
  destruct ((-999999999 <=? n + m) && (n + m <=? 999999999)) eqn:Bnm.
  - destruct ((0 <? PyDate.toordinal d + n + m)
              && (PyDate.toordinal d + n + m <=? 3652059)) eqn:Rnm;
      [reflexivity|].
    exfalso. rewrite andb_false_iff, Z.ltb_ge, Z.leb_gt in Rnm. lia.
  - exfalso. rewrite andb_false_iff, !Z.leb_gt in Bnm.
    pose proof (toordinal_bounds d Hc) as Hb. unfold PyDate.MAXORDINAL in Hb.
    lia.
Qed.

(** X5. Rescheduling twice is rescheduling once by the sum, as far as the
    tables of loans and customers go: after [n] days and then [m] days the
    loan's due date is the date [n + m] days after the one it had, the
    same as after one call with [n + m]; only the log differs, two
    [rescheduled] events instead of one. *)
Theorem reschedule_loan_twice (s : db) (i n m : Z) (l : Loan.t)
        (d d1 d2 : PyDate.date) :
  find_loan s i = Some l ->
  PyDate.fromisoformat (Loan.due_date l) = Ret d ->
  PyDate.add_days d n = Ret d1 ->
  PyDate.add_days d1 m = Ret d2 ->
  let s1 := fst (reschedule_loan i n s) in
  let s2 := fst (reschedule_loan i m s1) in
  let once := fst (reschedule_loan i (n + m) s) in
  PyDate.toordinal d2 = PyDate.toordinal d + n + m
  /\ snd (reschedule_loan i m s1)
     = Ret [("status", "rescheduled"); ("new_date", PyDate.isoformat d2)]
  /\ snd (reschedule_loan i (n + m) s)
     = Ret [("status", "rescheduled"); ("new_date", PyDate.isoformat d2)]
  /\ loans s2 = loans once
  /\ customers s2 = customers once
  /\ logged s s2
     = [(i, "rescheduled", ("New due date: " ++ PyDate.isoformat d1)%string);
        (i, "rescheduled", ("New due date: " ++ PyDate.isoformat d2)%string)]
  /\ logged s once
     = [(i, "rescheduled", ("New due date: " ++ PyDate.isoformat d2)%string)].
Proof.
  intros Hf Hd H1 H2. cbv zeta.
  destruct (PyDateFacts.fromisoformat_inv _ _ Hd) as [Hc _].
  destruct (PyDateFacts.add_days_spec _ _ _ H1) as [Hc1 Ho1].
  destruct (PyDateFacts.add_days_spec _ _ _ H2) as [Hc2 Ho2].
  pose proof (add_days_add_days d d1 d2 n m H1 H2 Hc) as H12.
  rewrite (reschedule_loan_store s i n l d d1 Hf Hd H1).
  rewrite (reschedule_loan_store s i (n + m) l d d2 Hf Hd H12).
  cbn [fst snd].
  set (l1 := set_rescheduled (PyDate.isoformat d1) i l).
  assert (Hf1 : find_loan
                  (mkdb (customers s)
                     (map (set_rescheduled (PyDate.isoformat d1) i) (loans s))
                     (call_logs s
                      ++ [CallLog.mk (next_id (map CallLog.id (call_logs s))) i
                            "rescheduled"
                            ("New due date: " ++ PyDate.isoformat d1)])) i
                = Some l1).
  { rewrite (find_loan_map (set_rescheduled (PyDate.isoformat d1) i))
      by apply set_rescheduled_id.
    rewrite Hf. reflexivity. }
  assert (Hd1 : PyDate.fromisoformat (Loan.due_date l1) = Ret d1).
  { unfold l1, set_rescheduled. apply find_loan_some in Hf.
    destruct Hf as [_ Hi]. rewrite (proj2 (Z.eqb_eq _ _) Hi).
    cbn [Loan.due_date]. apply PyDateFacts.fromisoformat_isoformat. exact Hc1. }
  rewrite (reschedule_loan_store _ i m l1 d1 d2 Hf1 Hd1 H2).
  cbn [fst snd customers loans call_logs].
  split; [lia|]. split; [reflexivity|]. split; [reflexivity|]. split.
  { rewrite map_map. apply map_ext. intros x. apply set_rescheduled_twice. }
  split; [reflexivity|]. split; solve_logged.
Qed.

Lemma reschedule_loan_twice_witness :
  find_loan one_loan 1 = Some (Loan.mk 1 1 4000 "2025-01-01" "due")
  /\ PyDate.fromisoformat "2025-01-01" = Ret jan1
  /\ PyDate.add_days jan1 7 = Ret (PyDate.mkdate 2025 1 8)
  /\ PyDate.add_days (PyDate.mkdate 2025 1 8) 30 = Ret (PyDate.mkdate 2025 2 7)
  /\ loans (fst (reschedule_loan 1 30 (fst (reschedule_loan 1 7 one_loan))))
     = loans (fst (reschedule_loan 1 (7 + 30) one_loan)).
Proof.
  split; [reflexivity|]. split; [reflexivity|]. split; [reflexivity|].
  split; [reflexivity|].
  exact (proj1 (proj2 (proj2 (proj2
           (reschedule_loan_twice one_loan 1 7 30
              (Loan.mk 1 1 4000 "2025-01-01" "due") jan1
              (PyDate.mkdate 2025 1 8) (PyDate.mkdate 2025 2 7)
              eq_refl eq_refl eq_refl eq_refl))))).
Defined.

(* ------------------------------------------------------------------ *)
(** * Every loan has its customer *)

Lemma linked_spec (s : db) :
  linked s = true <->
  forall l, In l (loans s) ->
    exists c, In c (customers s) /\ Loan.customer_id l = Customer.id c.
Proof.
  unfold linked. rewrite forallb_forall. split; intros H l Hl.
  - specialize (H l Hl). apply existsb_exists in H.
    destruct H as (c & Hc & E). apply Z.eqb_eq in E. eauto.
  - apply existsb_exists. destruct (H l Hl) as (c & Hc & E).
    exists c. rewrite Z.eqb_eq. tauto.
Qed.

Lemma linked_same (s s' : db) :
  customers s' = customers s -> loans s' = loans s -> linked s' = linked s.
Proof. unfold linked. intros -> ->. reflexivity. Qed.

Lemma linked_update (f : Loan.t -> Loan.t) (s : db) (logs : list CallLog.t) :
  (forall l, Loan.customer_id (f l) = Loan.customer_id l) ->
  linked s = true ->
  linked (mkdb (customers s) (map f (loans s)) logs) = true.
Proof.
  intros Hf. rewrite !linked_spec. cbn [customers loans].
  intros H l' Hl'. apply in_map_iff in Hl'. destruct Hl' as (l & <- & Hl).
  rewrite Hf. exact (H l Hl).
Qed.

Lemma linked_create_loan (cn cp cl : string) (e : Z) (d : PyDate.date) (s : db) :
  linked s = true -> linked (fst (create_loan cn cp cl e d s)) = true.
Proof.
  rewrite !linked_spec.
  unfold create_loan, bind, execute, insert_customer, insert_loan.
  cbn [fst customers loans call_logs]. intros H l Hl.
  apply in_app_or in Hl. destruct Hl as [Hl | [<- | []]].
  - destruct (H l Hl) as (c & Hc & E). exists c.
    split; [apply in_or_app; left; exact Hc | exact E].
  - eexists. split; [apply in_or_app; right; left; reflexivity | reflexivity].
Qed.

Lemma linked_run (tw : twilio) (a : action) (s : db) :
  linked s = true -> linked (run tw a s) = true.
Proof.
  intros H.
  destruct a as [j k | j | j | j n | cn cp cl e d | t | t]; cbn [run].
  - destruct (place_call_frame tw j k s) as [evs ->]. exact H.
  - destruct (send_payment_link_frame tw j s) as [evs ->]. exact H.
  - rewrite mark_paid_store. apply linked_update; [| exact H].
    intros l. unfold set_paid. destruct (Loan.id l =? j); reflexivity.
  - rewrite reschedule_loan_eq.
    destruct (select_due_date j s) as [| due rest]; [exact H|].
    destruct (PyDate.fromisoformat due) as [d0 |]; [| exact H].
    destruct (PyDate.add_days d0 n) as [d' |]; [| exact H].
    cbn [fst insert_call_log update_rescheduled customers loans call_logs].
    apply linked_update; [| exact H].
    intros l. unfold set_rescheduled. destruct (Loan.id l =? j); reflexivity.
  - apply linked_create_loan. exact H.
  - unfold call_overdue_customers.
    rewrite (linked_same s); [exact H | |]; apply bulk_calls_frame.
  - unfold call_pre_due_customers.
    destruct (PyDate.add_days t 3); [| exact H].
    rewrite (linked_same s); [exact H | |]; apply bulk_calls_frame.
Qed.

(** X6. Whatever the page does, in whatever order, the store stays
    consistent: starting from a store (the empty one, for instance) whose
    tables are in rowid order without repeated ids, whose due dates are
    ISO dates and whose loans all have a customer, every run of actions,
    returning or raising, ends in such a store. *)
Theorem run_all_keeps_store_consistent (tw : twilio) (acts : list action) (s : db) :
  Forall (fun a => action_ok a = true) acts ->
  wf_db s = true -> linked s = true ->
  wf_db (run_all tw acts s) = true /\ linked (run_all tw acts s) = true.
Proof.
  unfold run_all. intros Hok. revert s.
  induction Hok as [| a acts Ha _ IH]; intros s Hwf Hl; cbn [fold_left].
  - split; assumption.
  - apply IH; [apply wf_db_run | apply linked_run]; assumption.
Qed.

Lemma run_all_keeps_store_consistent_witness :
  Forall (fun a => action_ok a = true)
         [CreateLoan "A" "+911" "xx" 4000 jan1; CallOverdueCustomers jan1;
          RescheduleLoan 1 7; MarkPaid 1; RescheduleLoan 1 7; MarkPaid 9]
  /\ wf_db empty_db = true /\ linked empty_db = true
  /\ wf_db (run_all refusing
              [CreateLoan "A" "+911" "xx" 4000 jan1; CallOverdueCustomers jan1;
               RescheduleLoan 1 7; MarkPaid 1; RescheduleLoan 1 7; MarkPaid 9]
              empty_db) = true.
Proof.
  assert (Hok : Forall (fun a => action_ok a = true)
                  [CreateLoan "A" "+911" "xx" 4000 jan1;
                   CallOverdueCustomers jan1; RescheduleLoan 1 7; MarkPaid 1;
                   RescheduleLoan 1 7; MarkPaid 9])
    by (repeat constructor).
  split; [exact Hok|]. split; [reflexivity|]. split; [reflexivity|].
  exact (proj1 (run_all_keeps_store_consistent refusing _ empty_db Hok
                  eq_refl eq_refl)).
Defined.

Lemma filter_none {A : Type} (p : A -> bool) (rows : list A) :
  (forall x, In x rows -> p x = false) -> filter p rows = [].
Proof.
  induction rows as [| r rows IH]; intros H; [reflexivity|].
  cbn [filter]. rewrite (H r (or_introl eq_refl)).
  apply IH. intros x Hx. apply H. right. exact Hx.
Qed.

(** A rowid selects its row and nothing else. *)
Lemma filter_rowid {A : Type} (key : A -> Z) (rows : list A) (x : A) :
  StronglySorted Z.lt (map key rows) -> In x rows ->
  filter (fun y => key y =? key x) rows = [x].
Proof.
  induction rows as [| r rows IH]; cbn [map]; intros Hs Hx; [easy|].
  inversion Hs as [| ? ? Hs' Hall]; subst. rewrite Forall_forall in Hall.
  cbn [filter]. destruct Hx as [-> | Hx].
  - rewrite Z.eqb_refl. f_equal. apply filter_none. intros y Hy.
    apply Z.eqb_neq. specialize (Hall (key y) (in_map key _ _ Hy)). lia.
  - destruct (Z.eqb_spec (key r) (key x)) as [E | _].
    + specialize (Hall (key x) (in_map key _ _ Hx)). lia.
    + apply IH; assumption.
Qed.

Lemma select_loan_view_flat_map (s : db) (i : Z) :
  select_loan_view i s
  = flat_map (fun l =>
                map (fun c => (l, c))
                    (filter (fun c => Loan.customer_id l =? Customer.id c)
                            (customers s)))
             (filter (fun l => Loan.id l =? i) (loans s)).
Proof.
  unfold select_loan_view, joined.
  induction (loans s) as [| l rest IH]; [reflexivity|].
  cbn [flat_map filter]. rewrite filter_app, IH.
  destruct (Loan.id l =? i) eqn:E; cbn [flat_map].
  - f_equal.
    induction (filter _ (customers s)) as [| c cs IHc]; [reflexivity|].
    cbn [map filter fst]. rewrite E. f_equal. exact IHc.
  - rewrite filter_none; [reflexivity|].
    intros [l' c] Hin. apply in_map_iff in Hin.
    destruct Hin as (c' & [= <- <-] & _). exact E.
Qed.

Lemma wf_db_customers (s : db) :
  wf_db s = true -> ascending (map Customer.id (customers s)) = true.
Proof. unfold wf_db. rewrite !andb_true_iff. tauto. Qed.

Lemma select_loan_view_row (s : db) (l : Loan.t) :
  wf_db s = true -> linked s = true -> In l (loans s) ->
  exists c,
    In c (customers s) /\ Customer.id c = Loan.customer_id l
    /\ select_loan_view (Loan.id l) s = [(l, c)].
Proof.
  intros Hwf Hlk Hl.
  destruct (proj1 (linked_spec s) Hlk l Hl) as (c & Hc & E).
  exists c. split; [exact Hc|]. split; [symmetry; exact E|].
  rewrite select_loan_view_flat_map.
  rewrite (filter_rowid Loan.id (loans s) l)
    by (try apply ascending_sorted; try apply (wf_db_parts s Hwf); assumption).
  cbn [flat_map]. rewrite app_nil_r.
  rewrite (filter_ext _ (fun y => Customer.id y =? Customer.id c)
             (fun y => eq_trans (f_equal (fun k => k =? Customer.id y) E)
                                (Z.eqb_sym _ _))).
  rewrite (filter_rowid Customer.id (customers s) c)
    by (try apply ascending_sorted; try apply wf_db_customers; assumption).
  reflexivity.
Qed.

(** X7. In a consistent store the join never loses or repeats a loan:
    for every loan row the lookup by its id returns exactly one row, the
    loan with its own customer; so neither dispatch function answers
    "Loan not found" for a loan that is in the store. *)
Theorem every_loan_has_one_view (tw : twilio) (s : db) (l : Loan.t) (key : string) :
  wf_db s = true -> linked s = true -> In l (loans s) ->
  (exists c,
     In c (customers s) /\ Customer.id c = Loan.customer_id l
     /\ select_loan_view (Loan.id l) s = [(l, c)])
  /\ find_loan s (Loan.id l) = Some l
  /\ snd (place_call tw (Loan.id l) key s) <> Ret [("error", "Loan not found")]
  /\ snd (send_payment_link tw (Loan.id l) s)
     <> Ret [("error", "Loan not found")].
Proof.
  intros Hwf Hlk Hl.
  destruct (select_loan_view_row s l Hwf Hlk Hl) as (c & Hc & E & Hv).
  split; [eauto|]. split.
  { unfold find_loan.
    rewrite (filter_rowid Loan.id (loans s) l);
      [reflexivity | apply ascending_sorted; apply (wf_db_parts s Hwf) | exact Hl]. }
  rewrite place_call_eq, send_payment_link_eq, Hv.
  split.
  - destruct (PyDate.fromisoformat _); [destruct (get_msg _ _ _)|];
      cbv zeta; try destruct (USE_TWILIO tw);
      try destruct (calls_create _ _ _ _); cbn [snd]; discriminate.
  - cbv zeta. destruct (USE_TWILIO tw);
      try destruct (messages_create _ _ _ _); cbn [snd]; discriminate.
Qed.

Lemma every_loan_has_one_view_witness :
  wf_db two_loans = true /\ linked two_loans = true
  /\ In (Loan.mk 2 2 2500 "2025-01-01" "due") (loans two_loans)
  /\ find_loan two_loans 2 = Some (Loan.mk 2 2 2500 "2025-01-01" "due").
Proof.
  split; [reflexivity|]. split; [reflexivity|].
  split; [right; left; reflexivity|].
  exact (proj1 (proj2 (every_loan_has_one_view mock two_loans
                         (Loan.mk 2 2 2500 "2025-01-01" "due") "reminder"
                         eq_refl eq_refl (or_intror (or_introl eq_refl))))).
Defined.

(** *** The create form *)

Lemma create_loan_store (cn cp cl : string) (e : Z) (d : PyDate.date) (s : db) :
  create_loan cn cp cl e d s
  = (mkdb (customers s
           ++ [Customer.mk (next_id (map Customer.id (customers s))) cn cp cl])
          (loans s
           ++ [Loan.mk (next_id (map Loan.id (loans s)))
                       (next_id (map Customer.id (customers s))) e
                       (PyDate.isoformat d) "due"])
          (call_logs s),
     Ret (next_id (map Loan.id (loans s)))).
Proof. reflexivity. Qed.

Lemma create_loan_views (cn cp cl : string) (e : Z) (d : PyDate.date) (s : db) :
  linked s = true ->
  let cid := next_id (map Customer.id (customers s)) in
  let lid := next_id (map Loan.id (loans s)) in
  let s' := fst (create_loan cn cp cl e d s) in
  select_loan_view lid s'
  = [(Loan.mk lid cid e (PyDate.isoformat d) "due", Customer.mk cid cn cp cl)]
  /\ forall j, j <> lid -> select_loan_view j s' = select_loan_view j s.
Proof.
  intros Hlk. cbv zeta. rewrite create_loan_store. cbn [fst].
  rewrite linked_spec in Hlk.
  assert (Hold : forall l, In l (loans s) ->
            filter (fun c => Loan.customer_id l =? Customer.id c)
                   (customers s
                    ++ [Customer.mk (next_id (map Customer.id (customers s)))
                                    cn cp cl])
            = filter (fun c => Loan.customer_id l =? Customer.id c)
                     (customers s)).
  { intros l Hl. rewrite filter_app. cbn [filter Customer.id].
    destruct (Hlk l Hl) as (c & Hc & E).
    pose proof (next_id_above _ _ (in_map Customer.id _ _ Hc)) as Hlt.
    destruct (Z.eqb_spec (Loan.customer_id l)
                         (next_id (map Customer.id (customers s))));
      [lia | apply app_nil_r]. }
  assert (Hflat : forall rows, incl rows (loans s) ->
            flat_map (fun l =>
                        map (fun c => (l, c))
                            (filter (fun c => Loan.customer_id l =? Customer.id c)
                               (customers s
                                ++ [Customer.mk
                                      (next_id (map Customer.id (customers s)))
                                      cn cp cl])))
                     rows
            = flat_map (fun l =>
                          map (fun c => (l, c))
                              (filter (fun c => Loan.customer_id l =? Customer.id c)
                                      (customers s)))
                       rows).
  { induction rows as [| r rows IH]; intros Hin; [reflexivity|].
    cbn [flat_map]. rewrite Hold by (apply Hin; left; reflexivity).
    rewrite IH by (intros x Hx; apply Hin; right; exact Hx). reflexivity. }
  split.
  - rewrite select_loan_view_flat_map. cbn [customers loans].
    rewrite filter_app. cbn [filter Loan.id]. rewrite Z.eqb_refl.
    rewrite (filter_none _ (loans s)).
    2:{ intros l Hl. apply Z.eqb_neq.
        pose proof (next_id_above _ _ (in_map Loan.id _ _ Hl)). lia. }
    cbn [app flat_map Loan.customer_id]. rewrite app_nil_r, filter_app.
    rewrite (filter_none _ (customers s)).
    2:{ intros c Hc. apply Z.eqb_neq.
        pose proof (next_id_above _ _ (in_map Customer.id _ _ Hc)). lia. }
    cbn [app filter Customer.id]. rewrite Z.eqb_refl. reflexivity.
  - intros j Hj. rewrite !select_loan_view_flat_map. cbn [customers loans].
    rewrite filter_app. cbn [filter Loan.id].
    destruct (Z.eqb_spec (next_id (map Loan.id (loans s))) j); [congruence|].
    rewrite app_nil_r. apply Hflat. intros x Hx.
    apply filter_In in Hx. tauto.
Qed.

(** X8. The create form in a consistent store: the loan gets an id no
    loan had, with status [due] and the ISO text of the chosen date, and
    its customer an id no customer had; looking the new id up returns
    exactly the new loan with the new customer, the lookups of all other
    ids return what they returned before, and nothing is logged. *)
Theorem create_loan_round_trip (cn cp cl : string) (e : Z) (d : PyDate.date) (s : db) :
  wf_db s = true -> linked s = true ->
  let cid := next_id (map Customer.id (customers s)) in
  let lid := next_id (map Loan.id (loans s)) in
  let s' := fst (create_loan cn cp cl e d s) in
  snd (create_loan cn cp cl e d s) = Ret lid
  /\ find_loan s lid = None
  /\ (forall c, In c (customers s) -> Customer.id c <> cid)
  /\ select_loan_view lid s'
     = [(Loan.mk lid cid e (PyDate.isoformat d) "due", Customer.mk cid cn cp cl)]
  /\ (forall j, j <> lid -> select_loan_view j s' = select_loan_view j s)
  /\ (forall j l, find_loan s j = Some l -> find_loan s' j = Some l)
  /\ call_logs s' = call_logs s.
Proof.
  intros Hwf Hlk. cbv zeta.
  destruct (create_loan_views cn cp cl e d s Hlk) as [Hnew Hold].
  split; [reflexivity|]. split.
  { apply find_loan_none. intros l Hl.
    pose proof (next_id_above _ _ (in_map Loan.id _ _ Hl)). lia. }
  split.
  { intros c Hc. pose proof (next_id_above _ _ (in_map Customer.id _ _ Hc)). lia. }
  split; [exact Hnew|]. split; [exact Hold|]. split; [| reflexivity].
  intros j l Hf. rewrite create_loan_store. cbn [fst].
  apply (find_loan_app s). exact Hf.
Qed.

Lemma create_loan_round_trip_witness :
  wf_db one_loan = true /\ linked one_loan = true
  /\ snd (create_loan "B" "+912" "hi" 2500 jan4 one_loan) = Ret 2
  /\ select_loan_view 2 (fst (create_loan "B" "+912" "hi" 2500 jan4 one_loan))
     = [(Loan.mk 2 2 2500 "2025-01-04" "due", Customer.mk 2 "B" "+912" "hi")].
Proof.
  split; [reflexivity|]. split; [reflexivity|].
  destruct (create_loan_round_trip "B" "+912" "hi" 2500 jan4 one_loan
              eq_refl eq_refl) as (R & _ & _ & V & _).
  split; [exact R | exact V].
Defined.

(* ------------------------------------------------------------------ *)
(** * Templates *)

(** [format_from], with the tests on characters written out. *)
Lemma format_from_eq (field : option string) (t : string) (kwargs : dict string) :
  format_from field t kwargs =
  match t with
  | EmptyString =>
      match field with None => Ret EmptyString | Some _ => Raise ValueError end
  | String c t' =>
      match field with
      | Some f =>
          if Ascii.eqb c "}" then
            match dict_get kwargs f with
            | None => Raise (KeyError f)
            | Some v =>
                match format_from None t' kwargs with
                | Ret r => Ret (v ++ r)%string
                | Raise e => Raise e
                end
            end
          else format_from (Some (f ++ String c EmptyString)%string) t' kwargs
      | None =>
          if Ascii.eqb c "{" then
            match t' with
            | String c2 t'' =>
                if Ascii.eqb c2 "{" then
                  match format_from None t'' kwargs with
                  | Ret r => Ret (String "{" r)
                  | Raise e => Raise e
                  end
                else format_from (Some EmptyString) t' kwargs
            | EmptyString => Raise ValueError
            end
          else if Ascii.eqb c "}" then
            match t' with
            | String c2 t'' =>
                if Ascii.eqb c2 "}" then
                  match format_from None t'' kwargs with
                  | Ret r => Ret (String "}" r)
                  | Raise e => Raise e
                  end
                else Raise ValueError
            | EmptyString => Raise ValueError
            end
          else
            match format_from None t' kwargs with
            | Ret r => Ret (String c r)
            | Raise e => Raise e
            end
      end
  end.
Proof.
  destruct t as [| c t']; [destruct field; reflexivity|].
  destruct field as [f |].
  - destruct c as [[] [] [] [] [] [] [] []]; reflexivity.
  - destruct c as [[] [] [] [] [] [] [] []]; try reflexivity;
      (destruct t' as [| c2 t'']; [reflexivity|];
       destruct c2 as [[] [] [] [] [] [] [] []]; reflexivity).
Qed.

Lemma contains_here (v r : string) : contains (v ++ r) v.
Proof. exists EmptyString, r. reflexivity. Qed.

Lemma contains_cons (c : ascii) (r v : string) :
  contains r v -> contains (String c r) v.
Proof. intros (pre & post & ->). exists (String c pre), post. reflexivity. Qed.

Lemma contains_app_r (a r v : string) : contains r v -> contains (a ++ r) v.
Proof.
  intros (pre & post & ->). exists (a ++ pre)%string, post.
  rewrite string_app_assoc. reflexivity.
Qed.

(** When [format] returns, every replacement field of the template has
    its keyword argument, and the value is in the text. *)
Lemma format_from_names (n : nat) :
  forall (t : string) (field : option string) (kwargs : dict string)
         (text k : string),
    (String.length t <= n)%nat ->
    format_from field t kwargs = Ret text ->
    names_field field t k = true ->
    exists v, dict_get kwargs k = Some v /\ contains text v.
Proof.
  induction n as [| n IH]; intros t field kwargs text k Hlen;
    (destruct t as [| c t']; [intros _; cbn; discriminate|]);
    cbn [String.length] in Hlen; [lia|].
  rewrite format_from_eq. cbn [names_field].
  destruct field as [f |].
  - destruct (Ascii.eqb c "}").
    + destruct (dict_get kwargs f) as [v0 |] eqn:Hv; [| discriminate].
      destruct (format_from None t' kwargs) as [r |] eqn:Hr; [| discriminate].
      intros [= <-] Hn. apply orb_true_iff in Hn. destruct Hn as [Hn | Hn].
      * apply String.eqb_eq in Hn. subst k.
        exists v0. split; [exact Hv | apply contains_here].
      * destruct (IH t' None kwargs r k ltac:(lia) Hr Hn) as (v & Hk & Hc).
        exists v. split; [exact Hk | apply contains_app_r; exact Hc].
    + intros Hf Hn. exact (IH t' _ kwargs text k ltac:(lia) Hf Hn).
  - destruct (Ascii.eqb c "{").
    + destruct t' as [| c2 t'']; [discriminate|].
      cbn [String.length] in Hlen. destruct (Ascii.eqb c2 "{").
      * destruct (format_from None t'' kwargs) as [r |] eqn:Hr; [| discriminate].
        intros [= <-] Hn.
        destruct (IH t'' None kwargs r k ltac:(lia) Hr Hn) as (v & Hk & Hc).
        exists v. split; [exact Hk | apply contains_cons; exact Hc].
      * intros Hf Hn.
        exact (IH (String c2 t'') _ kwargs text k
                  ltac:(cbn [String.length]; lia) Hf Hn).
    + destruct (Ascii.eqb c "}").
      * destruct t' as [| c2 t'']; [discriminate|].
        cbn [String.length] in Hlen.
        destruct (Ascii.eqb c2 "}"); [| discriminate].
        destruct (format_from None t'' kwargs) as [r |] eqn:Hr; [| discriminate].
        intros [= <-] Hn.
        destruct (IH t'' None kwargs r k ltac:(lia) Hr Hn) as (v & Hk & Hc).
        exists v. split; [exact Hk | apply contains_cons; exact Hc].
      * destruct (format_from None t' kwargs) as [r |] eqn:Hr; [| discriminate].
        intros [= <-] Hn.
        destruct (IH t' None kwargs r k ltac:(lia) Hr Hn) as (v & Hk & Hc).
        exists v. split; [exact Hk | apply contains_cons; exact Hc].
Qed.

Lemma format_names (t : string) (kwargs : dict string) (text k : string) :
  format t kwargs = Ret text -> names_field None t k = true ->
  exists v, dict_get kwargs k = Some v /\ contains text v.
Proof. apply (format_from_names (String.length t)). lia. Qed.

(** The messages [get_msg] uses for a language are an entry of the
    table: the language's own, or the English ones. *)
Lemma get_msg_entry (lang : string) :
  exists l0 msgs,
    In (l0, msgs) LANG_MSGS
    /\ forall key kwargs,
         get_msg lang key kwargs
         = match dict_item msgs key with
           | Raise e => Raise e
           | Ret t => format t kwargs
           end.
Proof.
  assert (Hen : exists en, dict_get LANG_MSGS "en" = Some en)
    by (eexists; reflexivity).
  destruct Hen as [en Hen].
  destruct (dict_get LANG_MSGS lang) as [m |] eqn:E.
  - exists lang, m. split; [apply dict_get_in; exact E|].
    intros key kwargs. unfold get_msg, dict_item at 1. rewrite Hen, E.
    reflexivity.
  - exists "en", en. split; [apply dict_get_in; exact Hen|].
    intros key kwargs. unfold get_msg, dict_item at 1. rewrite Hen, E.
    reflexivity.
Qed.

(** In every language both reminders name the customer and the amount,
    and the pre-due one the date. *)
Lemma reminder_templates_fields :
  forallb (fun entry : string * dict string =>
             match dict_item (snd entry) "reminder",
                   dict_item (snd entry) "pre_due_reminder" with
             | Ret t1, Ret t2 =>
                 names_field None t1 "name" && names_field None t1 "amount"
                 && names_field None t2 "name" && names_field None t2 "amount"
                 && names_field None t2 "due_date"
             | _, _ => false
             end)
          LANG_MSGS = true.
Proof. vm_compute. reflexivity. Qed.

(** In every language, mapped or not, both reminders render with the
    arguments of [place_call], and the text contains the name and the
    amount; the pre-due reminder contains the date as well. *)
Lemma reminder_text_contains (lang key n a dd : string) :
  key = "reminder" \/ key = "pre_due_reminder" ->
  exists text,
    get_msg lang key [("name", n); ("amount", a); ("due_date", dd)] = Ret text
    /\ contains text n /\ contains text a
    /\ (key = "pre_due_reminder" -> contains text dd).
Proof.
  intros Hkey.
  set (kw := [("name", n); ("amount", a); ("due_date", dd)]).
  destruct (get_msg_reminder_returns lang key n a dd Hkey) as [text Ht].
  fold kw in Ht. exists text. split; [exact Ht|].
  destruct (get_msg_entry lang) as (l0 & msgs & Hin & Hget).
  rewrite Hget in Ht.
  pose proof reminder_templates_fields as Hall. rewrite forallb_forall in Hall.
  specialize (Hall _ Hin). cbn [snd] in Hall.
  destruct (dict_item msgs "reminder") as [t1 |] eqn:E1; [| discriminate].
  destruct (dict_item msgs "pre_due_reminder") as [t2 |] eqn:E2;
    [| discriminate].
  rewrite !andb_true_iff in Hall.
  destruct Hall as ((((N1 & A1) & N2) & A2) & D2).
  assert (Hfield : forall t k v,
            format t kw = Ret text -> names_field None t k = true ->
            dict_get kw k = Some v -> contains text v).
  { intros t k v Hf Hn Hk. destruct (format_names t kw text k Hf Hn)
      as (v' & Hk' & Hc). rewrite Hk in Hk'. injection Hk' as <-. exact Hc. }
  destruct Hkey as [-> | ->].
  - rewrite E1 in Ht. split; [| split].
    + exact (Hfield t1 "name" _ Ht N1 eq_refl).
    + exact (Hfield t1 "amount" _ Ht A1 eq_refl).
    + discriminate.
  - rewrite E2 in Ht. split; [| split].
    + exact (Hfield t2 "name" _ Ht N2 eq_refl).
    + exact (Hfield t2 "amount" _ Ht A2 eq_refl).
    + intros _. exact (Hfield t2 "due_date" _ Ht D2 eq_refl).
Qed.

(** X9. In every language, mapped or not, both reminders of
    [place_call] render, and the text contains the customer's name and
    the loan amount; the pre-due reminder contains the formatted due date
    as well.  With the mock channel this text is what the call returns
    and logs. *)
Theorem every_reminder_names_customer_and_amount
        (tw : twilio) (s : db) (i : Z) (key : string)
        (l : Loan.t) (c : Customer.t) (rest : list (Loan.t * Customer.t))
        (d : PyDate.date) :
  select_loan_view i s = (l, c) :: rest ->
  PyDate.fromisoformat (Loan.due_date l) = Ret d ->
  key = "reminder" \/ key = "pre_due_reminder" ->
  exists text,
    get_msg (Customer.language c) key (call_kwargs l c (PyDate.strftime_B_d_Y d))
    = Ret text
    /\ contains text (Customer.name c)
    /\ contains text (str_of_int (Loan.emi_amount l))
    /\ (key = "pre_due_reminder" -> contains text (PyDate.strftime_B_d_Y d))
    /\ (USE_TWILIO tw = false ->
        snd (place_call tw i key s)
        = Ret [("status", "mock_call_logged"); ("text", text)]
        /\ logged s (fst (place_call tw i key s))
           = [(i, "call_initiated", ("to " ++ Customer.phone c)%string);
              (i, "mock_call", text)]).
Proof.
  intros Hv Hd Hkey.
  destruct (reminder_text_contains (Customer.language c) key (Customer.name c)
              (str_of_int (Loan.emi_amount l)) (PyDate.strftime_B_d_Y d) Hkey)
    as (text & Ht & Hn & Ha & Hdd).
  exists text. split; [exact Ht|].
  split; [exact Hn|]. split; [exact Ha|]. split; [exact Hdd|].
  intros Hu. exact (place_call_mock tw s i key l c rest d text Hv Hd Ht Hu).
Qed.

Lemma every_reminder_names_customer_and_amount_witness :
  select_loan_view 2 later_loan
  = [(Loan.mk 2 2 2500 "2025-01-04" "due", Customer.mk 2 "B" "+912" "hi")]
  /\ PyDate.fromisoformat "2025-01-04" = Ret jan4
  /\ exists text,
       snd (place_call mock 2 "pre_due_reminder" later_loan)
       = Ret [("status", "mock_call_logged"); ("text", text)]
       /\ contains text "B" /\ contains text "2500"
       /\ contains text "January 04, 2025".
Proof.
  split; [reflexivity|]. split; [reflexivity|].
  destruct (every_reminder_names_customer_and_amount mock later_loan 2
              "pre_due_reminder" (Loan.mk 2 2 2500 "2025-01-04" "due")
              (Customer.mk 2 "B" "+912" "hi") [] jan4
              eq_refl eq_refl (or_intror eq_refl))
    as (text & _ & Hn & Ha & Hd & Hmock).
  exists text. destruct (Hmock eq_refl) as [Hr _].
  split; [exact Hr|]. split; [exact Hn|]. split; [exact Ha | exact (Hd eq_refl)].
Defined.

(** Every language has exactly the four message keys, and each of its
    templates formats with the arguments of [place_call]. *)
Lemma templates_keys (n a dd : string) :
  forallb (fun entry : string * dict string =>
             forallb (fun kv : string * string =>
                        existsb (String.eqb (fst kv)) MESSAGE_KEYS)
                     (snd entry)
             && forallb (fun k =>
                           match dict_item (snd entry) k with
                           | Ret t =>
                               match format t [("name", n); ("amount", a);
                                               ("due_date", dd)] with
                               | Ret _ => true
                               | Raise _ => false
                               end
                           | Raise _ => false
                           end)
                        MESSAGE_KEYS)
          LANG_MSGS = true.
Proof. vm_compute. reflexivity. Qed.

Lemma in_message_keys (k : string) :
  existsb (String.eqb k) MESSAGE_KEYS = true <-> In k MESSAGE_KEYS.
Proof.
  rewrite existsb_exists. split.
  - intros (x & Hin & Heq). apply String.eqb_eq in Heq. subst x. exact Hin.
  - intros Hin. exists k. split; [exact Hin | apply String.eqb_refl].
Qed.

(** X10. The message key decides whether a text exists, in every
    language: [get_msg] with the arguments of [place_call] returns a text
    exactly for the four keys of the table; with any other key it raises
    [KeyError], and [place_call] on an existing loan then raises before
    anything is logged or sent. *)
Theorem message_key_known_iff_text
        (tw : twilio) (s : db) (i : Z) (key : string)
        (l : Loan.t) (c : Customer.t) (rest : list (Loan.t * Customer.t))
        (d : PyDate.date) :
  select_loan_view i s = (l, c) :: rest ->
  PyDate.fromisoformat (Loan.due_date l) = Ret d ->
  ((exists text,
       get_msg (Customer.language c) key
               (call_kwargs l c (PyDate.strftime_B_d_Y d)) = Ret text)
   <-> In key MESSAGE_KEYS)
  /\ (~ In key MESSAGE_KEYS ->
      place_call tw i key s = (s, Raise (KeyError key))).
Proof.
  intros Hv Hd.
  destruct (get_msg_entry (Customer.language c)) as (l0 & msgs & Hin & Hget).
  pose proof (templates_keys (Customer.name c)
                (str_of_int (Loan.emi_amount l)) (PyDate.strftime_B_d_Y d))
    as Hall.
  rewrite forallb_forall in Hall. specialize (Hall _ Hin). cbn [snd] in Hall.
  apply andb_true_iff in Hall. destruct Hall as [Hkeys Hfmt].
  rewrite forallb_forall in Hkeys, Hfmt.
  assert (Hunknown : ~ In key MESSAGE_KEYS -> dict_item msgs key = Raise (KeyError key)).
  { intros Hk. unfold dict_item. destruct (dict_get msgs key) as [t |] eqn:E;
      [| reflexivity].
    exfalso. apply Hk. apply in_message_keys.
    exact (Hkeys _ (dict_get_in _ _ _ E)). }
  split; [split|].
  - intros [text Ht]. rewrite Hget in Ht.
    destruct (dict_item msgs key) as [t |] eqn:E; [| discriminate].
    unfold dict_item in E. destruct (dict_get msgs key) as [t' |] eqn:E';
      [| discriminate].
    apply in_message_keys. exact (Hkeys _ (dict_get_in _ _ _ E')).
  - intros Hk. specialize (Hfmt _ Hk). rewrite Hget.
    destruct (dict_item msgs key) as [t |]; [| discriminate].
    fold (call_kwargs l c (PyDate.strftime_B_d_Y d)) in Hfmt.
    destruct (format t _) as [text |]; [| discriminate].
    exists text. reflexivity.
  - intros Hk. rewrite place_call_eq, Hv, Hd, Hget, (Hunknown Hk). reflexivity.
Qed.

Lemma message_key_known_iff_text_witness :
  select_loan_view 2 later_loan
  = [(Loan.mk 2 2 2500 "2025-01-04" "due", Customer.mk 2 "B" "+912" "hi")]
  /\ PyDate.fromisoformat "2025-01-04" = Ret jan4
  /\ ~ In "goodbye" MESSAGE_KEYS
  /\ place_call mock 2 "goodbye" later_loan
     = (later_loan, Raise (KeyError "goodbye")).
Proof.
  assert (Hk : ~ In "goodbye" MESSAGE_KEYS).
  { intros H. cbn in H. repeat (destruct H as [H | H]; [discriminate H|]).
    exact H. }
  split; [reflexivity|]. split; [reflexivity|]. split; [exact Hk|].
  exact (proj2 (message_key_known_iff_text mock later_loan 2 "goodbye"
                  (Loan.mk 2 2 2500 "2025-01-04" "due")
                  (Customer.mk 2 "B" "+912" "hi") [] jan4 eq_refl eq_refl) Hk).
Defined.

(** * Days and the order of dates *)

Lemma days_before_year_succ (y : Z) :
  PyDate.days_before_year (y + 1)
  = PyDate.days_before_year y + (if PyDate.is_leap y then 366 else 365).
Proof.
  unfold PyDate.days_before_year, PyDate.is_leap. cbv zeta.
  replace (y + 1 - 1) with y by lia.
  destruct (y mod 4 =? 0) eqn:E4; destruct (y mod 100 =? 0) eqn:E100;
    destruct (y mod 400 =? 0) eqn:E400; cbn [andb orb negb];
    rewrite ?Z.eqb_eq, ?Z.eqb_neq in *;
    Z.to_euclidean_division_equations; lia.
Qed.

Lemma days_before_year_mono (y y' : Z) :
  y <= y' -> PyDate.days_before_year y <= PyDate.days_before_year y'.
Proof.
  unfold PyDate.days_before_year. cbv zeta. intros H.
  Z.to_euclidean_division_equations. lia.
Qed.

(** The day of the year of a date is between 1 and the length of the
    year, and grows with the month, then with the day. *)
Lemma day_of_year_order (leap : bool) (m d m' d' : Z) :
  let dim := fun m => if (m =? 2) && leap then 29 else PyDate.DAYS_IN_MONTH m in
  let dbm := fun m => PyDate.DAYS_BEFORE_MONTH m
                      + (if (2 <? m) && leap then 1 else 0) in
  1 <= m <= 12 -> 1 <= d <= dim m ->
  1 <= m' <= 12 -> 1 <= d' <= dim m' ->
  1 <= dbm m + d <= (if leap then 366 else 365)
  /\ (m < m' -> dbm m + d < dbm m' + d').
Proof.
  cbv zeta. intros Hm Hd Hm' Hd'.
  assert (Hmc : m = 1 \/ m = 2 \/ m = 3 \/ m = 4 \/ m = 5 \/ m = 6 \/ m = 7
                \/ m = 8 \/ m = 9 \/ m = 10 \/ m = 11 \/ m = 12) by lia.
  assert (Hmc' : m' = 1 \/ m' = 2 \/ m' = 3 \/ m' = 4 \/ m' = 5 \/ m' = 6
                 \/ m' = 7 \/ m' = 8 \/ m' = 9 \/ m' = 10 \/ m' = 11
                 \/ m' = 12) by lia.
  destruct leap;
    repeat (destruct Hmc as [Hmc | Hmc]); subst m;
    repeat (destruct Hmc' as [Hmc' | Hmc']); subst m';
    cbn [PyDate.DAYS_IN_MONTH PyDate.DAYS_BEFORE_MONTH Z.eqb Z.ltb Z.compare
         Pos.eqb Pos.compare Pos.compare_cont andb] in *; lia.
Qed.

(** The order of dates is the order of their day numbers. *)
Lemma leb_toordinal (a b : PyDate.date) :
  PyDate.check_date_fields a = true -> PyDate.check_date_fields b = true ->
  (PyDate.leb a b = true <-> PyDate.toordinal a <= PyDate.toordinal b).
Proof.
  intros Ha Hb.
  pose proof (PyDateFacts.check_date_fields_bounds a Ha) as (Hy & Hm & Hd).
  pose proof (PyDateFacts.check_date_fields_bounds b Hb) as (Hy' & Hm' & Hd').
  revert Ha Hb. unfold PyDate.check_date_fields, PyDate.leb, PyDate.toordinal,
    PyDate.ymd2ord, PyDate.days_before_month, PyDate.days_in_month.
  destruct a as [y m d], b as [y' m' d'];
    cbn [PyDate.year PyDate.month PyDate.day] in *.
  rewrite !andb_true_iff, !Z.leb_le. intros (_ & Hdim) (_ & Hdim').
  pose proof (day_of_year_order (PyDate.is_leap y) m d m d Hm
                (conj (proj1 Hd) Hdim) Hm (conj (proj1 Hd) Hdim)) as [Ba _].
  pose proof (day_of_year_order (PyDate.is_leap y') m' d' m' d' Hm'
                (conj (proj1 Hd') Hdim') Hm' (conj (proj1 Hd') Hdim'))
    as [Bb _].
  cbv beta in Ba, Bb.
  rewrite orb_true_iff, andb_true_iff, orb_true_iff, andb_true_iff,
    !Z.ltb_lt, !Z.eqb_eq, Z.leb_le.
  destruct (Z.lt_trichotomy y y') as [Hlt | [Heq | Hgt]].
  - pose proof (days_before_year_succ y) as Hs.
    pose proof (days_before_year_mono (y + 1) y' ltac:(lia)) as Hmono.
    split; [intros _ | intros _; left; exact Hlt].
    destruct (PyDate.is_leap y); lia.
  - subst y'.
    pose proof (day_of_year_order (PyDate.is_leap y) m d m' d' Hm
                  (conj (proj1 Hd) Hdim) Hm' (conj (proj1 Hd') Hdim'))
      as [_ Hlt].
    pose proof (day_of_year_order (PyDate.is_leap y) m' d' m d Hm'
                  (conj (proj1 Hd') Hdim') Hm (conj (proj1 Hd) Hdim))
      as [_ Hgt].
    cbv beta in Hlt, Hgt.
    destruct (Z.lt_trichotomy m m') as [Hmlt | [Hmeq | Hmgt]].
    + specialize (Hlt Hmlt). split; [lia | intros _; right; split; [reflexivity|]; left; exact Hmlt].
    + subst m'. split.
      * intros [Hc | (_ & [Hc | (_ & Hc)])]; lia.
      * intros Hle. right. split; [reflexivity|]. right.
        split; [reflexivity | lia].
    + specialize (Hgt Hmgt). split.
      * intros [Hc | (_ & [Hc | (Hc & _)])]; lia.
      * intros Hle. lia.
  - pose proof (days_before_year_succ y') as Hs.
    pose proof (days_before_year_mono (y' + 1) y ltac:(lia)) as Hmono.
    split.
    + intros [Hc | (Hc & _)]; lia.
    + intros Hle. exfalso. destruct (PyDate.is_leap y'); lia.
Qed.

(** The text test of the overdue query, on a stored ISO date, is the
    comparison of day numbers. *)
Lemma due_text_leb (text : string) (d today : PyDate.date) :
  PyDate.fromisoformat text = Ret d ->
  PyDate.check_date_fields today = true ->
  (String.leb text (PyDate.isoformat today) = true
   <-> PyDate.toordinal d <= PyDate.toordinal today).
Proof.
  intros Hd Ht. destruct (PyDateFacts.fromisoformat_inv _ _ Hd) as [Hc ->].
  rewrite PyDateFacts.isoformat_leb by assumption.
  apply leb_toordinal; assumption.
Qed.

(** In a consistent store the overdue query returns a loan exactly when
    its status is [due] and its due day number is at most the day's. *)
Lemma select_overdue_days (s : db) (day : PyDate.date) (l : Loan.t) :
  wf_db s = true -> PyDate.check_date_fields day = true ->
  In l (loans s) ->
  (In (Loan.id l) (select_overdue (PyDate.isoformat day) s) <->
   Loan.status l = "due"
   /\ exists d, PyDate.fromisoformat (Loan.due_date l) = Ret d
                /\ PyDate.toordinal d <= PyDate.toordinal day).
Proof.
  intros Hwf Hday Hl. destruct (wf_db_parts s Hwf) as [Hasc Hiso].
  unfold select_overdue.
  rewrite (select_rows _ s l Hasc Hl), andb_true_iff, String.eqb_eq.
  destruct (Hiso l Hl) as [d Hd]. rewrite (due_text_leb _ d day Hd Hday).
  split.
  - intros [Hle Hs]. split; [exact Hs|]. exists d. split; assumption.
  - intros [Hs (d' & Hd' & Hle)]. rewrite Hd in Hd'. injection Hd' as <-.
    split; assumption.
Qed.

(** X11. The two reminder lists of one day, in a consistent store.  The
    overdue query, a comparison of texts, returns a loan exactly when its
    status is [due] and its due day number is at most today's; no loan is
    in both the overdue list and the pre-due list of the same day; a loan
    on the pre-due list is on the overdue list of its due day; and the
    overdue list only grows as the day advances while the store stays the
    same. *)
Theorem reminder_lists_of_one_day (s : db) (today target : PyDate.date) :
  wf_db s = true ->
  PyDate.check_date_fields today = true ->
  PyDate.add_days today 3 = Ret target ->
  (forall l, In l (loans s) ->
     (In (Loan.id l) (select_overdue (PyDate.isoformat today) s) <->
      Loan.status l = "due"
      /\ exists d, PyDate.fromisoformat (Loan.due_date l) = Ret d
                   /\ PyDate.toordinal d <= PyDate.toordinal today))
  /\ (forall i, In i (select_overdue (PyDate.isoformat today) s) ->
        ~ In i (select_pre_due (PyDate.isoformat target) s))
  /\ (forall i, In i (select_pre_due (PyDate.isoformat target) s) ->
        In i (select_overdue (PyDate.isoformat target) s))
  /\ (forall later i,
        PyDate.check_date_fields later = true ->
        PyDate.toordinal today <= PyDate.toordinal later ->
        In i (select_overdue (PyDate.isoformat today) s) ->
        In i (select_overdue (PyDate.isoformat later) s)).
Proof.
  intros Hwf Ht Hadd. destruct (wf_db_parts s Hwf) as [Hasc Hiso].
  destruct (PyDateFacts.add_days_spec _ _ _ Hadd) as [Hc Hord].
  assert (Hrow : forall day l, PyDate.check_date_fields day = true ->
            In l (loans s) ->
            (In (Loan.id l) (select_overdue (PyDate.isoformat day) s) <->
             Loan.status l = "due"
             /\ exists d, PyDate.fromisoformat (Loan.due_date l) = Ret d
                          /\ PyDate.toordinal d <= PyDate.toordinal day))
    by (intros day l Hday Hl; apply select_overdue_days; assumption).
  split; [intros l Hl; apply Hrow; assumption|].
  split; [| split].
  - intros i Hover Hpre.
    destruct (select_ids _ s i Hpre) as (l & Hl & <-).
    apply (Hrow today l Ht Hl) in Hover.
    destruct Hover as [_ (d & Hd & Hle)].
    unfold select_pre_due in Hpre.
    apply (select_rows _ s l Hasc Hl) in Hpre.
    apply andb_true_iff in Hpre. destruct Hpre as [Heq _].
    apply String.eqb_eq in Heq. rewrite Heq in Hd.
    rewrite PyDateFacts.fromisoformat_isoformat in Hd by exact Hc.
    injection Hd as <-. lia.
  - intros i Hpre.
    destruct (select_ids _ s i Hpre) as (l & Hl & <-).
    unfold select_pre_due in Hpre.
    apply (select_rows _ s l Hasc Hl) in Hpre.
    apply andb_true_iff in Hpre. destruct Hpre as [Heq Hs].
    apply String.eqb_eq in Heq, Hs.
    apply (Hrow target l Hc Hl). split; [exact Hs|].
    exists target. split; [| lia]. rewrite Heq.
    apply PyDateFacts.fromisoformat_isoformat. exact Hc.
  - intros later i Hlater Hle Hover.
    destruct (select_ids _ s i Hover) as (l & Hl & <-).
    apply (Hrow today l Ht Hl) in Hover.
    apply (Hrow later l Hlater Hl).
    destruct Hover as [Hs (d & Hd & Hd')]. split; [exact Hs|].
    exists d. split; [exact Hd | lia].
Qed.

Lemma reminder_lists_of_one_day_witness :
  wf_db later_loan = true
  /\ PyDate.check_date_fields jan1 = true
  /\ PyDate.add_days jan1 3 = Ret jan4
  /\ select_overdue (PyDate.isoformat jan1) later_loan = [1]
  /\ select_pre_due (PyDate.isoformat jan4) later_loan = [2]
  /\ (forall i, In i (select_overdue (PyDate.isoformat jan1) later_loan) ->
        ~ In i (select_pre_due (PyDate.isoformat jan4) later_loan)).
Proof.
  split; [reflexivity|]. split; [reflexivity|]. split; [reflexivity|].
  split; [reflexivity|]. split; [reflexivity|].
  exact (proj1 (proj2 (reminder_lists_of_one_day later_loan jan1 jan4
                         eq_refl eq_refl eq_refl))).
Defined.

(** * Sequences of actions *)

(** One action leaves the status of a loan as it was, or makes it [paid]
    or [rescheduled]. *)
Lemma status_of_run (tw : twilio) (a : action) (s : db) (i : Z) (st : string) :
  status_of s i = Some st ->
  exists st',
    status_of (run tw a s) i = Some st'
    /\ (st' = st \/ st' = "paid" \/ st' = "rescheduled").
Proof.
  intros Hst.
  destruct a as [j k | j | j | j n | cn cp cl e d | t | t]; cbn [run].
  - destruct (place_call_frame tw j k s) as [evs ->].
    exists st. split; [exact Hst | left; reflexivity].
  - destruct (send_payment_link_frame tw j s) as [evs ->].
    exists st. split; [exact Hst | left; reflexivity].
  - rewrite mark_paid_store. rewrite (status_of_set_paid s _ _ i j st Hst).
    destruct (i =? j); eexists; split; try reflexivity; auto.
  - rewrite reschedule_loan_eq.
    destruct (select_due_date j s) as [| due rest];
      [exists st; split; [exact Hst | left; reflexivity]|].
    destruct (PyDate.fromisoformat due) as [d0 |];
      [| exists st; split; [exact Hst | left; reflexivity]].
    destruct (PyDate.add_days d0 n) as [d' |];
      [| exists st; split; [exact Hst | left; reflexivity]].
    cbn [fst insert_call_log update_rescheduled customers loans call_logs].
    rewrite (status_of_set_rescheduled s _ _ _ i j st Hst).
    destruct (i =? j); eexists; split; try reflexivity; auto.
  - exists st. split; [| left; reflexivity].
    rewrite status_of_find_loan in *.
    destruct (find_loan s i) as [l |] eqn:E; [| discriminate].
    unfold create_loan, bind, execute, insert_customer, insert_loan.
    cbn [fst customers loans call_logs].
    rewrite (find_loan_app _ _ _ _ i l); [exact Hst|].
    exact E.
  - exists st. split; [| left; reflexivity].
    unfold call_overdue_customers.
    rewrite (status_of_same_loans s); [exact Hst|]. apply bulk_calls_frame.
  - exists st. split; [| left; reflexivity].
    unfold call_pre_due_customers.
    destruct (PyDate.add_days t 3); [| exact Hst].
    rewrite (status_of_same_loans s); [exact Hst|]. apply bulk_calls_frame.
Qed.

Lemma status_of_run_all (tw : twilio) (acts : list action) :
  forall (s : db) (i : Z) (st : string),
    status_of s i = Some st ->
    exists st',
      status_of (run_all tw acts s) i = Some st'
      /\ (st' = st \/ st' = "paid" \/ st' = "rescheduled").
Proof.
  unfold run_all.
  induction acts as [| a acts IH]; intros s i st Hst; cbn [fold_left].
  - exists st. split; [exact Hst | left; reflexivity].
  - destruct (status_of_run tw a s i st Hst) as (st1 & H1 & Hc1).
    destruct (IH _ i st1 H1) as (st2 & H2 & Hc2).
    exists st2. split; [exact H2|].
    destruct Hc2 as [-> | Hc2]; [exact Hc1 | right; exact Hc2].
Qed.

Lemma wf_db_run_all (tw : twilio) (acts : list action) (s : db) :
  Forall (fun a => action_ok a = true) acts ->
  wf_db s = true -> wf_db (run_all tw acts s) = true.
Proof.
  unfold run_all. intros Hok. revert s.
  induction Hok as [| a acts Ha _ IH]; intros s Hwf; cbn [fold_left].
  - exact Hwf.
  - apply IH. apply wf_db_run; assumption.
Qed.

(** A scan for [due] loans does not return a loan whose status is not
    [due]. *)
Lemma not_due_not_selected (p : Loan.t -> bool) (s : db) (i : Z) (st : string) :
  wf_db s = true -> status_of s i = Some st -> st <> "due" ->
  ~ In i (map Loan.id
              (filter (fun l => p l && String.eqb (Loan.status l) "due")
                      (loans s))).
Proof.
  intros Hwf Hst Hne Hin. destruct (wf_db_parts s Hwf) as [Hasc _].
  apply ascending_sorted in Hasc.
  apply in_map_iff in Hin. destruct Hin as (l & Hi & Hin).
  apply filter_In in Hin. destruct Hin as [Hl Hp].
  apply andb_true_iff in Hp. destruct Hp as [_ Hdue].
  apply String.eqb_eq in Hdue.
  rewrite status_of_find_loan in Hst.
  destruct (find_loan s i) as [l' |] eqn:E; [| discriminate].
  apply find_loan_some in E. destruct E as [Hl' Hi'].
  cbn [option_map] in Hst. injection Hst as Hst.
  assert (l = l')
    by (apply (sorted_ids_unique Loan.id (loans s)); congruence).
  subst l'. congruence.
Qed.

(** X12. A loan that is [paid] or [rescheduled] is never reminded by
    a bulk button again.  In a consistent store, after any sequence of
    actions of the page, a loan whose status was not [due] is still in
    the store with a status other than [due] (its own, [paid] or
    [rescheduled]); so neither the overdue query nor the pre-due query
    returns it, whatever the date. *)
Theorem settled_loan_never_selected
        (tw : twilio) (acts : list action) (s : db) (i : Z) (st : string) :
  Forall (fun a => action_ok a = true) acts ->
  wf_db s = true ->
  status_of s i = Some st -> st <> "due" ->
  let s' := run_all tw acts s in
  (exists st', status_of s' i = Some st'
               /\ (st' = st \/ st' = "paid" \/ st' = "rescheduled"))
  /\ forall day : string,
       ~ In i (select_overdue day s') /\ ~ In i (select_pre_due day s').
Proof.
  intros Hok Hwf Hst Hne. cbv zeta.
  destruct (status_of_run_all tw acts s i st Hst) as (st' & Hst' & Hc).
  split; [exists st'; split; assumption|].
  pose proof (wf_db_run_all tw acts s Hok Hwf) as Hwf'.
  assert (Hne' : st' <> "due")
    by (destruct Hc as [-> | [-> | ->]]; [exact Hne | discriminate ..]).
  intros day. split.
  - exact (not_due_not_selected _ _ i st' Hwf' Hst' Hne').
  - exact (not_due_not_selected _ _ i st' Hwf' Hst' Hne').
Qed.

Lemma settled_loan_never_selected_witness :
  Forall (fun a => action_ok a = true)
         [CallOverdueCustomers jan4; CreateLoan "B" "+912" "hi" 2500 jan1;
          SendPaymentLink 1]
  /\ wf_db (run mock (RescheduleLoan 1 7) one_loan) = true
  /\ status_of (run mock (RescheduleLoan 1 7) one_loan) 1 = Some "rescheduled"
  /\ "rescheduled" <> "due"
  /\ ~ In 1 (select_overdue "2025-02-01"
               (run_all mock
                  [CallOverdueCustomers jan4;
                   CreateLoan "B" "+912" "hi" 2500 jan1; SendPaymentLink 1]
                  (run mock (RescheduleLoan 1 7) one_loan))).
Proof.
  assert (Hok : Forall (fun a => action_ok a = true)
                  [CallOverdueCustomers jan4;
                   CreateLoan "B" "+912" "hi" 2500 jan1; SendPaymentLink 1])
    by (repeat constructor).
  assert (Hne : "rescheduled" <> "due") by discriminate.
  split; [exact Hok|]. split; [reflexivity|]. split; [reflexivity|].
  split; [exact Hne|].
  exact (proj1 (proj2 (settled_loan_never_selected mock _
                         (run mock (RescheduleLoan 1 7) one_loan) 1
                         "rescheduled" Hok eq_refl eq_refl Hne)
                      "2025-02-01")).
Defined.

(** * The bulk buttons with the mock channel *)

Lemma map_flat_map {A B C : Type} (f : B -> C) (g : A -> list B) (l : list A) :
  map f (flat_map g l) = flat_map (fun x => map f (g x)) l.
Proof.
  induction l as [| x l IH]; cbn [flat_map map]; [reflexivity|].
  rewrite map_app, IH. reflexivity.
Qed.

(** With the mock channel, a reminder call for a loan of a consistent
    store logs [call_initiated] and then [mock_call] for that loan. *)
Lemma mock_call_events (tw : twilio) (s : db) (i : Z) (key : string) :
  USE_TWILIO tw = false -> wf_db s = true -> linked s = true ->
  key = "reminder" \/ key = "pre_due_reminder" ->
  (exists l, In l (loans s) /\ Loan.id l = i) ->
  map (fun t : Z * string * string => (fst (fst t), snd (fst t)))
      (logged s (fst (place_call tw i key s)))
  = [(i, "call_initiated"); (i, "mock_call")].
Proof.
  intros Hu Hwf Hlk Hkey (l & Hl & <-).
  destruct (select_loan_view_row s l Hwf Hlk Hl) as (c & _ & _ & Hv).
  destruct (proj2 (wf_db_parts s Hwf) l Hl) as [d Hd].
  destruct (get_msg_reminder_returns (Customer.language c) key
              (Customer.name c) (str_of_int (Loan.emi_amount l))
              (PyDate.strftime_B_d_Y d) Hkey) as [text Ht].
  destruct (place_call_mock tw s (Loan.id l) key l c [] d text Hv Hd Ht Hu)
    as [_ ->].
  reflexivity.
Qed.

Lemma mock_bulk_calls (tw : twilio) (key : string) (toast : Z -> string)
      (empty_text : string) (done_text : nat -> string) (ids : list Z) (s : db) :
  USE_TWILIO tw = false -> wf_db s = true -> linked s = true ->
  key = "reminder" \/ key = "pre_due_reminder" ->
  (forall i, In i ids -> exists l, In l (loans s) /\ Loan.id l = i) ->
  exists evs,
    bulk_calls tw key toast empty_text done_text ids s
    = (mkdb (customers s) (loans s) (call_logs s ++ evs),
       match ids with
       | [] => [Warning empty_text]
       | _ :: _ => map (fun i => Toast (toast i)) ids
                   ++ [Success (done_text (List.length ids))]
       end,
       Ret tt)
    /\ map (fun e => (CallLog.loan_id e, CallLog.event e)) evs
       = flat_map (fun i => [(i, "call_initiated"); (i, "mock_call")]) ids.
Proof.
  intros Hu Hwf Hlk Hkey Hids. unfold bulk_calls.
  destruct ids as [| i rest].
  - exists []. rewrite app_nil_r. destruct s. split; reflexivity.
  - destruct (call_each_run tw key toast (i :: rest) s
                (fun j _ => mock_call_returns tw s j key Hu Hwf Hkey)
                s eq_refl eq_refl) as (evs & -> & Hevs).
    exists evs. split; [reflexivity|].
    change (map (fun e => (CallLog.loan_id e, CallLog.event e)) evs)
      with (map (fun e => (fun t : Z * string * string =>
                             (fst (fst t), snd (fst t))) (log_entry e)) evs).
    rewrite <- map_map, Hevs, map_flat_map.
    revert Hids. generalize (i :: rest) as js.
    induction js as [| j js IH]; intros Hjs; cbn [flat_map]; [reflexivity|].
    rewrite (mock_call_events tw s j key Hu Hwf Hlk Hkey
               (Hjs j (or_introl eq_refl))).
    rewrite IH by (intros k Hk; apply Hjs; right; exact Hk).
    reflexivity.
Qed.

(** X13. With the mock channel and a consistent store both bulk buttons
    run to their end.  Each shows one toast per selected loan, in the
    order of the query, then the closing message with the number of loans
    (or the warning when none is selected); customers and loans are left
    as they were; and the log grows by exactly two events per selected
    loan, [call_initiated] then [mock_call], in the same order. *)
Theorem mock_bulk_buttons_complete
        (tw : twilio) (s : db) (today target : PyDate.date) :
  USE_TWILIO tw = false -> wf_db s = true -> linked s = true ->
  PyDate.add_days today 3 = Ret target ->
  let overdue := select_overdue (PyDate.isoformat today) s in
  let pre_due := select_pre_due (PyDate.isoformat target) s in
  (exists evs,
     call_overdue_customers tw today s
     = (mkdb (customers s) (loans s) (call_logs s ++ evs),
        match overdue with
        | [] => [Warning "No overdue loans to call."]
        | _ :: _ =>
            map (fun i =>
                   Toast ("Called loan " ++ str_of_int i ++ " (overdue)")%string)
                overdue
            ++ [Success ("Finished calling all "
                         ++ str_of_int (Z.of_nat (List.length overdue))
                         ++ " overdue customers.")%string]
        end,
        Ret tt)
     /\ map (fun e => (CallLog.loan_id e, CallLog.event e)) evs
        = flat_map (fun i => [(i, "call_initiated"); (i, "mock_call")]) overdue)
  /\ (exists evs,
        call_pre_due_customers tw today s
        = (mkdb (customers s) (loans s) (call_logs s ++ evs),
           match pre_due with
           | [] => [Warning "No customers with EMIs due in 3 days."]
           | _ :: _ =>
               map (fun i =>
                      Toast ("Called loan " ++ str_of_int i
                             ++ " (pre-due reminder)")%string)
                   pre_due
               ++ [Success ("Finished calling all "
                            ++ str_of_int (Z.of_nat (List.length pre_due))
                            ++ " pre-due customers.")%string]
           end,
           Ret tt)
        /\ map (fun e => (CallLog.loan_id e, CallLog.event e)) evs
           = flat_map (fun i => [(i, "call_initiated"); (i, "mock_call")])
                      pre_due).
Proof.
  intros Hu Hwf Hlk Hadd. cbv zeta. split.
  - unfold call_overdue_customers.
    destruct (mock_bulk_calls tw "reminder"
                (fun i => "Called loan " ++ str_of_int i ++ " (overdue)")%string
                "No overdue loans to call."
                (fun n => "Finished calling all " ++ str_of_int (Z.of_nat n)
                          ++ " overdue customers.")%string
                (select_overdue (PyDate.isoformat today) s) s Hu Hwf Hlk
                (or_introl eq_refl) (select_ids _ s)) as (evs & -> & Hevs).
    exists evs. split; [reflexivity | exact Hevs].
  - unfold call_pre_due_customers. rewrite Hadd.
    destruct (mock_bulk_calls tw "pre_due_reminder"
                (fun i => "Called loan " ++ str_of_int i
                          ++ " (pre-due reminder)")%string
                "No customers with EMIs due in 3 days."
                (fun n => "Finished calling all " ++ str_of_int (Z.of_nat n)
                          ++ " pre-due customers.")%string
                (select_pre_due (PyDate.isoformat target) s) s Hu Hwf Hlk
                (or_intror eq_refl) (select_ids _ s)) as (evs & -> & Hevs).
    exists evs. split; [reflexivity | exact Hevs].
Qed.

Lemma mock_bulk_buttons_complete_witness :
  USE_TWILIO mock = false /\ wf_db later_loan = true
  /\ linked later_loan = true
  /\ PyDate.add_days jan1 3 = Ret jan4
  /\ exists evs,
       call_pre_due_customers mock jan1 later_loan
       = (mkdb (customers later_loan) (loans later_loan)
               (call_logs later_loan ++ evs),
          [Toast "Called loan 2 (pre-due reminder)";
           Success "Finished calling all 1 pre-due customers."],
          Ret tt)
       /\ map (fun e => (CallLog.loan_id e, CallLog.event e)) evs
          = [(2, "call_initiated"); (2, "mock_call")].
Proof.
  split; [reflexivity|]. split; [reflexivity|]. split; [reflexivity|].
  split; [reflexivity|].
  exact (proj2 (mock_bulk_buttons_complete mock later_loan jan1 jan4
                  eq_refl eq_refl eq_refl eq_refl)).
Defined.

(** * From the form to the reminder *)

(** X14. A loan created with the form's default due date, three days
    after today, is reminded ahead on the same day.  In a consistent
    store the new loan is on the pre-due list of that day and not on the
    overdue list, and with the mock channel its pre-due call returns a
    text that contains the name, the amount and the due date entered in
    the form, whatever the language. *)
Theorem created_loan_is_reminded_ahead
        (tw : twilio) (cn cp cl : string) (e : Z)
        (today target : PyDate.date) (s : db) :
  USE_TWILIO tw = false -> wf_db s = true -> linked s = true ->
  PyDate.check_date_fields today = true ->
  PyDate.add_days today 3 = Ret target ->
  let lid := next_id (map Loan.id (loans s)) in
  let s' := fst (create_loan cn cp cl e target s) in
  In lid (select_pre_due (PyDate.isoformat target) s')
  /\ ~ In lid (select_overdue (PyDate.isoformat today) s')
  /\ exists text,
       snd (place_call tw lid "pre_due_reminder" s')
       = Ret [("status", "mock_call_logged"); ("text", text)]
       /\ contains text cn /\ contains text (str_of_int e)
       /\ contains text (PyDate.strftime_B_d_Y target).
Proof.
  intros Hu Hwf Hlk Ht Hadd.
  destruct (PyDateFacts.add_days_spec _ _ _ Hadd) as [Hc Hord].
  destruct (create_loan_views cn cp cl e target s Hlk) as [Hview _].
  pose proof (wf_db_run tw (CreateLoan cn cp cl e target) s Hc Hwf) as Hwf'.
  cbn [run] in Hwf'. cbv zeta in *.
  set (cid := next_id (map Customer.id (customers s))) in *.
  set (lid := next_id (map Loan.id (loans s))) in *.
  set (row := Loan.mk lid cid e (PyDate.isoformat target) "due") in *.
  assert (Hrow : In row (loans (fst (create_loan cn cp cl e target s)))).
  { rewrite create_loan_store. cbn [fst loans]. apply in_or_app. right.
    left. reflexivity. }
  split; [| split].
  - unfold select_pre_due.
    change lid with (Loan.id row). apply in_map. apply filter_In.
    split; [exact Hrow|]. cbn [row Loan.due_date Loan.status].
    rewrite String.eqb_refl. reflexivity.
  - change lid with (Loan.id row). intros Hin.
    apply (select_overdue_days _ today row Hwf' Ht Hrow) in Hin.
    destruct Hin as [_ (d & Hd & Hle)]. cbn [row Loan.due_date] in Hd.
    rewrite PyDateFacts.fromisoformat_isoformat in Hd by exact Hc.
    injection Hd as <-. lia.
  - destruct (reminder_text_contains cl "pre_due_reminder" cn (str_of_int e)
                (PyDate.strftime_B_d_Y target) (or_intror eq_refl))
      as (text & Htext & Hn & Ha & Hd).
    exists text. split; [| split; [exact Hn | split; [exact Ha | exact (Hd eq_refl)]]].
    exact (proj1 (place_call_mock tw _ lid "pre_due_reminder" row
                    (Customer.mk cid cn cp cl) [] target text Hview
                    (PyDateFacts.fromisoformat_isoformat target Hc) Htext Hu)).
Qed.

Lemma created_loan_is_reminded_ahead_witness :
  USE_TWILIO mock = false /\ wf_db one_loan = true /\ linked one_loan = true
  /\ PyDate.check_date_fields jan1 = true
  /\ PyDate.add_days jan1 3 = Ret jan4
  /\ In 2 (select_pre_due (PyDate.isoformat jan4)
             (fst (create_loan "B" "+912" "hi" 2500 jan4 one_loan))).
Proof.
  split; [reflexivity|]. split; [reflexivity|]. split; [reflexivity|].
  split; [reflexivity|]. split; [reflexivity|].
  exact (proj1 (created_loan_is_reminded_ahead mock "B" "+912" "hi" 2500
                  jan1 jan4 one_loan eq_refl eq_refl eq_refl eq_refl eq_refl)).
Defined.

(** * Demo data *)

Lemma add_days_returns (d : PyDate.date) (n : Z) :
  -999999999 <= n <= 999999999 ->
  1 <= PyDate.toordinal d + n <= PyDate.MAXORDINAL ->
  exists d', PyDate.add_days d n = Ret d'
             /\ PyDate.check_date_fields d' = true
             /\ PyDate.toordinal d' = PyDate.toordinal d + n.
Proof.
  intros Hn Ho. unfold PyDate.add_days.
  destruct ((-999999999 <=? n) && (n <=? 999999999)) eqn:B.
  - destruct ((0 <? PyDate.toordinal d + n)
              && (PyDate.toordinal d + n <=? PyDate.MAXORDINAL)) eqn:R.
    + eexists. split; [reflexivity|]. apply PyDateFacts.ord2ymd_spec. exact Ho.
    + exfalso. rewrite andb_false_iff, Z.ltb_ge, Z.leb_gt in R. lia.
  - exfalso. rewrite andb_false_iff, !Z.leb_gt in B. lia.
Qed.

Lemma wf_add_loan (s : db) (cid e : Z) (due st : string) :
  wf_db s = true -> is_iso_date due = true ->
  wf_db (mkdb (customers s)
              (loans s ++ [Loan.mk (next_id (map Loan.id (loans s))) cid e due st])
              (call_logs s)) = true.
Proof.
  unfold wf_db. cbn [customers loans call_logs].
  rewrite !andb_true_iff, !map_app, forallb_app.
  intros (((Hc & Hl) & Hg) & Hd) Hiso. cbn [map Loan.id forallb Loan.due_date].
  rewrite andb_true_iff, andb_true_r.
  repeat split; try assumption. apply ascending_snoc. assumption.
Qed.

Lemma wf_add_customer (s : db) (n p l : string) :
  wf_db s = true ->
  wf_db (mkdb (customers s
               ++ [Customer.mk (next_id (map Customer.id (customers s))) n p l])
              (loans s) (call_logs s)) = true.
Proof.
  unfold wf_db. cbn [customers loans call_logs].
  rewrite !andb_true_iff, !map_app.
  intros (((Hc & Hl) & Hg) & Hd). cbn [map Customer.id].
  repeat split; try assumption. apply ascending_snoc. assumption.
Qed.

Lemma linked_add_loan (s : db) (i cid e : Z) (due st : string) :
  linked s = true ->
  (exists c, In c (customers s) /\ Customer.id c = cid) ->
  linked (mkdb (customers s) (loans s ++ [Loan.mk i cid e due st])
               (call_logs s)) = true.
Proof.
  rewrite !linked_spec. cbn [customers loans].
  intros H (c & Hc & E) l Hl.
  apply in_app_or in Hl. destruct Hl as [Hl | [<- | []]]; [auto|].
  exists c. split; [exact Hc | symmetry; exact E].
Qed.

Lemma linked_add_customer (s : db) (c : Customer.t) :
  linked s = true ->
  linked (mkdb (customers s ++ [c]) (loans s) (call_logs s)) = true.
Proof.
  rewrite !linked_spec. cbn [customers loans]. intros H l Hl.
  destruct (H l Hl) as (c' & Hc' & E). exists c'.
  split; [apply in_or_app; left; exact Hc' | exact E].
Qed.

Lemma seed_day_parts (today : PyDate.date) :
  seed_day today = true ->
  PyDate.check_date_fields today = true
  /\ 60 < PyDate.toordinal today <= PyDate.MAXORDINAL - 25.
Proof.
  unfold seed_day. rewrite !andb_true_iff, Z.ltb_lt, Z.leb_le. tauto.
Qed.

(** One pass of the inner loop writes one loan row of the kind
    [seed_demo] intends, for the customer just inserted. *)
Lemma seed_loan_spec (rnd : random) (today : PyDate.date) (cid : Z) (n : nat)
      (total : Z) (s : db) :
  random_ok rnd -> seed_day today = true ->
  exists l,
    seed_loan rnd today cid n total s
    = (mkdb (customers s) (loans s ++ [l]) (call_logs s),
       Ret ((n + 3)%nat, total + 1))
    /\ Loan.id l = next_id (map Loan.id (loans s))
    /\ Loan.customer_id l = cid
    /\ seeded_loan_ok today l = true.
Proof.
  intros [Hint Hch] Hday. destruct (seed_day_parts today Hday) as [Hc Ht].
  unfold PyDate.MAXORDINAL in Ht.
  unfold seed_loan, bind, lift, execute, ret, insert_loan_with_status.
  pose proof (Hch n ["due"; "paid"; "rescheduled"]%string ltac:(discriminate))
    as Hst.
  pose proof (Hint (n + 1)%nat 15 80 ltac:(lia)) as Hemi.
  set (st := choices rnd n ["due"; "paid"; "rescheduled"]%string) in *.
  set (e := randint rnd (n + 1) 15 80) in *.
  assert (Hdate : exists d k,
            (if String.eqb st "paid" then
               PyDate.add_days today (- randint rnd (n + 2) 15 60)
             else if String.eqb st "rescheduled" then
               PyDate.add_days today (randint rnd (n + 2) 10 25)
             else PyDate.add_days today (randint rnd (n + 2) (-10) 20))
            = Ret d
            /\ PyDate.check_date_fields d = true
            /\ PyDate.toordinal d = PyDate.toordinal today + k
            /\ (if String.eqb st "paid" then (-60 <=? k) && (k <=? -15)
                else if String.eqb st "rescheduled" then
                  (10 <=? k) && (k <=? 25)
                else String.eqb st "due" && (-10 <=? k) && (k <=? 20)) = true).
  { destruct Hst as [<- | [<- | [<- | []]]]; cbn [String.eqb Ascii.eqb Bool.eqb andb].
    - pose proof (Hint (n + 2)%nat (-10) 20 ltac:(lia)) as Hk.
      destruct (add_days_returns today (randint rnd (n + 2) (-10) 20)
                  ltac:(lia) ltac:(unfold PyDate.MAXORDINAL; lia))
        as (d & Hd & Hcd & Hod).
      exists d, (randint rnd (n + 2) (-10) 20).
      rewrite Hd. repeat split; try assumption.
      apply andb_true_iff. split; [apply Z.leb_le | apply Z.leb_le]; lia.
    - pose proof (Hint (n + 2)%nat 15 60 ltac:(lia)) as Hk.
      destruct (add_days_returns today (- randint rnd (n + 2) 15 60)
                  ltac:(lia) ltac:(unfold PyDate.MAXORDINAL; lia))
        as (d & Hd & Hcd & Hod).
      exists d, (- randint rnd (n + 2) 15 60).
      rewrite Hd. repeat split; try assumption.
      apply andb_true_iff. split; [apply Z.leb_le | apply Z.leb_le]; lia.
    - pose proof (Hint (n + 2)%nat 10 25 ltac:(lia)) as Hk.
      destruct (add_days_returns today (randint rnd (n + 2) 10 25)
                  ltac:(lia) ltac:(unfold PyDate.MAXORDINAL; lia))
        as (d & Hd & Hcd & Hod).
      exists d, (randint rnd (n + 2) 10 25).
      rewrite Hd. repeat split; try assumption.
      apply andb_true_iff. split; [apply Z.leb_le | apply Z.leb_le]; lia. }
  destruct Hdate as (d & k & -> & Hcd & Hod & Hk).
  eexists. split; [reflexivity|]. cbn [Loan.id Loan.customer_id].
  split; [reflexivity|]. split; [reflexivity|].
  unfold seeded_loan_ok.
  cbn [Loan.emi_amount Loan.due_date Loan.status].
  rewrite PyDateFacts.fromisoformat_isoformat by exact Hcd. cbv zeta.
  replace (PyDate.toordinal d - PyDate.toordinal today) with k by lia.
  rewrite Hk, andb_true_r, !andb_true_iff, !Z.leb_le, Z.eqb_eq.
  split; [split; [lia | lia] | apply Z.mod_mul; lia].
Qed.

Lemma seed_loans_spec (rnd : random) (today : PyDate.date) (cid : Z)
      (count : nat) :
  random_ok rnd -> seed_day today = true ->
  forall (n : nat) (total : Z) (s : db),
  exists new_loans,
    seed_loans rnd today cid count n total s
    = (mkdb (customers s) (loans s ++ new_loans) (call_logs s),
       Ret ((n + 3 * count)%nat, total + Z.of_nat count))
    /\ List.length new_loans = count
    /\ (wf_db s = true ->
        wf_db (mkdb (customers s) (loans s ++ new_loans) (call_logs s)) = true)
    /\ Forall (fun l => Loan.customer_id l = cid
                        /\ seeded_loan_ok today l = true) new_loans.
Proof.
  intros Hrnd Hday. induction count as [| count IH]; intros n total s.
  - exists []. cbn [seed_loans]. unfold ret. rewrite app_nil_r.
    replace (n + 3 * 0)%nat with n by lia.
    replace (total + Z.of_nat 0) with total by lia.
    destruct s. cbn [customers loans call_logs].
    repeat split; [auto | constructor].
  - cbn [seed_loans]. unfold bind.
    destruct (seed_loan_spec rnd today cid n total s Hrnd Hday)
      as (l & -> & Hid & Hcid & Hok).
    cbn [fst snd].
    destruct (IH (n + 3)%nat (total + 1)
                 (mkdb (customers s) (loans s ++ [l]) (call_logs s)))
      as (rest & -> & Hlen & Hwf & Hall).
    cbn [customers loans call_logs] in *.
    exists (l :: rest). rewrite <- app_assoc. cbn [app].
    replace (n + 3 + 3 * count)%nat with (n + 3 * S count)%nat by lia.
    replace (total + 1 + Z.of_nat count) with (total + Z.of_nat (S count))
      by lia.
    split; [reflexivity|]. split; [cbn [List.length]; lia|].
    split; [| constructor; [split; assumption | exact Hall]].
    intros Hs.
    replace (loans s ++ l :: rest) with ((loans s ++ [l]) ++ rest)
      by (rewrite <- app_assoc; reflexivity).
    apply Hwf. destruct l as [li lc le ld ls]. cbn [Loan.id] in Hid. subst li.
    apply wf_add_loan; [exact Hs|].
    unfold seeded_loan_ok in Hok. cbn [Loan.due_date] in Hok.
    unfold is_iso_date. destruct (PyDate.fromisoformat ld); [reflexivity|].
    rewrite andb_false_r in Hok. discriminate.
Qed.

Lemma seed_customers_spec (rnd : random) (today : PyDate.date)
      (cs : list (string * string * string)) :
  random_ok rnd -> seed_day today = true ->
  forall (n : nat) (total : Z) (s : db),
  wf_db s = true -> linked s = true ->
  exists new_customers new_loans,
    seed_customers rnd today cs n total s
    = (mkdb (customers s ++ new_customers) (loans s ++ new_loans) (call_logs s),
       Ret (total + Z.of_nat (List.length new_loans)))
    /\ map customer_entry new_customers = cs
    /\ (List.length cs <= List.length new_loans <= 2 * List.length cs)%nat
    /\ wf_db (mkdb (customers s ++ new_customers) (loans s ++ new_loans)
                   (call_logs s)) = true
    /\ linked (mkdb (customers s ++ new_customers) (loans s ++ new_loans)
                    (call_logs s)) = true
    /\ Forall (fun l => seeded_loan_ok today l = true) new_loans.
Proof.
  intros Hrnd Hday. induction cs as [| [[name phone] lang] rest IH];
    intros n total s Hwf Hlk.
  - exists [], []. cbn [seed_customers]. unfold ret. rewrite !app_nil_r.
    replace (total + Z.of_nat (List.length (@nil Loan.t))) with total
      by (cbn [List.length]; lia).
    destruct s. cbn [customers loans call_logs List.length map].
    repeat split; auto.
  - cbn [seed_customers]. unfold bind at 1. unfold execute, insert_customer.
    set (cid := next_id (map Customer.id (customers s))).
    set (c := Customer.mk cid name phone lang).
    set (s1 := mkdb (customers s ++ [c]) (loans s) (call_logs s)).
    pose proof (proj1 Hrnd n 1 2 ltac:(lia)) as Hk.
    set (k := randint rnd n 1 2) in *.
    unfold bind.
    destruct (seed_loans_spec rnd today cid (Z.to_nat k) Hrnd Hday
                (n + 1)%nat total s1) as (ls & -> & Hlen & Hwfl & Hall).
    cbn [fst snd]. subst s1. cbn [customers loans call_logs] in *.
    specialize (Hwfl (wf_add_customer s name phone lang Hwf)).
    assert (Hlk1 : linked (mkdb (customers s ++ [c]) (loans s ++ ls)
                                (call_logs s)) = true).
    { apply linked_spec. cbn [customers loans]. intros l Hl.
      apply in_app_or in Hl. destruct Hl as [Hl | Hl].
      - destruct (proj1 (linked_spec s) Hlk l Hl) as (c' & Hc' & E).
        exists c'. split; [apply in_or_app; left; exact Hc' | exact E].
      - rewrite Forall_forall in Hall. destruct (Hall l Hl) as [E _].
        exists c. split; [apply in_or_app; right; left; reflexivity|].
        exact E. }
    destruct (IH (n + 1 + 3 * Z.to_nat k)%nat (total + Z.of_nat (Z.to_nat k))
                 (mkdb (customers s ++ [c]) (loans s ++ ls) (call_logs s))
                 Hwfl Hlk1)
      as (cs' & ls' & -> & Hmap & Hcount & Hwf' & Hlk' & Hall').
    cbn [customers loans call_logs] in *.
    exists (c :: cs'), (ls ++ ls').
    rewrite <- !app_assoc in *. cbn [app] in *.
    rewrite length_app, Nat2Z.inj_add, Hlen.
    split; [f_equal; f_equal; lia|].
    split; [cbn [map]; rewrite Hmap; reflexivity|].
    split; [cbn [List.length]; lia|].
    split; [exact Hwf'|]. split; [exact Hlk'|].
    apply Forall_app. split; [| exact Hall'].
    apply Forall_forall. intros l Hl. rewrite Forall_forall in Hall.
    exact (proj2 (Hall l Hl)).
Qed.

(** Whatever the generator returns and whether a date overflows, the
    loops never touch the customers already there. *)
Lemma seed_loans_customers (rnd : random) (today : PyDate.date) (cid : Z)
      (count : nat) :
  forall (n : nat) (total : Z) (s : db),
    customers (fst (seed_loans rnd today cid count n total s)) = customers s.
Proof.
  induction count as [| count IH]; intros n total s; cbn [seed_loans];
    [reflexivity|].
  unfold bind at 1. unfold seed_loan, bind, lift, execute, ret,
    insert_loan_with_status.
  destruct (if String.eqb _ "paid" then _ else _) as [d |]; [| reflexivity].
  cbn [fst snd]. rewrite IH. reflexivity.
Qed.

Lemma seed_customers_grows (rnd : random) (today : PyDate.date)
      (cs : list (string * string * string)) :
  forall (n : nat) (total : Z) (s : db),
    (List.length (customers s) + Nat.min 1 (List.length cs)
     <= List.length (customers (fst (seed_customers rnd today cs n total s))))%nat.
Proof.
  induction cs as [| [[name phone] lang] rest IH]; intros n total s;
    cbn [seed_customers]; [unfold ret; cbn [fst List.length Nat.min]; lia|].
  unfold bind at 1. unfold execute, insert_customer. unfold bind.
  set (s1 := mkdb _ (loans s) (call_logs s)).
  pose proof (seed_loans_customers rnd today
                (next_id (map Customer.id (customers s)))
                (Z.to_nat (randint rnd n 1 2)) (n + 1)%nat total s1) as Hc.
  destruct (seed_loans rnd today _ _ _ total s1) as [s2 [r |]];
    cbn [fst] in *.
  - specialize (IH (fst r) (snd r) s2). rewrite Hc in IH.
    subst s1. cbn [customers] in IH. rewrite length_app in IH.
    cbn [List.length] in *. lia.
  - rewrite Hc. subst s1. cbn [customers]. rewrite length_app.
    cbn [List.length]. lia.
Qed.

Lemma seed_demo_existing (rnd : random) (today : PyDate.date) (s : db) :
  customers s <> [] ->
  seed_demo rnd today s
  = (s, Ret ("Database already contains "
             ++ str_of_int (Z.of_nat (List.length (customers s)))
             ++ " customers. To re-seed, please delete the 'emi_genie_streamlit.db' file and restart.")%string).
Proof.
  intros Hne. unfold seed_demo, bind, query_value, select_count_customers.
  destruct (customers s) as [| c cs] eqn:E; [contradiction|].
  replace (Z.of_nat (List.length (c :: cs)) >? 0) with true
    by (symmetry; apply Z.gtb_lt; cbn [List.length]; lia).
  reflexivity.
Qed.

(** X15. Seeding a consistent store without customers, on a day from
    which 60 days back and 25 days ahead are dates, with a generator that
    keeps its bounds: [seed_demo] returns its message with the numbers of
    rows written; the customers are the twelve of the list, in order; it
    writes between 12 and 24 loans, one or two per customer; every loan
    has an amount from 1500 to 8000 in hundreds, and is [paid] and due 15
    to 60 days ago, or [rescheduled] and due in 10 to 25 days, or [due]
    and due from 10 days ago to 20 days ahead; nothing is logged, and the
    store is consistent again. *)
Theorem seed_demo_fills_store (rnd : random) (today : PyDate.date) (s : db) :
  random_ok rnd -> seed_day today = true ->
  wf_db s = true -> linked s = true -> customers s = [] ->
  exists new_customers new_loans,
    let s' := mkdb new_customers (loans s ++ new_loans) (call_logs s) in
    seed_demo rnd today s
    = (s', Ret ("✅ Seeded 12 new customers and "
                ++ str_of_int (Z.of_nat (List.length new_loans))
                ++ " loans with varied statuses and due dates.")%string)
    /\ map customer_entry new_customers = customers_to_seed
    /\ (12 <= List.length new_loans <= 24)%nat
    /\ Forall (fun l => seeded_loan_ok today l = true) new_loans
    /\ wf_db s' = true /\ linked s' = true.
Proof.
  intros Hrnd Hday Hwf Hlk Hnone.
  destruct (seed_customers_spec rnd today customers_to_seed Hrnd Hday
              0%nat 0 s Hwf Hlk)
    as (cs & ls & Hrun & Hmap & Hcount & Hwf' & Hlk' & Hall).
  rewrite Hnone in *. cbn [app] in *.
  exists cs, ls. cbv zeta.
  unfold seed_demo, bind, query_value, select_count_customers.
  rewrite Hnone. cbn [List.length Z.of_nat Z.gtb Z.compare].
  rewrite Hrun. unfold ret. cbn [customers_to_seed List.length] in *.
  repeat split; try assumption; lia.
Qed.

Lemma seed_demo_fills_store_witness :
  random_ok lowest /\ seed_day jan1 = true
  /\ wf_db empty_db = true /\ linked empty_db = true
  /\ customers empty_db = []
  /\ exists new_customers new_loans,
       fst (seed_demo lowest jan1 empty_db)
       = mkdb new_customers new_loans []
       /\ (12 <= List.length new_loans <= 24)%nat.
Proof.
  assert (Hrnd : random_ok lowest).
  { split.
    - intros n a b Hab. cbn. lia.
    - intros n [| x population] Hne; [contradiction | left; reflexivity]. }
  split; [exact Hrnd|]. split; [reflexivity|]. split; [reflexivity|].
  split; [reflexivity|]. split; [reflexivity|].
  destruct (seed_demo_fills_store lowest jan1 empty_db Hrnd eq_refl eq_refl
              eq_refl eq_refl) as (cs & ls & Hrun & _ & Hcount & _).
  exists cs, ls. cbv zeta in Hrun. rewrite Hrun.
  split; [reflexivity | exact Hcount].
Defined.

(** X16. [seed_demo] seeds once.  When the store has a customer it
    returns the message with their number and changes nothing.  After a
    first call, whatever the generator returned and even if a date
    overflowed halfway, the store has a customer; so a second call, on
    any day and with any generator, changes nothing. *)
Theorem seed_demo_seeds_once
        (rnd rnd' : random) (today today' : PyDate.date) (s : db) :
  let already := fun s : db =>
    Ret ("Database already contains "
         ++ str_of_int (Z.of_nat (List.length (customers s)))
         ++ " customers. To re-seed, please delete the 'emi_genie_streamlit.db' file and restart.")%string in
  let s1 := fst (seed_demo rnd today s) in
  (customers s <> [] -> seed_demo rnd today s = (s, already s))
  /\ customers s1 <> []
  /\ seed_demo rnd' today' s1 = (s1, already s1).
Proof.
  cbv zeta.
  assert (Hne : customers (fst (seed_demo rnd today s)) <> []).
  { destruct (customers s) as [| c cs] eqn:E.
    - unfold seed_demo, bind, query_value, select_count_customers.
      rewrite E. cbn [List.length Z.of_nat Z.gtb Z.compare].
      pose proof (seed_customers_grows rnd today customers_to_seed 0%nat 0 s)
        as Hg.
      destruct (seed_customers rnd today customers_to_seed 0 0 s)
        as [s1 [total |]]; unfold ret; cbn [fst] in *;
        intros Hnil; rewrite Hnil in Hg;
        cbn [customers_to_seed List.length Nat.min] in Hg; lia.
    - rewrite seed_demo_existing by (rewrite E; discriminate).
      cbn [fst]. rewrite E. discriminate. }
  split; [apply seed_demo_existing|]. split; [exact Hne|].
  apply seed_demo_existing. exact Hne.
Qed.

(** * The second script *)

Lemma ap2_get_msg_entry (lang : string) :
  exists l0 msgs,
    In (l0, msgs) Ap2.LANG_MSGS
    /\ forall key kwargs,
         Ap2.get_msg lang key kwargs
         = match dict_item msgs key with
           | Raise e => Raise e
           | Ret t => format t kwargs
           end.
Proof.
  assert (Hen : exists en, dict_get Ap2.LANG_MSGS "en" = Some en)
    by (eexists; reflexivity).
  destruct Hen as [en Hen].
  destruct (dict_get Ap2.LANG_MSGS lang) as [m |] eqn:E.
  - exists lang, m. split; [apply dict_get_in; exact E|].
    intros key kwargs. unfold Ap2.get_msg, dict_item at 1. rewrite Hen, E.
    reflexivity.
  - exists "en", en. split; [apply dict_get_in; exact Hen|].
    intros key kwargs. unfold Ap2.get_msg, dict_item at 1. rewrite Hen, E.
    reflexivity.
Qed.

(** Every language of the second script has a reminder that formats
    with a name and an amount, and names both. *)
Lemma ap2_reminder_templates (n a : string) :
  forallb (fun entry : string * dict string =>
             match dict_item (snd entry) "reminder" with
             | Ret t =>
                 match format t [("name", n); ("amount", a)] with
                 | Ret _ =>
                     names_field None t "name" && names_field None t "amount"
                 | Raise _ => false
                 end
             | Raise _ => false
             end)
          Ap2.LANG_MSGS = true.
Proof. vm_compute. reflexivity. Qed.

Lemma ap2_reminder_text (lang n a : string) :
  exists text,
    Ap2.get_msg lang "reminder" [("name", n); ("amount", a)] = Ret text
    /\ contains text n /\ contains text a.
Proof.
  destruct (ap2_get_msg_entry lang) as (l0 & msgs & Hin & Hget).
  pose proof (ap2_reminder_templates n a) as Hall.
  rewrite forallb_forall in Hall. specialize (Hall _ Hin). cbn [snd] in Hall.
  rewrite Hget.
  destruct (dict_item msgs "reminder") as [t |]; [| discriminate].
  destruct (format t _) as [text |] eqn:Hf; [| discriminate].
  apply andb_true_iff in Hall. destruct Hall as [Hn Ha].
  exists text. split; [reflexivity|]. split.
  - destruct (format_names _ _ _ _ Hf Hn) as (v & Hv & Hc).
    injection Hv as <-. exact Hc.
  - destruct (format_names _ _ _ _ Hf Ha) as (v & Hv & Hc).
    injection Hv as <-. exact Hc.
Qed.

(** [place_call] of the second script with the mock channel. *)
Lemma ap2_place_call_mock (tw : twilio) (i : Z) (s : db) :
  USE_TWILIO tw = false ->
  Ap2.place_call tw i s
  = match select_loan_view i s with
    | [] => (s, Ret [("error", "Loan not found")])
    | (l, c) :: _ =>
        match Ap2.get_msg (Customer.language c) "reminder"
                [("name", Customer.name c);
                 ("amount", str_of_int (Loan.emi_amount l))] with
        | Raise e => (s, Raise e)
        | Ret text =>
            (fst (insert_call_log i "mock_call" text
                    (fst (insert_call_log i "call_initiated"
                            ("to " ++ Customer.phone c) s))),
             Ret [("status", "mock_call_logged"); ("text", text)])
        end
    end.
Proof.
  intros Hu.
  unfold Ap2.place_call, bind, query_all, lift, ret, insert_log, execute.
  destruct (select_loan_view i s) as [| [l c] rest]; [reflexivity|].
  destruct (Ap2.get_msg _ _ _); [| reflexivity].
  cbn. rewrite Hu. reflexivity.
Qed.

(** X17. [place_call] of the second script cannot fail with the mock
    channel, whatever the store holds, for a loan id SQLite can bind: it
    does not read the due date, and every language has a reminder.  It
    returns "Loan not found" and leaves the store as it was, or it
    returns [mock_call_logged] with a text that contains the customer's
    name and the amount, and the log has grown by [call_initiated] and
    [mock_call] for the loan.  (An id outside the 64-bit integers cannot
    be bound: [cur.execute] raises [OverflowError].) *)
Theorem ap2_mock_call_never_fails (tw : twilio) (i : Z) (s : db) :
  USE_TWILIO tw = false ->
  sqlite_int i = true ->
  (select_loan_view i s = []
   /\ Ap2.place_call tw i s = (s, Ret [("error", "Loan not found")]))
  \/ (exists l c rest text,
        select_loan_view i s = (l, c) :: rest
        /\ snd (Ap2.place_call tw i s)
           = Ret [("status", "mock_call_logged"); ("text", text)]
        /\ contains text (Customer.name c)
        /\ contains text (str_of_int (Loan.emi_amount l))
        /\ customers (fst (Ap2.place_call tw i s)) = customers s
        /\ loans (fst (Ap2.place_call tw i s)) = loans s
        /\ logged s (fst (Ap2.place_call tw i s))
           = [(i, "call_initiated", ("to " ++ Customer.phone c)%string);
              (i, "mock_call", text)]).
Proof.
  intros Hu _. rewrite (ap2_place_call_mock tw i s Hu).
  destruct (select_loan_view i s) as [| [l c] rest] eqn:Hv;
    [left; split; reflexivity|].
  right. exists l, c, rest.
  destruct (ap2_reminder_text (Customer.language c) (Customer.name c)
              (str_of_int (Loan.emi_amount l))) as (text & -> & Hn & Ha).
  exists text. cbn [fst snd insert_call_log customers loans call_logs].
  repeat split; try assumption. solve_logged.
Qed.

Lemma ap2_mock_call_never_fails_witness :
  USE_TWILIO mock = false
  /\ sqlite_int 2 = true
  /\ exists text,
       snd (Ap2.place_call mock 2 later_loan)
       = Ret [("status", "mock_call_logged"); ("text", text)]
       /\ contains text "B" /\ contains text "2500".
Proof.
  split; [reflexivity|]. split; [reflexivity|].
  destruct (ap2_mock_call_never_fails mock 2 later_loan eq_refl eq_refl)
    as [[Hv _] | (l & c & rest & text & Hv & Hr & Hn & Ha & _)].
  - discriminate Hv.
  - injection Hv as <- <- _. exists text.
    split; [exact Hr|]. split; [exact Hn | exact Ha].
Defined.

Lemma select_loan_view_same (i : Z) (s s0 : db) :
  customers s = customers s0 -> loans s = loans s0 ->
  select_loan_view i s = select_loan_view i s0.
Proof.
  intros Hc Hl. unfold select_loan_view, joined. rewrite Hc, Hl. reflexivity.
Qed.

Lemma ap2_call_each_mock (tw : twilio) (ids : list Z) (s0 : db) :
  USE_TWILIO tw = false ->
  forall s, customers s = customers s0 -> loans s = loans s0 ->
  exists evs,
    Ap2.call_each tw ids s
    = (mkdb (customers s) (loans s) (call_logs s ++ evs),
       map (fun i =>
              Toast ("Called loan " ++ str_of_int i ++ ": "
                     ++ match select_loan_view i s0 with
                        | [] => "failed"
                        | _ :: _ => "mock_call_logged"
                        end)%string) ids,
       Ret tt)
    /\ map (fun e => (CallLog.loan_id e, CallLog.event e)) evs
       = flat_map (fun i => match select_loan_view i s0 with
                            | [] => []
                            | _ :: _ => [(i, "call_initiated"); (i, "mock_call")]
                            end) ids.
Proof.
  intros Hu. induction ids as [| i rest IH]; intros s Hc Hl;
    cbn [Ap2.call_each map flat_map].
  - exists []. rewrite app_nil_r. destruct s. split; reflexivity.
  - rewrite (ap2_place_call_mock tw i s Hu).
    rewrite (select_loan_view_same i s s0 Hc Hl).
    destruct (select_loan_view i s0) as [| [l c] more].
    + destruct (IH s Hc Hl) as (evs & -> & Hevs).
      exists evs. split; [reflexivity | exact Hevs].
    + destruct (ap2_reminder_text (Customer.language c) (Customer.name c)
                  (str_of_int (Loan.emi_amount l))) as (text & -> & _).
      cbn [fst insert_call_log customers loans call_logs].
      match goal with
      | |- context [Ap2.call_each tw rest ?s1] =>
          destruct (IH s1 Hc Hl) as (evs & -> & Hevs)
      end.
      cbn [customers loans call_logs].
      eexists. rewrite <- !app_assoc. split; [reflexivity|].
      cbn [app map CallLog.loan_id CallLog.event]. rewrite Hevs. reflexivity.
Qed.

(** X18. The overdue button of the second script with the mock
    channel runs to its end on every store, even one with unreadable due
    dates or loans without customer: it shows one toast per overdue loan,
    in query order, saying [mock_call_logged], or [failed] when the loan
    has no customer row, then the closing message with the number of
    loans (a warning when there is none); customers and loans are left as
    they were, and the log grows by [call_initiated] and [mock_call] for
    each loan that was called. *)
Theorem ap2_overdue_button_reports (tw : twilio) (today : PyDate.date) (s : db) :
  USE_TWILIO tw = false ->
  let overdue := select_overdue (PyDate.isoformat today) s in
  exists evs,
    Ap2.call_all_overdue tw today s
    = (mkdb (customers s) (loans s) (call_logs s ++ evs),
       match overdue with
       | [] => [Warning "No overdue loans to call."]
       | _ :: _ =>
           map (fun i =>
                  Toast ("Called loan " ++ str_of_int i ++ ": "
                         ++ match select_loan_view i s with
                            | [] => "failed"
                            | _ :: _ => "mock_call_logged"
                            end)%string) overdue
           ++ [Success ("Finished calling all "
                        ++ str_of_int (Z.of_nat (List.length overdue))
                        ++ " overdue customers.")%string]
       end,
       Ret tt)
    /\ map (fun e => (CallLog.loan_id e, CallLog.event e)) evs
       = flat_map (fun i => match select_loan_view i s with
                            | [] => []
                            | _ :: _ => [(i, "call_initiated"); (i, "mock_call")]
                            end) overdue.
Proof.
  intros Hu. cbv zeta. unfold Ap2.call_all_overdue.
  destruct (select_overdue (PyDate.isoformat today) s) as [| i rest].
  - exists []. rewrite app_nil_r. destruct s. split; reflexivity.
  - destruct (ap2_call_each_mock tw (i :: rest) s Hu s eq_refl eq_refl)
      as (evs & -> & Hevs).
    exists evs. split; [reflexivity | exact Hevs].
Qed.

Lemma ap2_overdue_button_reports_witness :
  USE_TWILIO mock = false
  /\ snd (fst (Ap2.call_all_overdue mock jan1 two_loans))
     = [Toast "Called loan 1: mock_call_logged";
        Toast "Called loan 2: mock_call_logged";
        Success "Finished calling all 2 overdue customers."].
Proof.
  split; [reflexivity|].
  destruct (ap2_overdue_button_reports mock jan1 two_loans eq_refl)
    as (evs & Hrun & _).
  cbv zeta in Hrun. rewrite Hrun. reflexivity.
Defined.

Lemma ap2_seed_each_spec (clock : nat -> PyDate.date)
      (cs : list (string * string * string)) :
  forall (k : nat) (s : db),
  wf_db s = true -> linked s = true ->
  (forall j, (k <= j < k + List.length cs)%nat ->
     PyDate.check_date_fields (clock j) = true) ->
  exists new_customers new_loans,
    Ap2.seed_each clock cs k s
    = (mkdb (customers s ++ new_customers) (loans s ++ new_loans) (call_logs s),
       Ret tt)
    /\ map customer_entry new_customers = cs
    /\ map (fun l => (Loan.emi_amount l, Loan.due_date l, Loan.status l))
           new_loans
       = map (fun j => (4000, PyDate.isoformat (clock j), "due"))
             (seq k (List.length cs))
    /\ wf_db (mkdb (customers s ++ new_customers) (loans s ++ new_loans)
                   (call_logs s)) = true
    /\ linked (mkdb (customers s ++ new_customers) (loans s ++ new_loans)
                    (call_logs s)) = true.
Proof.
  induction cs as [| [[name phone] lang] rest IH]; intros k s Hwf Hlk Hclock.
  - exists [], []. cbn [Ap2.seed_each]. unfold ret. rewrite !app_nil_r.
    destruct s. cbn [customers loans call_logs map List.length seq].
    repeat split; auto.
  - cbn [Ap2.seed_each]. unfold bind, execute, insert_customer, insert_loan.
    cbn [fst snd customers loans call_logs].
    set (cid := next_id (map Customer.id (customers s))).
    set (c := Customer.mk cid name phone lang).
    set (l := Loan.mk (next_id (map Loan.id (loans s))) cid 4000
                      (PyDate.isoformat (clock k)) "due").
    assert (Hwf1 : wf_db (mkdb (customers s ++ [c]) (loans s ++ [l])
                               (call_logs s)) = true).
    { apply (wf_add_loan (mkdb (customers s ++ [c]) (loans s) (call_logs s))).
      - apply wf_add_customer. exact Hwf.
      - apply is_iso_date_isoformat. apply Hclock. cbn [List.length]. lia. }
    assert (Hlk1 : linked (mkdb (customers s ++ [c]) (loans s ++ [l])
                                (call_logs s)) = true).
    { apply (linked_add_loan (mkdb (customers s ++ [c]) (loans s) (call_logs s))).
      - apply linked_add_customer. exact Hlk.
      - exists c. split; [apply in_or_app; right; left; reflexivity|].
        reflexivity. }
    destruct (IH (S k) _ Hwf1 Hlk1) as (cs' & ls' & -> & Hmap & Hloans & Hwf' & Hlk').
    { intros j Hj. apply Hclock. cbn [List.length]. lia. }
    cbn [customers loans call_logs] in *.
    exists (c :: cs'), (l :: ls'). rewrite <- !app_assoc in *. cbn [app] in *.
    split; [reflexivity|].
    split; [cbn [map]; rewrite Hmap; reflexivity|].
    split; [cbn [map List.length seq]; rewrite Hloans; reflexivity|].
    split; assumption.
Qed.

Lemma ap2_seed_each_grows (clock : nat -> PyDate.date)
      (cs : list (string * string * string)) :
  forall (k : nat) (s : db),
    (List.length (customers s) + List.length cs
     = List.length (customers (fst (Ap2.seed_each clock cs k s))))%nat.
Proof.
  induction cs as [| [[name phone] lang] rest IH]; intros k s;
    cbn [Ap2.seed_each]; [unfold ret; cbn [fst List.length]; lia|].
  unfold bind, execute, insert_customer, insert_loan.
  cbn [fst snd customers loans call_logs].
  rewrite <- IH. cbn [customers List.length]. rewrite length_app.
  cbn [List.length]. lia.
Qed.

(** X19. [seed_demo] of the second script.  When the store has a
    customer it answers "Already seeded" and changes nothing, so a second
    call never adds rows.  On a consistent store without customers it
    writes the four demo customers, in order, and one loan of 4000 for
    each, [due] on the day the clock shows in that pass; the store is
    consistent again; and when the clock shows the same day in all four
    passes, the four loans are at once on that day's overdue list. *)
Theorem ap2_seed_demo_spec
        (clock clock' : nat -> PyDate.date) (today : PyDate.date) (s : db) :
  wf_db s = true -> linked s = true ->
  (forall k, (k < 4)%nat -> PyDate.check_date_fields (clock k) = true) ->
  (customers s <> [] -> Ap2.seed_demo clock s = (s, Ret "Already seeded"))
  /\ (let s1 := fst (Ap2.seed_demo clock s) in
      Ap2.seed_demo clock' s1 = (s1, Ret "Already seeded"))
  /\ (customers s = [] ->
      exists new_customers new_loans,
        let s' := mkdb new_customers (loans s ++ new_loans) (call_logs s) in
        Ap2.seed_demo clock s = (s', Ret "Seeded demo customers and loans.")
        /\ map customer_entry new_customers = Ap2.demo_customers
        /\ map (fun l => (Loan.emi_amount l, Loan.due_date l, Loan.status l))
               new_loans
           = map (fun k => (4000, PyDate.isoformat (clock k), "due")) [0; 1; 2; 3]%nat
        /\ wf_db s' = true /\ linked s' = true
        /\ ((forall k, (k < 4)%nat -> clock k = today) ->
            forall l, In l new_loans ->
              In (Loan.id l) (select_overdue (PyDate.isoformat today) s'))).
Proof.
  intros Hwf Hlk Hclock.
  assert (Hex : forall ck t, customers t <> [] ->
            Ap2.seed_demo ck t = (t, Ret "Already seeded")).
  { intros ck t Hne.
    unfold Ap2.seed_demo, bind, query_value, select_count_customers.
    destruct (customers t) as [| c cs] eqn:E; [contradiction|].
    replace (Z.of_nat (List.length (c :: cs)) >? 0) with true
      by (symmetry; apply Z.gtb_lt; cbn [List.length]; lia).
    reflexivity. }
  split; [apply Hex|]. split.
  - cbv zeta. apply Hex.
    destruct (customers s) as [| c cs] eqn:E.
    + unfold Ap2.seed_demo, bind, query_value, select_count_customers.
      rewrite E. cbn [List.length Z.of_nat Z.gtb Z.compare].
      pose proof (ap2_seed_each_grows clock Ap2.demo_customers 0 s) as Hg.
      destruct (Ap2.seed_each clock Ap2.demo_customers 0 s) as [s1 [u |]];
        unfold ret; cbn [fst] in *; intros Hnil; rewrite Hnil in Hg;
        cbn [Ap2.demo_customers List.length] in Hg; lia.
    + rewrite Hex by (rewrite E; discriminate). cbn [fst]. rewrite E.
      discriminate.
  - intros Hnone.
    destruct (ap2_seed_each_spec clock Ap2.demo_customers 0 s Hwf Hlk)
      as (cs & ls & Hrun & Hmap & Hloans & Hwf' & Hlk').
    { intros j Hj. apply Hclock. cbn [Ap2.demo_customers List.length] in Hj. lia. }
    rewrite Hnone in *. cbn [app] in *.
    exists cs, ls. cbv zeta.
    unfold Ap2.seed_demo, bind, query_value, select_count_customers.
    rewrite Hnone. cbn [List.length Z.of_nat Z.gtb Z.compare].
    rewrite Hrun. unfold ret.
    split; [reflexivity|]. split; [exact Hmap|]. split; [exact Hloans|].
    split; [exact Hwf'|]. split; [exact Hlk'|].
    intros Hsame l Hl. unfold select_overdue. apply in_map. apply filter_In.
    cbn [loans]. split; [apply in_or_app; right; exact Hl|].
    assert (Hrow : In (Loan.emi_amount l, Loan.due_date l, Loan.status l)
                      (map (fun k => (4000, PyDate.isoformat (clock k), "due"))
                           [0; 1; 2; 3]%nat)).
    { cbn [Ap2.demo_customers List.length seq] in Hloans. rewrite <- Hloans.
      apply (in_map (fun l => (Loan.emi_amount l, Loan.due_date l, Loan.status l))).
      exact Hl. }
    apply in_map_iff in Hrow. destruct Hrow as (k & [= _ Hd Hs] & Hk).
    assert (Hk4 : (k < 4)%nat)
      by (cbn [In] in Hk; lia).
    rewrite <- Hd, <- Hs, (Hsame k Hk4).
    apply andb_true_iff. split; [| reflexivity].
    rewrite PyDateFacts.isoformat_leb
      by (rewrite <- (Hsame k Hk4); apply Hclock; exact Hk4).
    unfold PyDate.leb. rewrite !Z.eqb_refl, Z.leb_refl, !orb_true_r.
    reflexivity.
Qed.

Lemma ap2_seed_demo_spec_witness :
  wf_db empty_db = true /\ linked empty_db = true
  /\ (forall k, (k < 4)%nat -> PyDate.check_date_fields jan1 = true)
  /\ Ap2.seed_demo (fun _ => jan4)
       (fst (Ap2.seed_demo (fun _ => jan1) empty_db))
     = (fst (Ap2.seed_demo (fun _ => jan1) empty_db), Ret "Already seeded").
Proof.
  split; [reflexivity|]. split; [reflexivity|].
  split; [intros k _; reflexivity|].
  exact (proj1 (proj2 (ap2_seed_demo_spec (fun _ => jan1) (fun _ => jan4) jan1
                         empty_db eq_refl eq_refl (fun k _ => eq_refl)))).
Defined.

Lemma bump_get (k k' : string) (d : dict Z) :
  Ap2.get_or_zero (Ap2.bump k d) k'
  = Ap2.get_or_zero d k' + (if String.eqb k k' then 1 else 0).
Proof.
  unfold Ap2.get_or_zero.
  induction d as [| [k0 n] d IH]; cbn [Ap2.bump dict_get].
  - destruct (String.eqb k k'); reflexivity.
  - destruct (String.eqb k0 k) eqn:E0; cbn [dict_get].
    + apply String.eqb_eq in E0. subst k0.
      destruct (String.eqb k k'); lia.
    + destruct (String.eqb k0 k') eqn:E1; [| exact IH].
      apply String.eqb_eq in E1. subst k0.
      rewrite String.eqb_sym, E0. lia.
Qed.

Lemma bump_sum (k : string) (d : dict Z) :
  fold_right Z.add 0 (map snd (Ap2.bump k d))
  = fold_right Z.add 0 (map snd d) + 1.
Proof.
  induction d as [| [k0 n] d IH]; cbn [Ap2.bump map snd fold_right]; [lia|].
  destruct (String.eqb k0 k); cbn [map snd fold_right]; lia.
Qed.

Lemma status_counts_fold (ls : list Loan.t) :
  forall d : dict Z,
    let d' := fold_left (fun d l => Ap2.bump (Loan.status l) d) ls d in
    fold_right Z.add 0 (map snd d')
    = fold_right Z.add 0 (map snd d) + Z.of_nat (List.length ls)
    /\ forall k,
         Ap2.get_or_zero d' k
         = Ap2.get_or_zero d k
           + Z.of_nat (List.length
                         (filter (fun l => String.eqb (Loan.status l) k) ls)).
Proof.
  induction ls as [| l ls IH]; intros d; cbn [fold_left List.length filter].
  - split; [lia | intros k; cbn [List.length]; lia].
  - cbv zeta in *. destruct (IH (Ap2.bump (Loan.status l) d)) as [Hs Hg].
    split.
    + rewrite Hs, bump_sum. lia.
    + intros k. rewrite Hg, bump_get.
      destruct (String.eqb (Loan.status l) k); cbn [List.length]; lia.
Qed.

Lemma filter_and_length {A : Type} (p q : A -> bool) (rows : list A) :
  (List.length (filter (fun x => p x && q x) rows)
   <= List.length (filter q rows))%nat.
Proof.
  induction rows as [| r rows IH]; cbn [filter List.length]; [lia|].
  destruct (p r), (q r); cbn [andb List.length]; lia.
Qed.

Lemma count_status_disjoint (s : db) :
  count_status "paid" s + count_status "rescheduled" s + count_status "due" s
  <= Z.of_nat (List.length (loans s)).
Proof.
  unfold count_status. induction (loans s) as [| l ls IH];
    cbn [filter List.length]; [lia|].
  assert (H1 : String.eqb "paid" "rescheduled" = false) by reflexivity.
  assert (H2 : String.eqb "paid" "due" = false) by reflexivity.
  assert (H3 : String.eqb "rescheduled" "due" = false) by reflexivity.
  destruct (String.eqb (Loan.status l) "paid") eqn:E1.
  - apply String.eqb_eq in E1. rewrite E1, H1, H2.
    cbn [List.length]. lia.
  - destruct (String.eqb (Loan.status l) "rescheduled") eqn:E2.
    + apply String.eqb_eq in E2. rewrite E2, H3.
      cbn [List.length]. lia.
    + destruct (String.eqb (Loan.status l) "due"); cbn [List.length]; lia.
Qed.

(** The dashboard reads the numbers of rows off the groups. *)
Lemma ap2_dashboard_eq (today : PyDate.date) (s : db) :
  Ap2.dashboard today s
  = Ap2.mkmetrics (Z.of_nat (List.length (loans s)))
                  (count_status "paid" s) (count_status "rescheduled" s)
                  (Z.of_nat (List.length
                               (select_overdue (PyDate.isoformat today) s))).
Proof.
  unfold Ap2.dashboard, Ap2.status_data. cbv zeta.
  destruct (status_counts_fold (loans s) []) as [Hs Hg]. cbv zeta in Hs, Hg.
  rewrite Hs, !Hg. cbn [map fold_right Ap2.get_or_zero dict_get].
  reflexivity.
Qed.

(** X20. The numbers of the dashboard of the second script are the
    numbers of rows: the total, a sum over the groups of the [GROUP BY],
    is the number of loans; the paid and rescheduled counts are the
    numbers of loans with those statuses (zero when the status has no
    group); the overdue count is at most the number of [due] loans; so
    the three counts never add up to more than the total. *)
Theorem ap2_dashboard_counts (today : PyDate.date) (s : db) :
  let m := Ap2.dashboard today s in
  Ap2.total_loans m = Z.of_nat (List.length (loans s))
  /\ Ap2.paid_loans m = count_status "paid" s
  /\ Ap2.rescheduled_loans m = count_status "rescheduled" s
  /\ 0 <= Ap2.overdue_loans m <= count_status "due" s
  /\ Ap2.paid_loans m + Ap2.rescheduled_loans m + Ap2.overdue_loans m
     <= Ap2.total_loans m.
Proof.
  cbv zeta. rewrite ap2_dashboard_eq.
  cbn [Ap2.total_loans Ap2.paid_loans Ap2.rescheduled_loans Ap2.overdue_loans].
  assert (Ho : 0 <= Z.of_nat (List.length (select_overdue (PyDate.isoformat today) s))
               <= count_status "due" s).
  { unfold select_overdue, count_status. rewrite length_map.
    pose proof (filter_and_length
                  (fun l => String.leb (Loan.due_date l) (PyDate.isoformat today))
                  (fun l => String.eqb (Loan.status l) "due") (loans s)) as Hle.
    split; [apply Nat2Z.is_nonneg | apply Nat2Z.inj_le; exact Hle]. }
  pose proof (count_status_disjoint s).
  repeat split; lia.
Qed.

Lemma count_set_paid (k : string) (i : Z) (rows : list Loan.t) (l : Loan.t) :
  StronglySorted Z.lt (map Loan.id rows) -> In l rows -> Loan.id l = i ->
  Z.of_nat (List.length (filter (fun l => String.eqb (Loan.status l) k)
                                (map (set_paid i) rows)))
  = Z.of_nat (List.length (filter (fun l => String.eqb (Loan.status l) k) rows))
    + (if String.eqb "paid" k then 1 else 0)
    - (if String.eqb (Loan.status l) k then 1 else 0).
Proof.
  intros Hs Hl <-. revert Hs Hl.
  induction rows as [| r rows IH]; cbn [map]; intros Hs Hl; [easy|].
  inversion Hs as [| ? ? Hs' Hall]; subst. rewrite Forall_forall in Hall.
  destruct Hl as [-> | Hl].
  - assert (Hrest : map (set_paid (Loan.id l)) rows = rows).
    { apply (map_update_other
               (fun l => Loan.mk (Loan.id l) (Loan.customer_id l)
                                 (Loan.emi_amount l) (Loan.due_date l) "paid")).
      intros y Hy. specialize (Hall _ (in_map Loan.id _ _ Hy)). lia. }
    rewrite Hrest. unfold set_paid at 1. rewrite Z.eqb_refl.
    cbn [filter Loan.status].
    destruct (String.eqb "paid" k), (String.eqb (Loan.status l) k);
      cbn [List.length]; lia.
  - assert (Hne : Loan.id r <> Loan.id l)
      by (specialize (Hall _ (in_map Loan.id _ _ Hl)); lia).
    unfold set_paid at 1. apply Z.eqb_neq in Hne.
    rewrite Hne. cbn [filter]. specialize (IH Hs' Hl).
    destruct (String.eqb (Loan.status r) k); cbn [List.length]; lia.
Qed.

Lemma overdue_after_set_paid (today : string) (i : Z) (rows : list Loan.t) :
  (List.length (filter (fun l => String.leb (Loan.due_date l) today
                                 && String.eqb (Loan.status l) "due")
                       (map (set_paid i) rows))
   <= List.length (filter (fun l => String.leb (Loan.due_date l) today
                                    && String.eqb (Loan.status l) "due")
                          rows))%nat.
Proof.
  induction rows as [| r rows IH]; cbn [map filter List.length]; [lia|].
  assert (Hr : (Loan.due_date (set_paid i r) = Loan.due_date r
                /\ Loan.status (set_paid i r) = "paid")
               \/ set_paid i r = r)
    by (unfold set_paid; destruct (Loan.id r =? i); [left | right];
        repeat split).
  destruct Hr as [[Hd Hs] | Hr].
  - rewrite Hd, Hs.
    assert (H : String.eqb "paid" "due" = false) by reflexivity.
    rewrite H, andb_false_r.
    destruct (_ && _); cbn [List.length]; lia.
  - rewrite Hr. destruct (_ && _); cbn [List.length]; lia.
Qed.

(** X21. What marking a loan paid does to the dashboard of the second
    script, in a consistent store: the total stays; the paid count grows
    by one unless the loan was paid already, in which case no number
    changes on account of the status; the rescheduled count drops by one
    when the loan was rescheduled; and the overdue count does not grow. *)
Theorem ap2_mark_paid_moves_counts
        (today : PyDate.date) (s : db) (i : Z) (st : string) :
  wf_db s = true -> status_of s i = Some st ->
  let m := Ap2.dashboard today s in
  let m' := Ap2.dashboard today (fst (mark_paid i s)) in
  Ap2.total_loans m' = Ap2.total_loans m
  /\ Ap2.paid_loans m'
     = Ap2.paid_loans m + (if String.eqb st "paid" then 0 else 1)
  /\ Ap2.rescheduled_loans m'
     = Ap2.rescheduled_loans m - (if String.eqb st "rescheduled" then 1 else 0)
  /\ Ap2.overdue_loans m' <= Ap2.overdue_loans m.
Proof.
  intros Hwf Hst. cbv zeta. rewrite !ap2_dashboard_eq, mark_paid_store.
  cbn [Ap2.total_loans Ap2.paid_loans Ap2.rescheduled_loans Ap2.overdue_loans].
  unfold count_status, select_overdue. cbn [loans].
  destruct (wf_db_parts s Hwf) as [Hasc _]. apply ascending_sorted in Hasc.
  rewrite status_of_find_loan in Hst.
  destruct (find_loan s i) as [l |] eqn:E; [| discriminate].
  injection Hst as Hst. apply find_loan_some in E. destruct E as [Hl Hi].
  rewrite !(count_set_paid _ i (loans s) l Hasc Hl Hi), Hst.
  rewrite !length_map.
  split; [reflexivity|]. split; [| split].
  - cbn [String.eqb Ascii.eqb Bool.eqb andb].
    destruct (String.eqb st "paid"); lia.
  - assert (H1 : String.eqb "paid" "rescheduled" = false) by reflexivity.
    rewrite H1. lia.
  - apply Nat2Z.inj_le. apply overdue_after_set_paid.
Qed.

Lemma ap2_mark_paid_moves_counts_witness :
  wf_db two_loans = true /\ status_of two_loans 1 = Some "due"
  /\ Ap2.paid_loans (Ap2.dashboard jan1 two_loans) = 0
  /\ Ap2.paid_loans (Ap2.dashboard jan1 (fst (mark_paid 1 two_loans))) = 0 + 1.
Proof.
  split; [reflexivity|]. split; [reflexivity|]. split; [reflexivity|].
  exact (proj1 (proj2 (ap2_mark_paid_moves_counts jan1 two_loans 1 "due"
                         eq_refl eq_refl))).
Defined.

(** * The loan picker *)

(** [str] of an integer is made of digits and a sign. *)
Lemma string_of_uint_no_char (c : ascii) (d : Decimal.uint) :
  has_char c "0123456789-" = false ->
  has_char c (NilEmpty.string_of_uint d) = false.
Proof.
  cbn [has_char]. rewrite !orb_false_iff.
  intros (H0 & H1 & H2 & H3 & H4 & H5 & H6 & H7 & H8 & H9 & _).
  induction d; cbn [NilEmpty.string_of_uint has_char];
    rewrite ?IHd, ?H0, ?H1, ?H2, ?H3, ?H4, ?H5, ?H6, ?H7, ?H8, ?H9;
    reflexivity.
Qed.

Lemma str_of_int_no_char (c : ascii) (n : Z) :
  has_char c "0123456789-" = false -> has_char c (str_of_int n) = false.
Proof.
  intros Hc. pose proof (string_of_uint_no_char c) as Hu.
  assert (Hz : has_char c "0" = false /\ Ascii.eqb "-" c = false).
  { revert Hc. cbn [has_char]. rewrite !orb_false_iff. tauto. }
  destruct Hz as [Hz Hm].
  unfold str_of_int, NilZero.string_of_int, NilZero.string_of_uint.
  destruct (Z.to_int n) as [d | d]; cbn [has_char]; rewrite ?Hm, ?orb_false_l;
    (destruct d; [exact Hz | apply Hu; exact Hc ..]).
Qed.

Lemma str_of_int_no_space (n : Z) : has_char " " (str_of_int n) = false.
Proof. apply str_of_int_no_char. reflexivity. Qed.

Lemma str_of_int_inj (a b : Z) : str_of_int a = str_of_int b -> a = b.
Proof.
  unfold str_of_int. intros H. apply DecimalZ.to_int_inj.
  assert (Hnn : forall n, Z.to_int n <> Decimal.Pos Decimal.Nil
                          /\ Z.to_int n <> Decimal.Neg Decimal.Nil).
  { intros [| p | p]; cbn; split; try discriminate;
      intros [= E]; exact (DecimalPos.Unsigned.to_uint_nonnil p E). }
  pose proof (NilZero.isi (Z.to_int a) (proj1 (Hnn a)) (proj2 (Hnn a))) as Ha.
  pose proof (NilZero.isi (Z.to_int b) (proj1 (Hnn b)) (proj2 (Hnn b))) as Hb.
  rewrite H in Ha. rewrite Ha in Hb. injection Hb as Hb. exact Hb.
Qed.

(** Two texts without the character [c] that are followed by [c] in the
    same text are the same, and so is what follows. *)
Lemma before_char (c : ascii) (a b r1 r2 : string) :
  has_char c a = false -> has_char c b = false ->
  (a ++ String c r1)%string = (b ++ String c r2)%string -> a = b /\ r1 = r2.
Proof.
  revert b. induction a as [| c1 a IH]; intros [| c2 b]; cbn [has_char append].
  - intros _ _ [= E]. split; [reflexivity | exact E].
  - intros _ Hb [= Hc _]. subst c2. rewrite Ascii.eqb_refl in Hb.
    discriminate Hb.
  - intros Ha _ [= Hc _]. subst c1. rewrite Ascii.eqb_refl in Ha.
    discriminate Ha.
  - intros Ha Hb [= -> E]. apply orb_false_iff in Ha, Hb.
    destruct (IH b (proj2 Ha) (proj2 Hb) E) as [-> ->].
    split; reflexivity.
Qed.

(** A label names one loan id. *)
Lemma loan_label_id (upper : string -> string) (r r' : Loan.t * Customer.t) :
  loan_label upper r = loan_label upper r' ->
  Loan.id (fst r) = Loan.id (fst r').
Proof.
  unfold loan_label. intros H. apply str_of_int_inj.
  cbn [append] in H. injection H as H.
  exact (proj1 (before_char " " _ _ _ _ (str_of_int_no_space _)
                  (str_of_int_no_space _) H)).
Qed.

Lemma dict_set_get {V : Type} (d : dict V) (k k' : string) (v : V) :
  dict_get (dict_set d k v) k'
  = if String.eqb k k' then Some v else dict_get d k'.
Proof.
  induction d as [| [k0 v0] d IH]; cbn [dict_set dict_get]; [reflexivity|].
  destruct (String.eqb k0 k) eqn:E0; cbn [dict_get].
  - apply String.eqb_eq in E0. subst k0.
    destruct (String.eqb k k'); reflexivity.
  - rewrite IH. destruct (String.eqb k0 k') eqn:E1; [| reflexivity].
    apply String.eqb_eq in E1. subst k0. rewrite String.eqb_sym, E0.
    reflexivity.
Qed.

Lemma dict_set_keys {V : Type} (d : dict V) (k k' : string) (v : V) :
  In k' (map fst (dict_set d k v)) <-> k' = k \/ In k' (map fst d).
Proof.
  induction d as [| [k0 v0] d IH]; cbn [dict_set map fst In].
  - split; [intros [E | []]; left; symmetry; exact E
           | intros [E | []]; left; symmetry; exact E].
  - destruct (String.eqb k0 k) eqn:E0; cbn [map fst In].
    + apply String.eqb_eq in E0. subst k0. split.
      * intros [E | H]; [right; left; exact E | right; right; exact H].
      * intros [E | [E | H]];
          [left; symmetry; exact E | left; exact E | right; exact H].
    + rewrite IH. tauto.
Qed.

Lemma in_insert_by_due_date (x r : Loan.t * Customer.t)
      (rows : list (Loan.t * Customer.t)) :
  In x (insert_by_due_date r rows) <-> x = r \/ In x rows.
Proof.
  induction rows as [| r' rest IH]; cbn [insert_by_due_date In].
  - split; [intros [E | []]; left; symmetry; exact E
           | intros [E | []]; left; symmetry; exact E].
  - destruct (String.ltb _ _); cbn [In]; [rewrite IH|];
      intuition (subst; auto).
Qed.

Lemma in_select_all_loans (s : db) (r : Loan.t * Customer.t) :
  In r (select_all_loans s) <-> In r (joined s).
Proof.
  unfold select_all_loans. induction (joined s) as [| r' rows IH];
    cbn [fold_right In]; [tauto|].
  rewrite in_insert_by_due_date, IH. intuition (subst; auto).
Qed.

(** What the comprehension holds: the keys are the labels of the rows,
    and a label maps to the id of a row with that label. *)
Lemma loan_map_fold (upper : string -> string)
      (rows : list (Loan.t * Customer.t)) :
  forall d : dict Z,
    let d' := fold_left (fun d r => dict_set d (loan_label upper r)
                                             (Loan.id (fst r))) rows d in
    (forall k i, dict_get d' k = Some i ->
       dict_get d k = Some i
       \/ exists r, In r rows /\ loan_label upper r = k /\ Loan.id (fst r) = i)
    /\ (forall r, In r rows -> exists i, dict_get d' (loan_label upper r) = Some i)
    /\ (forall k, dict_get d k <> None -> dict_get d' k <> None)
    /\ (forall k, In k (map fst d') <->
          In k (map fst d) \/ exists r, In r rows /\ loan_label upper r = k).
Proof.
  induction rows as [| r rows IH]; intros d; cbn [fold_left]; cbv zeta.
  - repeat split; auto.
    + intros _ [].
    + intros [H | (r & [] & _)]. exact H.
  - destruct (IH (dict_set d (loan_label upper r) (Loan.id (fst r))))
      as (Hget & Hrows & Hkeep & Hkeys). cbv zeta in *.
    split; [| split; [| split]].
    + intros k i Hk. destruct (Hget k i Hk) as [Hd | (r' & Hr' & E & Hi)].
      * rewrite dict_set_get in Hd.
        destruct (String.eqb (loan_label upper r) k) eqn:Ek.
        -- apply String.eqb_eq in Ek. injection Hd as <-.
           right. exists r. split; [left; reflexivity | split; [exact Ek | reflexivity]].
        -- left. exact Hd.
      * right. exists r'. split; [right; exact Hr' | split; assumption].
    + intros r' [<- | Hr']; [| apply Hrows; exact Hr'].
      assert (Hne : dict_get
                      (fold_left (fun d r => dict_set d (loan_label upper r)
                                                      (Loan.id (fst r)))
                                 rows
                                 (dict_set d (loan_label upper r)
                                           (Loan.id (fst r))))
                      (loan_label upper r) <> None).
      { apply Hkeep. rewrite dict_set_get, String.eqb_refl. discriminate. }
      destruct (dict_get _ (loan_label upper r)) as [i |];
        [exists i; reflexivity | contradiction].
    + intros k Hk. apply Hkeep. rewrite dict_set_get.
      destruct (String.eqb _ k); [discriminate | exact Hk].
    + intros k. rewrite Hkeys, dict_set_keys. split.
      * intros [[-> | H] | (r' & Hr' & E)].
        -- right. exists r. split; [left; reflexivity | reflexivity].
        -- left. exact H.
        -- right. exists r'. split; [right; exact Hr' | exact E].
      * intros [H | (r' & [<- | Hr'] & E)].
        -- left. right. exact H.
        -- left. left. symmetry. exact E.
        -- right. exists r'. split; assumption.
Qed.

(** X22. The loan picker of the page never mixes two loans up and
    never offers a loan that is not there, whatever the store holds.
    Every joined loan row has its label among the options, and the label
    maps to the id of that loan; every option is the label of a joined
    row; so for the id the picker hands to the buttons, neither
    [place_call] nor [send_payment_link] nor [reschedule_loan] answers
    "Loan not found". *)
Theorem picked_loan_is_in_store (upper : string -> string) (tw : twilio) (s : db) :
  (forall r, In r (joined s) ->
     dict_get (loan_map upper s) (loan_label upper r) = Some (Loan.id (fst r)))
  /\ (forall label, In label (options upper s) <->
        exists r, In r (joined s) /\ loan_label upper r = label)
  /\ (forall label i, dict_get (loan_map upper s) label = Some i ->
        (exists l c, In (l, c) (select_loan_view i s)
                     /\ loan_label upper (l, c) = label)
        /\ snd (place_call tw i "reminder" s)
           <> Ret [("error", "Loan not found")]
        /\ snd (send_payment_link tw i s) <> Ret [("error", "Loan not found")]
        /\ snd (reschedule_loan i days_to_add_default s)
           <> Ret [("error", "Loan not found")]).
Proof.
  destruct (loan_map_fold upper (select_all_loans s) [])
    as (Hget & Hrows & _ & Hkeys). cbv zeta in *.
  fold (loan_map upper s) in Hget, Hrows, Hkeys.
  assert (Hsome : forall label i, dict_get (loan_map upper s) label = Some i ->
            exists l c, In (l, c) (select_loan_view i s)
                        /\ loan_label upper (l, c) = label).
  { intros label i Hk.
    destruct (Hget label i Hk) as [Hd | ([l c] & Hr & E & Hi)];
      [discriminate Hd|].
    exists l, c. split; [| exact E].
    unfold select_loan_view. apply filter_In.
    split; [apply in_select_all_loans; exact Hr|].
    cbn [fst] in *. apply Z.eqb_eq. exact Hi. }
  split; [| split].
  - intros r Hr. apply in_select_all_loans in Hr.
    destruct (Hrows r Hr) as [i Hi]. rewrite Hi. f_equal.
    destruct (Hget _ _ Hi) as [Hd | (r' & Hr' & E & <-)]; [discriminate Hd|].
    apply (loan_label_id upper). exact E.
  - intros label. unfold options. rewrite Hkeys. cbn [map In]. split.
    + intros [[] | (r & Hr & E)]. exists r.
      split; [apply in_select_all_loans; exact Hr | exact E].
    + intros (r & Hr & E). right. exists r.
      split; [apply in_select_all_loans; exact Hr | exact E].
  - intros label i Hk. destruct (Hsome label i Hk) as (l & c & Hin & E).
    split; [exists l, c; split; assumption|].
    rewrite place_call_eq, send_payment_link_eq, reschedule_loan_eq.
    assert (Hl : In l (loans s) /\ Loan.id l = i)
      by (apply in_select_loan_view in Hin; tauto).
    assert (Hdue : select_due_date i s <> []).
    { unfold select_due_date. intros Hnil.
      assert (Hd : In (Loan.due_date l)
                      (map Loan.due_date
                           (filter (fun l => Loan.id l =? i) (loans s)))).
      { apply in_map. apply filter_In. rewrite Z.eqb_eq. exact Hl. }
      rewrite Hnil in Hd. exact Hd. }
    destruct (select_loan_view i s) as [| [l0 c0] rest]; [destruct Hin|].
    destruct (select_due_date i s) as [| due more]; [contradiction|].
    split; [| split].
    + destruct (PyDate.fromisoformat _); [| discriminate].
      destruct (get_msg _ _ _); [| discriminate].
      cbv zeta. destruct (USE_TWILIO tw); [| discriminate].
      destruct (calls_create _ _ _ _); discriminate.
    + cbv zeta. destruct (USE_TWILIO tw); [| discriminate].
      destruct (messages_create _ _ _ _); discriminate.
    + destruct (PyDate.fromisoformat due); [| discriminate].
      destruct (PyDate.add_days _ _); discriminate.
Qed.

(** * Styles and links *)

Lemma date_ltb_leb (a b : PyDate.date) : date_ltb a b = negb (PyDate.leb b a).
Proof.
  unfold date_ltb, PyDate.leb.
  destruct a as [y m d], b as [y' m' d'];
    cbn [PyDate.year PyDate.month PyDate.day].
  lia.
Qed.

Lemma repeat_eq_inv {A : Type} (x y : A) (n : nat) :
  (0 < n)%nat -> repeat x n = repeat y n -> x = y.
Proof. destruct n; [lia|]. cbn [repeat]. intros _ [= E _]. exact E. Qed.

(** X23. The red rows of the loan table are the overdue loans of
    11 August 2025, whatever the day is: in a consistent store, a loan
    whose row carries the date its due date reads as is styled red
    exactly when the overdue query for 2025-08-11 returns it; so a red
    row is on the overdue list of every later day, while a loan that
    fell due on 12 August 2025 or after is never red. *)
Theorem red_rows_are_overdue_on_aug_11
        (s : db) (l : Loan.t) (d : PyDate.date) (n : nat) :
  wf_db s = true -> In l (loans s) ->
  PyDate.fromisoformat (Loan.due_date l) = Ret d -> (0 < n)%nat ->
  let red := repeat "background-color: #f8d7da; color: #721c24"%string n in
  (style_status (Loan.status l) d n = red
   <-> In (Loan.id l) (select_overdue (PyDate.isoformat aug11) s))
  /\ (forall day, PyDate.check_date_fields day = true ->
        PyDate.toordinal aug11 <= PyDate.toordinal day ->
        style_status (Loan.status l) d n = red ->
        In (Loan.id l) (select_overdue (PyDate.isoformat day) s))
  /\ (PyDate.toordinal aug11 < PyDate.toordinal d ->
      style_status (Loan.status l) d n <> red).
Proof.
  intros Hwf Hl Hd Hn. cbv zeta.
  destruct (PyDateFacts.fromisoformat_inv _ _ Hd) as [Hc _].
  assert (Hlt : date_ltb d (PyDate.mkdate 2025 8 12) = true
                <-> PyDate.toordinal d <= PyDate.toordinal aug11).
  { rewrite date_ltb_leb, negb_true_iff.
    pose proof (leb_toordinal (PyDate.mkdate 2025 8 12) d eq_refl Hc) as Hle.
    change (PyDate.toordinal (PyDate.mkdate 2025 8 12)) with 739475 in Hle.
    change (PyDate.toordinal aug11) with 739474.
    destruct (PyDate.leb (PyDate.mkdate 2025 8 12) d).
    - split; [discriminate|]. intros H. pose proof (proj1 Hle eq_refl). lia.
    - split; [intros _ | reflexivity].
      destruct (Z.le_gt_cases 739475 (PyDate.toordinal d)) as [H | H]; [| lia].
      apply Hle in H. discriminate H. }
  assert (Hred : style_status (Loan.status l) d n
                 = repeat "background-color: #f8d7da; color: #721c24"%string n
                 <-> Loan.status l = "due"
                     /\ PyDate.toordinal d <= PyDate.toordinal aug11).
  { rewrite <- Hlt. unfold style_status. cbv zeta.
    destruct (String.eqb (Loan.status l) "paid") eqn:E1.
    - apply String.eqb_eq in E1. rewrite E1. split.
      + intros H. apply repeat_eq_inv in H; [discriminate H | exact Hn].
      + intros [H _]. discriminate H.
    - destruct (String.eqb (Loan.status l) "rescheduled") eqn:E2.
      + apply String.eqb_eq in E2. rewrite E2. split.
        * intros H. apply repeat_eq_inv in H; [discriminate H | exact Hn].
        * intros [H _]. discriminate H.
      + destruct (String.eqb (Loan.status l) "due") eqn:E3; cbn [andb].
        * apply String.eqb_eq in E3.
          destruct (date_ltb d (PyDate.mkdate 2025 8 12)).
          -- split; [intros _; split; [exact E3 | reflexivity] | reflexivity].
          -- split.
             ++ intros H. apply repeat_eq_inv in H; [discriminate H | exact Hn].
             ++ intros [_ H]. discriminate H.
        * apply String.eqb_neq in E3. split.
          -- intros H. apply repeat_eq_inv in H; [discriminate H | exact Hn].
          -- intros [H _]. contradiction. }
  assert (Hover : forall day, PyDate.check_date_fields day = true ->
            (In (Loan.id l) (select_overdue (PyDate.isoformat day) s)
             <-> Loan.status l = "due"
                 /\ PyDate.toordinal d <= PyDate.toordinal day)).
  { intros day Hday. rewrite (select_overdue_days s day l Hwf Hday Hl). split.
    - intros [Hs (d' & Hd' & Hle)]. rewrite Hd in Hd'. injection Hd' as <-.
      split; assumption.
    - intros [Hs Hle]. split; [exact Hs|]. exists d. split; assumption. }
  split; [| split].
  - rewrite Hred. symmetry. apply Hover. reflexivity.
  - intros day Hday Hle H. apply (Hover day Hday). apply Hred in H.
    split; [tauto | lia].
  - intros Hgt H. apply Hred in H. lia.
Qed.

Lemma red_rows_are_overdue_on_aug_11_witness :
  wf_db one_loan = true
  /\ In (Loan.mk 1 1 4000 "2025-01-01" "due") (loans one_loan)
  /\ PyDate.fromisoformat "2025-01-01" = Ret jan1 /\ (0 < 6)%nat
  /\ (style_status "due" jan1 6
      = repeat "background-color: #f8d7da; color: #721c24"%string 6
      <-> In 1 (select_overdue (PyDate.isoformat aug11) one_loan)).
Proof.
  assert (Hin : In (Loan.mk 1 1 4000 "2025-01-01" "due") (loans one_loan))
    by (left; reflexivity).
  split; [reflexivity|]. split; [exact Hin|]. split; [reflexivity|].
  split; [lia|].
  exact (proj1 (red_rows_are_overdue_on_aug_11 one_loan
                  (Loan.mk 1 1 4000 "2025-01-01" "due") jan1 6
                  eq_refl Hin eq_refl ltac:(lia))).
Defined.

(** X24. The payment link names its loan and its amount: two links
    are the same text only for the same loan id and the same amount, so
    the link [send_payment_link] returns and logs cannot be taken for the
    link of another loan or of another amount. *)
Theorem payment_link_names_loan_and_amount (i e j f : Z) :
  payment_link_of i e = payment_link_of j f <-> i = j /\ e = f.
Proof.
  split; [| intros [-> ->]; reflexivity].
  unfold payment_link_of. intros H.
  assert (Hrest : (str_of_int i ++ String "&" ("amount=" ++ str_of_int e))%string
                  = (str_of_int j ++ String "&" ("amount=" ++ str_of_int f))%string).
  { cbn [append] in H. injection H as H. exact H. }
  destruct (before_char "&" _ _ _ _
              (str_of_int_no_char "&" i eq_refl)
              (str_of_int_no_char "&" j eq_refl) Hrest) as [Hi He].
  cbn [append] in He. injection He as He.
  split; apply str_of_int_inj; assumption.
Qed.

(** * The two scripts side by side, and updates of different loans *)

(** X25. [place_call] of the two scripts with the mock channel, on the
    same store and a loan id SQLite can bind.  They answer "Loan not found" for the same
    loans.  Where the reminder of [ap3.py] returns, the one of [ap2.py]
    returns too, both with [mock_call_logged], and both have logged
    [call_initiated] with the same phone and then [mock_call]; only the
    texts differ.  And for a loan whose due date is an ISO date both
    return: on the stores the scripts write, the two calls differ in
    their texts only. *)
Theorem ap2_ap3_mock_calls (tw : twilio) (i : Z) (s : db) :
  USE_TWILIO tw = false ->
  sqlite_int i = true ->
  (snd (place_call tw i "reminder" s) = Ret [("error", "Loan not found")]
   <-> snd (Ap2.place_call tw i s) = Ret [("error", "Loan not found")])
  /\ (forall r, snd (place_call tw i "reminder" s) = Ret r ->
        r <> [("error", "Loan not found")] ->
        exists text text2 phone,
          r = [("status", "mock_call_logged"); ("text", text)]
          /\ snd (Ap2.place_call tw i s)
             = Ret [("status", "mock_call_logged"); ("text", text2)]
          /\ logged s (fst (place_call tw i "reminder" s))
             = [(i, "call_initiated", ("to " ++ phone)%string);
                (i, "mock_call", text)]
          /\ logged s (fst (Ap2.place_call tw i s))
             = [(i, "call_initiated", ("to " ++ phone)%string);
                (i, "mock_call", text2)])
  /\ (forall l c rest d,
        select_loan_view i s = (l, c) :: rest ->
        PyDate.fromisoformat (Loan.due_date l) = Ret d ->
        exists text text2,
          snd (place_call tw i "reminder" s)
          = Ret [("status", "mock_call_logged"); ("text", text)]
          /\ snd (Ap2.place_call tw i s)
             = Ret [("status", "mock_call_logged"); ("text", text2)]
          /\ contains text (Customer.name c)
          /\ contains text2 (Customer.name c)
          /\ contains text (str_of_int (Loan.emi_amount l))
          /\ contains text2 (str_of_int (Loan.emi_amount l))).
Proof.
  intros Hu _. rewrite (ap2_place_call_mock tw i s Hu), place_call_eq.
  destruct (select_loan_view i s) as [| [l c] rest] eqn:Hv.
  - split; [tauto|]. split.
    + intros r [= <-] Hne. contradiction.
    + intros l c rest d [=].
  - destruct (ap2_reminder_text (Customer.language c) (Customer.name c)
                (str_of_int (Loan.emi_amount l)))
      as (text2 & -> & Hn2 & Ha2).
    cbn [fst snd].
    split; [| split].
    + split; [| discriminate].
      destruct (PyDate.fromisoformat _); [| discriminate].
      destruct (get_msg _ _ _); [| discriminate].
      cbv zeta. rewrite Hu. discriminate.
    + intros r Hr _.
      destruct (PyDate.fromisoformat _); [| discriminate Hr].
      destruct (get_msg _ _ _) as [text |]; [| discriminate Hr].
      cbv zeta in *. rewrite Hu in *. cbn [snd fst] in *.
      injection Hr as <-. exists text, text2, (Customer.phone c).
      split; [reflexivity|]. split; [reflexivity|].
      split; cbn [insert_call_log fst customers loans call_logs];
        solve_logged.
    + intros l0 c0 rest0 d [= <- <- <-] Hd. rewrite Hd.
      destruct (reminder_text_contains (Customer.language c) "reminder"
                  (Customer.name c) (str_of_int (Loan.emi_amount l))
                  (PyDate.strftime_B_d_Y d) (or_introl eq_refl))
        as (text & Ht & Hn & Ha & _).
      fold (call_kwargs l c (PyDate.strftime_B_d_Y d)) in Ht. rewrite Ht.
      cbv zeta. rewrite Hu. cbn [snd].
      exists text, text2. repeat split; assumption.
Qed.

Lemma ap2_ap3_mock_calls_witness :
  USE_TWILIO mock = false
  /\ sqlite_int 2 = true
  /\ select_loan_view 2 two_loans
     = [(Loan.mk 2 2 2500 "2025-01-01" "due", Customer.mk 2 "B" "+912" "hi")]
  /\ PyDate.fromisoformat "2025-01-01" = Ret jan1
  /\ exists text text2,
       snd (place_call mock 2 "reminder" two_loans)
       = Ret [("status", "mock_call_logged"); ("text", text)]
       /\ snd (Ap2.place_call mock 2 two_loans)
          = Ret [("status", "mock_call_logged"); ("text", text2)]
       /\ contains text "2500" /\ contains text2 "2500".
Proof.
  split; [reflexivity|]. split; [reflexivity|]. split; [reflexivity|].
  split; [reflexivity|].
  destruct (ap2_ap3_mock_calls mock 2 two_loans eq_refl eq_refl)
    as (_ & _ & Hboth).
  destruct (Hboth (Loan.mk 2 2 2500 "2025-01-01" "due")
                  (Customer.mk 2 "B" "+912" "hi") [] jan1 eq_refl eq_refl)
    as (text & text2 & H3 & H2 & _ & _ & Ha & Ha2).
  exists text, text2.
  split; [exact H3|]. split; [exact H2|]. split; [exact Ha | exact Ha2].
Defined.

Lemma select_due_date_set_paid (i j : Z) (s t : db) :
  loans t = map (set_paid j) (loans s) ->
  select_due_date i t = select_due_date i s.
Proof.
  intros E. unfold select_due_date. rewrite E. clear E.
  induction (loans s) as [| l rows IH]; [reflexivity|].
  cbn [map filter]. rewrite set_paid_id.
  destruct (Loan.id l =? i); cbn [map]; rewrite IH; [| reflexivity].
  f_equal. unfold set_paid. destruct (Loan.id l =? j); reflexivity.
Qed.

Lemma select_due_date_set_rescheduled (i j : Z) (u : string) (s t : db) :
  i <> j -> loans t = map (set_rescheduled u j) (loans s) ->
  select_due_date i t = select_due_date i s.
Proof.
  intros Hne E. unfold select_due_date. rewrite E. clear E.
  induction (loans s) as [| l rows IH]; [reflexivity|].
  cbn [map filter]. rewrite set_rescheduled_id.
  destruct (Loan.id l =? i) eqn:Ei; cbn [map]; rewrite IH; [| reflexivity].
  f_equal. unfold set_rescheduled. apply Z.eqb_eq in Ei.
  destruct (Z.eqb_spec (Loan.id l) j); [lia | reflexivity].
Qed.

Lemma set_paid_set_rescheduled (i j : Z) (u : string) (l : Loan.t) :
  i <> j ->
  set_paid j (set_rescheduled u i l) = set_rescheduled u i (set_paid j l).
Proof.
  intros Hne. unfold set_paid, set_rescheduled.
  destruct (Z.eqb_spec (Loan.id l) i), (Z.eqb_spec (Loan.id l) j);
    cbn [Loan.id]; try lia;
    repeat match goal with
      | |- context [?a =? ?b] =>
          destruct (Z.eqb_spec a b); try lia
      end; reflexivity.
Qed.

Lemma set_rescheduled_comm (i j : Z) (u v : string) (l : Loan.t) :
  i <> j ->
  set_rescheduled v j (set_rescheduled u i l)
  = set_rescheduled u i (set_rescheduled v j l).
Proof.
  intros Hne. unfold set_rescheduled.
  destruct (Z.eqb_spec (Loan.id l) i), (Z.eqb_spec (Loan.id l) j);
    cbn [Loan.id]; try lia;
    repeat match goal with
      | |- context [?a =? ?b] =>
          destruct (Z.eqb_spec a b); try lia
      end; reflexivity.
Qed.

(** What [reschedule_loan] does to the tables, and what decides it. *)
Lemma reschedule_loan_effect (i n : Z) (t : db) :
  loans (fst (reschedule_loan i n t))
  = match reschedule_target i n t with
    | Some new_date => map (set_rescheduled new_date i) (loans t)
    | None => loans t
    end
  /\ customers (fst (reschedule_loan i n t)) = customers t
  /\ forall s, select_due_date i t = select_due_date i s ->
       snd (reschedule_loan i n t) = snd (reschedule_loan i n s)
       /\ reschedule_target i n t = reschedule_target i n s.
Proof.
  unfold reschedule_target. split; [| split].
  - rewrite reschedule_loan_eq.
    destruct (select_due_date i t) as [| due rest]; [reflexivity|].
    destruct (PyDate.fromisoformat due); [| reflexivity].
    destruct (PyDate.add_days _ _); reflexivity.
  - rewrite reschedule_loan_eq.
    destruct (select_due_date i t) as [| due rest]; [reflexivity|].
    destruct (PyDate.fromisoformat due); [| reflexivity].
    destruct (PyDate.add_days _ _); reflexivity.
  - intros s E. rewrite !reschedule_loan_eq, E.
    destruct (select_due_date i s) as [| due rest]; [split; reflexivity|].
    destruct (PyDate.fromisoformat due); [| split; reflexivity].
    destruct (PyDate.add_days _ _); split; reflexivity.
Qed.

(** X26. Updates of different loans do not interfere.  For two
    different loan ids, rescheduling one and marking the other paid give
    the same results and the same tables of loans and customers in either
    order, and so do two reschedulings; only the order of the two events
    in the log differs.  (On one and the same loan the order matters: the
    last update decides the status.) *)
Theorem updates_of_different_loans_commute (s : db) (i j n m : Z) :
  i <> j ->
  let paid_first := fst (mark_paid j s) in
  let moved_first := fst (reschedule_loan i n s) in
  (snd (reschedule_loan i n paid_first) = snd (reschedule_loan i n s)
   /\ loans (fst (reschedule_loan i n paid_first))
      = loans (fst (mark_paid j moved_first))
   /\ customers (fst (reschedule_loan i n paid_first))
      = customers (fst (mark_paid j moved_first)))
  /\ (snd (reschedule_loan j m moved_first) = snd (reschedule_loan j m s)
      /\ snd (reschedule_loan i n (fst (reschedule_loan j m s)))
         = snd (reschedule_loan i n s)
      /\ loans (fst (reschedule_loan j m moved_first))
         = loans (fst (reschedule_loan i n (fst (reschedule_loan j m s))))
      /\ customers (fst (reschedule_loan j m moved_first))
         = customers (fst (reschedule_loan i n (fst (reschedule_loan j m s))))).
Proof.
  intros Hne. cbv zeta.
  destruct (reschedule_loan_effect i n s) as (Li & Ci & _).
  destruct (reschedule_loan_effect j m s) as (Lj & Cj & _).
  split.
  - destruct (reschedule_loan_effect i n (fst (mark_paid j s)))
      as (L & C & Hsame).
    destruct (Hsame s (select_due_date_set_paid i j s (fst (mark_paid j s))
                         ltac:(rewrite mark_paid_store; reflexivity)))
      as [Hr Ht].
    split; [exact Hr|].
    rewrite L, C, Ht, !mark_paid_store. cbn [loans customers].
    rewrite Li, Ci. split; [| reflexivity].
    destruct (reschedule_target i n s) as [u |]; [| reflexivity].
    rewrite !map_map. apply map_ext. intros l. symmetry.
    apply set_paid_set_rescheduled. exact Hne.
  - assert (Ej : select_due_date j (fst (reschedule_loan i n s))
                 = select_due_date j s).
    { destruct (reschedule_target i n s) as [u |].
      - apply (select_due_date_set_rescheduled j i u); [lia | exact Li].
      - unfold select_due_date. rewrite Li. reflexivity. }
    assert (Ei : select_due_date i (fst (reschedule_loan j m s))
                 = select_due_date i s).
    { destruct (reschedule_target j m s) as [v |].
      - apply (select_due_date_set_rescheduled i j v); [lia | exact Lj].
      - unfold select_due_date. rewrite Lj. reflexivity. }
    destruct (reschedule_loan_effect j m (fst (reschedule_loan i n s)))
      as (L1 & C1 & H1).
    destruct (reschedule_loan_effect i n (fst (reschedule_loan j m s)))
      as (L2 & C2 & H2).
    destruct (H1 s Ej) as [R1 T1]. destruct (H2 s Ei) as [R2 T2].
    split; [exact R1|]. split; [exact R2|].
    rewrite L1, L2, C1, C2, T1, T2, Li, Lj, Ci, Cj.
    split; [| reflexivity].
    destruct (reschedule_target i n s) as [u |],
             (reschedule_target j m s) as [v |]; try reflexivity.
    rewrite !map_map. apply map_ext. intros l.
    apply set_rescheduled_comm. exact Hne.
Qed.

Lemma updates_of_different_loans_commute_witness :
  1 <> 2
  /\ loans (fst (reschedule_loan 1 7 (fst (mark_paid 2 two_loans))))
     = loans (fst (mark_paid 2 (fst (reschedule_loan 1 7 two_loans)))).
Proof.
  assert (Hne : 1 <> 2) by lia.
  split; [exact Hne|].
  exact (proj1 (proj2 (proj1 (updates_of_different_loans_commute
                                two_loans 1 2 7 7 Hne)))).
Defined.
